(** * Shopearn Pro API: the catalog, admin-links and redirect handlers

    A shallow embedding of [src/main.py] and [src/schemas.py].  Documents are
    Python/BSON dictionaries, modelled as finite maps from field names to
    values; a collection is the list of its documents in natural (insertion)
    order; the handlers are computations in a small state-and-exception monad
    over the database and its environment: the wall clock, the store's write
    failures, and the behaviour of the handle and of the libraries that the
    sources do not settle. *)

From Stdlib Require Import PrimFloat Ascii.
From Stdlib Require String.
From stdpp Require Import gmap strings list fin_maps sorting.

Set Warnings "-register-all".
Set Default Proof Using "Type".

(** ** Strings *)

Module Str.

(** Lower-casing of ASCII letters: A-Z are mapped to a-z and every other
    byte is kept.  This is [str.lower()] on ASCII text, and the rendering
    of the digits of an [ObjectId]. *)
Definition ascii_lower (c : ascii) : ascii :=
  let n := nat_of_ascii c in
  if (65 <=? n) && (n <=? 90) then ascii_of_nat (n + 32) else c.

Fixpoint lower (s : string) : string :=
  match s with
  | EmptyString => EmptyString
  | String c s' => String (ascii_lower c) (lower s')
  end.

(** [needle in hay]: plain substring occurrence, stated as the specification
    words it ("occurs as a substring"), not as an algorithm. *)
Definition occurs_in (needle hay : string) : Prop :=
  ∃ pre suf : string, hay = pre +:+ needle +:+ suf.

(** Occurrence up to letter case. *)
Definition occurs_in_ci (needle hay : string) : Prop :=
  occurs_in (lower needle) (lower hay).

Fixpoint all_chars (P : ascii → bool) (s : string) : bool :=
  match s with
  | EmptyString => true
  | String c s' => P c && all_chars P s'
  end.

Fixpoint has_char (c : ascii) (s : string) : bool :=
  match s with
  | EmptyString => false
  | String c' s' => bool_decide (c = c') || has_char c s'
  end.

Definition is_hex (c : ascii) : bool :=
  has_char c "0123456789abcdefABCDEF".

(** ASCII white space: space, tab, line feed, vertical tab, form feed and
    carriage return. *)
Definition is_space (c : ascii) : bool :=
  let n := nat_of_ascii c in (n =? 32) || ((9 <=? n) && (n <=? 13)).

Definition has_space (s : string) : bool :=
  negb (all_chars (λ c, negb (is_space c)) s).

(** Text made of ASCII characters only. *)
Definition is_ascii (s : string) : bool :=
  all_chars (λ c, nat_of_ascii c <? 128) s.

End Str.

(** ** Regular expressions of the store's [$regex] operator

    The store matches [{"$regex": p, "$options": o}] with a PCRE search: the
    pattern may match anywhere in the field.  The fragment modelled here is
    the one made of ordinary characters and the wildcard [.] (any character
    but a newline); a pattern that uses another metacharacter is outside the
    fragment and [compile] gives [None] for it. *)

Module Regex.

Inductive atom :=
| Lit (c : ascii)
| AnyChar.

Definition metachars : string := "\^$.|?*+()[]{}".

Definition is_meta (c : ascii) : bool := Str.has_char c metachars.

Fixpoint compile (p : string) : option (list atom) :=
  match p with
  | EmptyString => Some []
  | String c p' =>
      if bool_decide (c = "."%char) then (AnyChar ::.) <$> compile p'
      else if is_meta c then None
      else (Lit c ::.) <$> compile p'
  end.

Definition newline : ascii := ascii_of_nat 10.

(** One pattern position against one subject character; [ci] is the [i]
    option (caseless matching). *)
Definition atom_matches (ci : bool) (a : atom) (c : ascii) : bool :=
  match a with
  | Lit x =>
      if ci then bool_decide (Str.ascii_lower x = Str.ascii_lower c)
      else bool_decide (x = c)
  | AnyChar => negb (bool_decide (c = newline))
  end.

(** The pattern matches a prefix of the subject. *)
Fixpoint match_here (ci : bool) (pat : list atom) (s : string) : bool :=
  match pat, s with
  | [], _ => true
  | a :: pat', String c s' => atom_matches ci a c && match_here ci pat' s'
  | _ :: _, EmptyString => false
  end.

(** The pattern matches at some position of the subject. *)
Fixpoint search (ci : bool) (pat : list atom) (s : string) : bool :=
  match_here ci pat s ||
  match s with
  | EmptyString => false
  | String _ s' => search ci pat s'
  end.

Definition caseless (options : string) : bool := Str.has_char "i"%char options.

Definition regex_search (pattern options subject : string) : bool :=
  match compile pattern with
  | Some pat => search (caseless options) pat subject
  | None => false
  end.

Definition supported (pattern : string) : bool :=
  bool_decide (is_Some (compile pattern)).

(** A query string that is free of regular-expression metacharacters. *)
Definition plain (q : string) : bool :=
  Str.all_chars (λ c, negb (is_meta c)) q.

End Regex.

(** ** Values, documents and the database *)

(** Python/BSON values as the handlers meet them. *)
Inductive value :=
| VNone
| VBool (b : bool)
| VInt (z : Z)
| VFloat (f : float)
| VStr (s : string)
| VDate (t : Z)
| VList (l : list value)
| VDict (d : gmap string value).

(** Python truthiness, as in [if x:] and [not x]. *)
Definition truthy (v : value) : bool :=
  match v with
  | VNone => false
  | VBool b => b
  | VInt z => negb (z =? 0)%Z
  | VFloat f => negb (PrimFloat.eqb f 0%float)
  | VStr s => negb (bool_decide (s = ""))
  | VDate _ => true
  | VList l => negb (bool_decide (l = []))
  | VDict d => negb (bool_decide (dom d = ∅))
  end.

(** [d.get(k)] of a Python dict: a missing key reads as [None]. *)
Definition dict_get (d : gmap string value) (k : string) : value :=
  default VNone (d !! k).

(** An [ObjectId], held as its canonical rendering: 24 lower-case hexadecimal
    digits.  [str_oid] is Python's [str(oid)]. *)
Definition oid := string.
Definition str_oid (o : oid) : string := o.

Definition valid_oid (s : string) : bool :=
  (String.length s =? 24) && Str.all_chars Str.is_hex s.

(** A stored document: the [_id] the store gave it, and its other fields. *)
Record document := Doc { _id : oid; fields : gmap string value }.

Abbreviation collection := (list document).
Abbreviation database := (gmap string collection).

(** [db[name]]: a collection that was never written to is empty. *)
Definition coll (d : database) (name : string) : collection :=
  default [] (d !! name).

(** ** The store's query language, as far as the handlers use it *)

Inductive scalar :=
| SStr (s : string)
| SBool (b : bool).

Inductive clause :=
| IdEq (o : oid)                                   (* {"_id": o} *)
| FieldEq (k : string) (v : scalar)                (* {k: v} *)
| FieldRegex (k : string) (pattern options : string)
                                  (* {k: {"$regex": p, "$options": o}} *)
| Or (alternatives : list clause).                 (* {"$or": [...]} *)

(** A filter dictionary: the conjunction of its entries; [{}] is [[]]. *)
Definition query := list clause.

Definition scalar_eq (v : scalar) (x : value) : bool :=
  match v, x with
  | SStr s, VStr s' => bool_decide (s = s')
  | SBool b, VBool b' => bool_decide (b = b')
  | _, _ => false
  end.

(** Equality on a field: the field holds the value, or is an array with an
    element that is. *)
Definition field_eq (v : scalar) (f : option value) : bool :=
  match f with
  | Some (VList l) => existsb (scalar_eq v) l
  | Some x => scalar_eq v x
  | None => false
  end.

Definition regex_value (pattern options : string) (x : value) : bool :=
  match x with
  | VStr s => Regex.regex_search pattern options s
  | _ => false
  end.

(** [$regex] on a field: only strings (or strings in an array) can match. *)
Definition field_regex (pattern options : string) (f : option value) : bool :=
  match f with
  | Some (VList l) => existsb (regex_value pattern options) l
  | Some x => regex_value pattern options x
  | None => false
  end.

Fixpoint clause_matches (c : clause) (d : document) : bool :=
  match c with
  | IdEq o => bool_decide (_id d = o)
  | FieldEq k v => field_eq v (fields d !! k)
  | FieldRegex k p o => field_regex p o (fields d !! k)
  | Or alts => existsb (λ c', clause_matches c' d) alts
  end.

Definition matches (q : query) (d : document) : bool :=
  forallb (λ c, clause_matches c d) q.

Fixpoint clause_supported (c : clause) : bool :=
  match c with
  | FieldRegex _ p _ => Regex.supported p
  | Or alts => forallb clause_supported alts
  | _ => true
  end.

Definition query_supported (q : query) : bool := forallb clause_supported q.

(** ** The handlers' monad: database, clock and write failures *)

(** What the process cannot control: the readings of the wall clock, the
    writes the store refuses (network or server errors), and the identifiers
    the store generates, each indexed by the number of interactions the run
    has had with its environment so far; and what the sources do not
    settle:

    - whether the handle [db] of [database.py] can be used as a condition.
      The handlers write [... if db else ...]; a [pymongo] [Database]
      (version 4 and later) raises [NotImplementedError] from its
      [__bool__], other handles are true.  Only the connection test of
      [main.py] compares with [db is not None];
    - what the store's regular-expression engine does with a filter
      outside the fragment modelled above: it rejects the filter, or
      selects records by a test that is not computed here;
    - [str.lower()] on text beyond ASCII. *)
Record Env := {
  clock : nat → Z;               (* [datetime.now(timezone.utc)] *)
  fails : string → nat → bool;   (* does a write to this collection raise? *)
  new_oid : nat → oid;           (* the [_id] given to an inserted document *)
  truth_test : bool;             (* is [bool(db)] answered, or does it raise? *)
  engine : query → option (document → bool);
  unicode_lower : string → string;
}.

(** [db] is the module-level handle of [database.py]: [None] when no
    connection was configured. *)
Record World := {
  db : option database;
  env : Env;
  tick : nat;
}.

Definition with_db (w : World) (d : database) : World :=
  {| db := Some d; env := env w; tick := tick w |}.

Definition next_tick (w : World) : World :=
  {| db := db w; env := env w; tick := S (tick w) |}.

Inductive exn :=
| HTTPException (status_code : nat) (detail : string)
| Exception (name : string).

(** The outcome of a run: a value, a raised exception, or [Unmodelled] when
    the run asked the store for something outside the modelled fragment of
    its query language. *)
Inductive result (A : Type) :=
| Return (a : A)
| Raise (e : exn)
| Unmodelled.
Arguments Return {A} a.
Arguments Raise {A} e.
Arguments Unmodelled {A}.

Definition M (A : Type) : Type := World → result A * World.

#[global] Instance M_ret : MRet M := λ A a w, (Return a, w).

#[global] Instance M_bind : MBind M := λ A B f m w,
  match m w with
  | (Return a, w') => f a w'
  | (Raise e, w') => (Raise e, w')
  | (Unmodelled, w') => (Unmodelled, w')
  end.

Definition raise {A} (e : exn) : M A := λ w, (Raise e, w).

Definition unmodelled {A} : M A := λ w, (Unmodelled, w).

(** [try: body / except Exception: pass].  [HTTPException] is a subclass of
    [Exception], so every raised exception is swallowed; what the body wrote
    before it raised stays written. *)
Definition try_pass (body : M unit) : M unit := λ w,
  match body w with
  | (Raise _, w') => (Return (), w')
  | r => r
  end.

Definition get_db : M (option database) := λ w, (Return (db w), w).

(** [db] as a condition, as in [x if db else y]: [None] is false; a handle
    is true, or its truth test raises. *)
Definition bool_db : M bool := λ w,
  match db w with
  | None => (Return false, w)
  | Some _ =>
      if truth_test (env w) then (Return true, w)
      else (Raise (Exception "NotImplementedError"), w)
  end.

(** [s.lower()]: computed on ASCII text, taken from the environment on
    other text. *)
Definition py_lower (e : Env) (s : string) : string :=
  if Str.is_ascii s then Str.lower s else unicode_lower e s.

Definition str_lower (s : string) : M string := λ w,
  (Return (py_lower (env w) s), w).

Definition datetime_now : M Z := λ w,
  (Return (clock (env w) (tick w)), next_tick w).

(** [ObjectId(s)]: 24 hexadecimal digits give an identifier.  A string of
    another length raises [InvalidId], and so does one of 24 characters
    with a character that is neither a hexadecimal digit nor white space.
    What [bytes.fromhex] makes of 24 characters with white space among them
    is not modelled. *)
Definition ObjectId (s : string) : M oid :=
  if valid_oid s then mret (Str.lower s)
  else if (String.length s =? 24) && Str.has_space s then unmodelled
  else raise (Exception "InvalidId").

(** ** Collection operations (pymongo) *)

(** [cursor.limit(n)]: a limit of 0 is no limit, and a negative limit is
    treated as its absolute value. *)
Definition cursor_limit (n : Z) (docs : list document) : list document :=
  if (n =? 0)%Z then docs else take (Z.to_nat (Z.abs n)) docs.

(** The store's integers are 64-bit: a larger limit cannot be encoded. *)
Definition fits_int64 (n : Z) : bool :=
  (- 2 ^ 63 <=? n)%Z && (n <=? 2 ^ 63 - 1)%Z.

(** [db[name]]: subscripting [None] raises [TypeError]. *)
Definition db_collection (name : string) : M collection := λ w,
  match db w with
  | Some d => (Return (coll d name), w)
  | None => (Raise (Exception "TypeError"), w)
  end.

(** The test by which the store selects records for a filter: [matches]
    inside the modelled fragment, the engine's own test outside it, unless
    the engine rejects the filter. *)
Definition store_test (q : query) : M (document → bool) := λ w,
  if query_supported q then (Return (matches q), w)
  else
    match engine (env w) q with
    | Some accepts => (Return accepts, w)
    | None => (Raise (Exception "OperationFailure"), w)
    end.

(** [list(db[name].find(q).limit(n))]. *)
Definition find (name : string) (q : query) (limit : Z) : M (list document) :=
  docs ← db_collection name;
  if negb (fits_int64 limit) then raise (Exception "OverflowError")
  else
    accepts ← store_test q;
    mret (cursor_limit limit (filter (λ x, Is_true (accepts x)) docs)).

(** [db[name].find_one(q)]: the first match in natural order, or [None]. *)
Definition find_one (name : string) (q : query) : M (option document) :=
  docs ← db_collection name;
  if negb (query_supported q) then unmodelled
  else mret (snd <$> list_find (λ x, matches q x) docs).

(** The update documents the handlers send. *)
Inductive update :=
| USet (updates : gmap string value)   (* {"$set": updates} *)
| UInc (k : string).                   (* {"$inc": {k: 1}} *)

(** The effect of an update on one document; [$inc] creates a missing field
    and is refused on a field that is not a number. *)
Definition apply_update (u : update) (f : gmap string value)
    : option (gmap string value) :=
  match u with
  | USet updates => Some (updates ∪ f)
  | UInc k =>
      match f !! k with
      | None => Some (<[k := VInt 1]> f)
      | Some (VInt z) => Some (<[k := VInt (z + 1)]> f)
      | Some (VFloat x) => Some (<[k := VFloat (x + 1)%float]> f)
      | Some _ => None
      end
  end.

(** [db[name].update_one(q, u)]: the first match in natural order is
    updated in place; without a match nothing is written.  A refused write
    raises and leaves the collection as it was. *)
Definition update_one (name : string) (q : query) (u : update) : M unit := λ w,
  match db w with
  | None => (Raise (Exception "TypeError"), w)
  | Some d =>
      if fails (env w) name (tick w)
      then (Raise (Exception "PyMongoError"), next_tick w)
      else if negb (query_supported q) then (Unmodelled, w)
      else
        match list_find (λ x, matches q x) (coll d name) with
        | None => (Return (), next_tick w)
        | Some (i, x) =>
            match apply_update u (fields x) with
            | Some f' =>
                (Return (),
                 with_db (next_tick w)
                   (<[name := <[i := Doc (_id x) f']> (coll d name)]> d))
            | None => (Raise (Exception "WriteError"), next_tick w)
            end
        end
  end.

(** [db[name].insert_one(doc).inserted_id]: the document is appended under
    a new [_id]. *)
Definition insert_one (name : string) (f : gmap string value) : M oid := λ w,
  match db w with
  | None => (Raise (Exception "TypeError"), w)
  | Some d =>
      if fails (env w) name (tick w)
      then (Raise (Exception "PyMongoError"), next_tick w)
      else
        let o := new_oid (env w) (tick w) in
        (Return o,
         with_db (next_tick w) (<[name := coll d name ++ [Doc o f]]> d))
  end.

(** The stamps a stored record carries, for a record made at time [t]. *)
Definition stamped (t : Z) (data : gmap string value) : gmap string value :=
  <["updated_at" := VDate t]> (<["created_at" := VDate t]> data).

(** Modelled from the spec: [database.create_document] is imported by
    [main.py] but its module is not among the sources.  The store generates
    the identifier and the caller gets it as a string; records carry the
    creation time ([created_at], by which orders are listed) and the time of
    the last update ([updated_at], by which listings are sorted); without a
    database the call raises. *)
Definition create_document (name : string) (data : gmap string value)
    : M string :=
  d ← get_db;
  match d with
  | None => raise (Exception "Database not available")
  | Some _ =>
      t ← datetime_now;
      o ← insert_one name (stamped t data);
      mret (str_oid o)
  end.

(** ** Pydantic models ([schemas.py] and the request models of [main.py]) *)

Definition opt_value {A} (inj : A → value) (x : option A) : value :=
  match x with
  | Some a => inj a
  | None => VNone
  end.

Definition str_list (l : list string) : value := VList (VStr <$> l).

Definition str_dict (m : gmap string string) : value := VDict (VStr <$> m).

Record ProductCreateRequest := {
  pc_images : list string;
  pc_title : string;
  pc_description : option string;
  pc_price : float;
  pc_vendor : string;
  pc_category : option string;
  pc_tags : list string;
  pc_rating : option float;
  pc_affiliate_link : option string;
  pc_hot_deal : bool;
  pc_hot_deal_expiry : option Z;
}.

Record ProductUpdateRequest := {
  pu_images : option (list string);
  pu_title : option string;
  pu_description : option string;
  pu_price : option float;
  pu_vendor : option string;
  pu_category : option string;
  pu_tags : option (list string);
  pu_rating : option float;
  pu_affiliate_link : option string;
  pu_hot_deal : option bool;
  pu_hot_deal_expiry : option Z;
  pu_featured : option bool;
}.

Record AdminLinks := { links : gmap string string }.

Record Product := {
  affiliate_id : string;
  images : list string;
  title : string;
  description : option string;
  price : float;
  vendor : string;
  category : option string;
  tags : list string;
  rating : option float;
  hot_deal : bool;
  hot_deal_expiry : option Z;
  featured : bool;
  clicks : Z;
  orders : Z;
  affiliate_link : option string;
}.

(** The one constraint of [Product]: [rating] is [Field(ge=0, le=5)]. *)
Definition Product_valid (p : Product) : bool :=
  match rating p with
  | Some r => PrimFloat.leb 0 r && PrimFloat.leb r 5
  | None => true
  end.

Definition Product_dump (p : Product) : gmap string value :=
  list_to_map [
    ("affiliate_id", VStr (affiliate_id p));
    ("images", str_list (images p));
    ("title", VStr (title p));
    ("description", opt_value VStr (description p));
    ("price", VFloat (price p));
    ("vendor", VStr (vendor p));
    ("category", opt_value VStr (category p));
    ("tags", str_list (tags p));
    ("rating", opt_value VFloat (rating p));
    ("hot_deal", VBool (hot_deal p));
    ("hot_deal_expiry", opt_value VDate (hot_deal_expiry p));
    ("featured", VBool (featured p));
    ("clicks", VInt (clicks p));
    ("orders", VInt (orders p));
    ("affiliate_link", opt_value VStr (affiliate_link p))
  ].

Record Click := {
  c_type : string;
  c_user_id : option string;
  c_product_id : option string;
  c_affiliate_id : option string;
  c_ip : option string;
  c_meta : gmap string value;
}.

Definition Click_dump (c : Click) : gmap string value :=
  list_to_map [
    ("type", VStr (c_type c));
    ("user_id", opt_value VStr (c_user_id c));
    ("product_id", opt_value VStr (c_product_id c));
    ("affiliate_id", opt_value VStr (c_affiliate_id c));
    ("ip", opt_value VStr (c_ip c));
    ("meta", VDict (c_meta c))
  ].

Record Order := {
  o_user_id : string;
  o_product_id : string;
  o_affiliate_id : string;
  o_status : string;
  o_vendor_url : option string;
}.

Definition Order_dump (o : Order) : gmap string value :=
  list_to_map [
    ("user_id", VStr (o_user_id o));
    ("product_id", VStr (o_product_id o));
    ("affiliate_id", VStr (o_affiliate_id o));
    ("status", VStr (o_status o));
    ("vendor_url", opt_value VStr (o_vendor_url o))
  ].

Definition AdminSettings_dump (l : gmap string string) : gmap string value :=
  {[ "links" := str_dict l ]}.

Definition AdminAuditLog_dump (admin_id action : string)
    (details : gmap string string) : gmap string value :=
  list_to_map [
    ("admin_id", VStr admin_id);
    ("action", VStr action);
    ("details", str_dict details)
  ].

(** Validation of a value passed for a [str] field. *)
Definition as_str (v : value) : M string :=
  match v with
  | VStr s => mret s
  | _ => raise (Exception "ValidationError")
  end.

(** Validation of a value passed for an [Optional[str]] field. *)
Definition as_optional_str (v : value) : M (option string) :=
  match v with
  | VNone => mret None
  | VStr s => mret (Some s)
  | _ => raise (Exception "ValidationError")
  end.

(** One entry of [model_dump(exclude_none=True)]. *)
Definition set_field {A} (k : string) (inj : A → value) (x : option A)
    (m : gmap string value) : gmap string value :=
  match x with
  | Some a => <[k := inj a]> m
  | None => m
  end.

(** [req.model_dump(exclude_none=True)] of a [ProductUpdateRequest]. *)
Definition ProductUpdateRequest_dump_exclude_none (r : ProductUpdateRequest)
    : gmap string value :=
  set_field "images" str_list (pu_images r)
  (set_field "title" VStr (pu_title r)
  (set_field "description" VStr (pu_description r)
  (set_field "price" VFloat (pu_price r)
  (set_field "vendor" VStr (pu_vendor r)
  (set_field "category" VStr (pu_category r)
  (set_field "tags" str_list (pu_tags r)
  (set_field "rating" VFloat (pu_rating r)
  (set_field "affiliate_link" VStr (pu_affiliate_link r)
  (set_field "hot_deal" VBool (pu_hot_deal r)
  (set_field "hot_deal_expiry" VDate (pu_hot_deal_expiry r)
  (set_field "featured" VBool (pu_featured r) ∅))))))))))).

(** ** The handlers of [main.py] *)

(** What a handler returns: a dictionary, sent as JSON, or the redirect
    response built from a URL (its [Location] header is the URL with the
    characters outside the URL alphabet percent-quoted). *)
Inductive response :=
| JSON (body : gmap string value)
| RedirectResponse (url : string).

(** The part of the incoming request the handlers read:
    [request.client.host], when there is a [request.client]. *)
Record Request := { client : option string }.

Definition ok : gmap string value := {[ "ok" := VBool true ]}.

(** [v != s] for a string [s], negated. *)
Definition is_str (v : value) (s : string) : bool :=
  match v with
  | VStr s' => bool_decide (s' = s)
  | _ => false
  end.

(** [it["_id"] = str(it["_id"])] on a fetched document. *)
Definition to_item (d : document) : gmap string value :=
  <["_id" := VStr (str_oid (_id d))]> (fields d).

(** [RedirectResponse(url)] for a string.  For another value the response
    is built from its [str()], which is not modelled. *)
Definition redirect (url : value) : M response :=
  match url with
  | VStr s => mret (RedirectResponse s)
  | _ => unmodelled
  end.

(** [db[name].find_one({"_id": ObjectId(id)}) if db else None] *)
Definition find_by_id_if_db (name id : string) : M (option document) :=
  connected ← bool_db;
  if connected : bool then o ← ObjectId id; find_one name [IdEq o]
  else mret None.

(** [db[name].find_one({}) if db else None] *)
Definition find_first_if_db (name : string) : M (option document) :=
  connected ← bool_db;
  if connected : bool then find_one name [] else mret None.

(** POST /affiliate/products *)
Definition create_product (req : ProductCreateRequest) (user_id : string)
    : M response :=
  aff ← find_by_id_if_db "user" user_id;
  match aff with
  | None => raise (HTTPException 403 "Only affiliates can upload")
  | Some a =>
      if negb (is_str (dict_get (fields a) "role") "affiliate")
      then raise (HTTPException 403 "Only affiliates can upload")
      else
        let prod :=
          {| affiliate_id := user_id;
             images := pc_images req;
             title := pc_title req;
             description := pc_description req;
             price := pc_price req;
             vendor := pc_vendor req;
             category := pc_category req;
             tags := pc_tags req;
             rating := pc_rating req;
             hot_deal := pc_hot_deal req;
             hot_deal_expiry := pc_hot_deal_expiry req;
             featured := false;
             clicks := 0;
             orders := 0;
             affiliate_link := pc_affiliate_link req |} in
        if negb (Product_valid prod) then raise (Exception "ValidationError")
        else
          pid ← create_document "product" (Product_dump prod);
          mret (JSON (<["product_id" := VStr pid]> ok))
  end.

Definition default_limit : Z := 50.

(** The filter [list_products] builds. *)
Definition products_filter (q category : option string) (hot : option bool)
    : query :=
  (match q with
   | Some s =>
       if bool_decide (s = "") then []
       else [Or [FieldRegex "title" s "i";
                 FieldRegex "description" s "i";
                 FieldRegex "category" s "i"]]
   | None => []
   end) ++
  (match category with
   | Some c => if bool_decide (c = "") then [] else [FieldEq "category" (SStr c)]
   | None => []
   end) ++
  (match hot with
   | Some h => [FieldEq "hot_deal" (SBool h)]
   | None => []
   end).

(** GET /products; [limit] is [None] when the caller gave none. *)
Definition list_products (q category : option string) (hot : option bool)
    (limit : option Z) : M response :=
  let limit := default default_limit limit in
  let filt := products_filter q category hot in
  connected ← bool_db;
  items ← (if connected : bool then find "product" filt limit else mret []);
  mret (JSON (<["items" := VList (VDict <$> (to_item <$> items))]> ok)).

(** GET /products/{product_id} *)
Definition get_product (product_id : string) : M response :=
  doc ← find_by_id_if_db "product" product_id;
  match doc with
  | None => raise (HTTPException 404 "Not found")
  | Some x => mret (JSON (<["item" := VDict (to_item x)]> ok))
  end.

(** PATCH /affiliate/products/{product_id} *)
Definition update_product (product_id : string) (req : ProductUpdateRequest)
    (user_id : string) : M response :=
  prod ← find_by_id_if_db "product" product_id;
  match prod with
  | None => raise (HTTPException 404 "Not found")
  | Some p =>
      if negb (is_str (dict_get (fields p) "affiliate_id") user_id)
      then raise (HTTPException 403 "Not owner")
      else
        let updates := ProductUpdateRequest_dump_exclude_none req in
        t ← datetime_now;
        let updates := <["updated_at" := VDate t]> updates in
        o ← ObjectId product_id;
        update_one "product" [IdEq o] (USet updates);;
        mret (JSON ok)
  end.

(** GET /admin/links *)
Definition get_links : M response :=
  doc ← find_first_if_db "adminsettings";
  match doc with
  | None => mret (JSON (<["links" := VDict ∅]> ok))
  | Some x =>
      mret (JSON (<["links" := default (VDict ∅) (fields x !! "links")]> ok))
  end.

Definition admin_ok (admin_email admin_password : option string) : bool :=
  bool_decide (admin_email = Some "shekharxlr8@gmail.com") &&
  bool_decide (admin_password = Some "Shekhar_4t7").

(** POST /admin/links *)
Definition set_links (payload : AdminLinks)
    (admin_email admin_password : option string) : M response :=
  if negb (admin_ok admin_email admin_password)
  then raise (HTTPException 401 "Invalid admin credentials")
  else
    existing ← find_one "adminsettings" [];
    match existing with
    | Some e =>
        t ← datetime_now;
        update_one "adminsettings" [IdEq (_id e)]
          (USet (<["updated_at" := VDate t]>
                   {[ "links" := str_dict (links payload) ]}))
    | None =>
        create_document "adminsettings" (AdminSettings_dump (links payload));;
        mret ()
    end;;
    try_pass (
      create_document "adminauditlog"
        (AdminAuditLog_dump "hardcoded-admin" "update_links" (links payload));;
      mret ());;
    mret (JSON ok).

(** [(doc or {}).get("links", {}).get(key)] *)
Definition links_get (doc : option document) (key : string) : M value :=
  match doc with
  | None => mret VNone
  | Some x =>
      match default (VDict ∅) (fields x !! "links") with
      | VDict m => mret (dict_get m key)
      | _ => raise (Exception "AttributeError")
      end
  end.

(** GET /r/{platform} *)
Definition redirect_platform (platform : string) (request : Request)
    (user_id : option string) : M response :=
  doc ← find_first_if_db "adminsettings";
  key ← str_lower platform;
  url ← links_get doc key;
  if negb (truthy url)
  then raise (HTTPException 404 "Link not available yet.")
  else
    let ip := client request in
    try_pass (
      create_document "click"
        (Click_dump {| c_type := "logo"; c_user_id := user_id;
                       c_product_id := None; c_affiliate_id := None;
                       c_ip := ip;
                       c_meta := {[ "platform" := VStr platform ]} |});;
      mret ());;
    redirect url.

(** GET /r/product/{product_id} *)
Definition redirect_product (product_id : string) (request : Request)
    (user_id : option string) : M response :=
  prod ← find_by_id_if_db "product" product_id;
  match prod with
  | None => raise (HTTPException 404 "Affiliate link not available")
  | Some p =>
      if negb (truthy (dict_get (fields p) "affiliate_link"))
      then raise (HTTPException 404 "Affiliate link not available")
      else
        try_pass (
          o ← ObjectId product_id;
          update_one "product" [IdEq o] (UInc "clicks"));;
        let ip := client request in
        try_pass (
          aff ← as_optional_str (dict_get (fields p) "affiliate_id");
          create_document "click"
            (Click_dump {| c_type := "product"; c_user_id := user_id;
                           c_product_id := Some product_id;
                           c_affiliate_id := aff;
                           c_ip := ip; c_meta := ∅ |});;
          mret ());;
        redirect (dict_get (fields p) "affiliate_link")
  end.

(** POST /orders *)
Definition create_order (product_id : string) (user_id : option string)
    : M response :=
  prod ← find_by_id_if_db "product" product_id;
  match prod with
  | None => raise (HTTPException 404 "Product not found")
  | Some p =>
      let uid := match user_id with
                 | Some u => if bool_decide (u = "") then "guest" else u
                 | None => "guest"
                 end in
      aff ← as_str (dict_get (fields p) "affiliate_id");
      url ← as_optional_str (dict_get (fields p) "affiliate_link");
      oid ← create_document "order"
              (Order_dump {| o_user_id := uid; o_product_id := product_id;
                             o_affiliate_id := aff; o_status := "Redirected";
                             o_vendor_url := url |});
      mret (JSON (<["order_id" := VStr oid]> ok))
  end.

(** ** Notions of the specification

    The AdminSettings singleton. *)

(** The handle can be used as a condition: its truth test does not raise. *)
Definition testable (w : World) : Prop := truth_test (env w) = true.

(** A connected store behind a handle whose truth test raises. *)
Definition untestable (w : World) : Prop :=
  is_Some (db w) ∧ truth_test (env w) = false.

(** A name in lower case, as [str.lower()] gives it in this state. *)
Definition lowered (w : World) (s : string) : string := py_lower (env w) s.

(** Two names that differ at most in letter case. *)
Definition eq_ci (w : World) (a b : string) : Prop :=
  lowered w a = lowered w b.

(** The record the handlers treat as the singleton: the first document of
    the [adminsettings] collection. *)
Definition singleton (w : World) : option document :=
  d ← db w; head (coll d "adminsettings").

(** The link table a state holds, when it has a well-formed singleton. *)
Definition stored_links (w : World) : option (gmap string value) :=
  x ← singleton w;
  match default (VDict ∅) (fields x !! "links") with
  | VDict m => Some m
  | _ => None
  end.

(** The primary write of [set_links]: replace the links of the singleton,
    or create it. *)
Definition upsert_links (payload : AdminLinks) : M unit :=
  existing ← find_one "adminsettings" [];
  match existing with
  | Some e =>
      t ← datetime_now;
      update_one "adminsettings" [IdEq (_id e)]
        (USet (<["updated_at" := VDate t]>
                 {[ "links" := str_dict (links payload) ]}))
  | None =>
      create_document "adminsettings" (AdminSettings_dump (links payload));;
      mret ()
  end.

(** The stored document with a given [_id]: the first one in natural order,
    with its position. *)
Definition doc_by_id (c : collection) (o : oid) : option (nat * document) :=
  list_find (λ x, _id x = o) c.

(** The stored product a product id names. *)
Definition product_by_id (w : World) (product_id : string)
    : option (nat * document) :=
  d ← db w;
  if valid_oid product_id
  then doc_by_id (coll d "product") (Str.lower product_id)
  else None.

(** The same state, with another pattern of refused writes. *)
Definition refusing (f : string → nat → bool) (w : World) : World :=
  {| db := db w;
     env := {| clock := clock (env w);
               fails := f;
               new_oid := new_oid (env w);
               truth_test := truth_test (env w);
               engine := engine (env w);
               unicode_lower := unicode_lower (env w) |};
     tick := tick w |}.

(** No write to the named collection is refused. *)
Definition writes_succeed (w : World) (name : string) : Prop :=
  ∀ n : nat, fails (env w) name n = false.

(** A computation that stays inside the modelled fragment of the store. *)
Definition modelled {A} (m : M A) : Prop :=
  ∀ w, (m w).1 ≠ Unmodelled.

(** The documents of a collection in a state. *)
Definition collection_of (w : World) (name : string) : collection :=
  from_option (λ d, coll d name) [] (db w).

(** A field of the stored product a product id names. *)
Definition product_field (w : World) (product_id k : string) : option value :=
  p ← product_by_id w product_id; fields p.2 !! k.

(** The URL the link table holds under a key, read as it is stored. *)
Definition stored_link (w : World) (key : string) : option value :=
  m ← stored_links w; m !! key.

(** The Click record redirect-by-product logs. *)
Definition product_click (product_id : string) (user_id : option string)
    (affiliate : string) (request : Request) : Click :=
  {| c_type := "product"; c_user_id := user_id;
     c_product_id := Some product_id; c_affiliate_id := Some affiliate;
     c_ip := client request; c_meta := ∅ |}.

(** The body of a listing response: [{"ok": True, "items": items}]. *)
Definition items_response (items : list (gmap string value)) : response :=
  JSON (<["items" := VList (VDict <$> items)]> ok).

(** The products a search matches, before any limit. *)
Definition matching_products (w : World) (q category : option string)
    (hot : option bool) : list document :=
  filter (λ x, matches (products_filter q category hot) x)
    (collection_of w "product").

(** The value a partial-update request supplies for a field, if any. *)
Definition supplied (r : ProductUpdateRequest) (k : string) : option value :=
  if decide (k = "images") then str_list <$> pu_images r
  else if decide (k = "title") then VStr <$> pu_title r
  else if decide (k = "description") then VStr <$> pu_description r
  else if decide (k = "price") then VFloat <$> pu_price r
  else if decide (k = "vendor") then VStr <$> pu_vendor r
  else if decide (k = "category") then VStr <$> pu_category r
  else if decide (k = "tags") then str_list <$> pu_tags r
  else if decide (k = "rating") then VFloat <$> pu_rating r
  else if decide (k = "affiliate_link") then VStr <$> pu_affiliate_link r
  else if decide (k = "hot_deal") then VBool <$> pu_hot_deal r
  else if decide (k = "hot_deal_expiry") then VDate <$> pu_hot_deal_expiry r
  else if decide (k = "featured") then VBool <$> pu_featured r
  else None.



(** The free-text query occurs, up to letter case, in the title, the
    description or the category of the record. *)
Definition text_occurs (s : string) (d : document) : Prop :=
  ∃ k t, k ∈ ["title"; "description"; "category"] ∧
         fields d !! k = Some (VStr t) ∧ Str.occurs_in_ci s t.

(** ** The API as a transition system *)

(** The calls the model covers. *)
Inductive call :=
| CreateProduct (req : ProductCreateRequest) (user_id : string)
| ListProducts (q category : option string) (hot : option bool)
    (limit : option Z)
| GetProduct (product_id : string)
| UpdateProduct (product_id : string) (req : ProductUpdateRequest)
    (user_id : string)
| GetLinks
| SetLinks (payload : AdminLinks) (admin_email admin_password : option string)
| RedirectPlatform (platform : string) (request : Request)
    (user_id : option string)
| RedirectProduct (product_id : string) (request : Request)
    (user_id : option string)
| CreateOrder (product_id : string) (user_id : option string).

Definition serve (c : call) : M response :=
  match c with
  | CreateProduct req user_id => create_product req user_id
  | ListProducts q category hot limit => list_products q category hot limit
  | GetProduct product_id => get_product product_id
  | UpdateProduct product_id req user_id =>
      update_product product_id req user_id
  | GetLinks => get_links
  | SetLinks payload admin_email admin_password =>
      set_links payload admin_email admin_password
  | RedirectPlatform platform request user_id =>
      redirect_platform platform request user_id
  | RedirectProduct product_id request user_id =>
      redirect_product product_id request user_id
  | CreateOrder product_id user_id => create_order product_id user_id
  end.

(** The state a call leaves, whatever it answers. *)
Definition after (c : call) (w : World) : World := (serve c w).2.

(** The state after a sequence of calls. *)
Definition run (cs : list call) (w : World) : World :=
  foldl (λ w c, after c w) w cs.

(** A product record whose counters are the integers [n] and [m]. *)
Definition counted (p : document) (n m : Z) : Prop :=
  fields p !! "clicks" = Some (VInt n) ∧ fields p !! "orders" = Some (VInt m).

(** Both counters are non-negative integers. *)
Definition counters_ok (p : document) : Prop :=
  ∃ n m, counted p n m ∧ (0 ≤ n)%Z ∧ (0 ≤ m)%Z.

(** The fields of a product the update interface cannot name. *)
Definition protected (k : string) : Prop :=
  k = "clicks" ∨ k = "orders" ∨ k = "affiliate_id".

(** What a partial update can do to the product collection: nothing, or
    rewrite fields other than the protected ones of one record. *)
Inductive patch_step (c : collection) : collection → Prop :=
| patch_same : patch_step c c
| patch_update (i : nat) (p : document) (f' : gmap string value) :
    c !! i = Some p →
    (∀ k, protected k → f' !! k = fields p !! k) →
    patch_step c (<[i := Doc (_id p) f']> c).

(** What one call can do to the product collection: what a partial update
    can do, append a record with both counters at 0, or add 1 to the
    [clicks] of one record. *)
Inductive product_step (c : collection) : collection → Prop :=
| step_patch (c' : collection) :
    patch_step c c' → product_step c c'
| step_create (x : document) :
    counted x 0 0 → product_step c (c ++ [x])
| step_click (i : nat) (p : document) (f' : gmap string value) :
    c !! i = Some p →
    apply_update (UInc "clicks") (fields p) = Some f' →
    product_step c (<[i := Doc (_id p) f']> c).

(** A computation that changes the named collection only along [R]. *)
Definition changes {A} (name : string) (R : collection → collection → Prop)
    (m : M A) : Prop :=
  ∀ w, R (collection_of w name) (collection_of (m w).2 name).

(** A computation that leaves the named collection as it is. *)
Definition keeps {A} (name : string) (m : M A) : Prop :=
  changes name eq m.

(** A computation that leaves the environment and the connection as they
    are: the handle is the same before and after. *)
Definition steady {A} (m : M A) : Prop :=
  ∀ w, env (m w).2 = env w ∧ (is_Some (db (m w).2) ↔ is_Some (db w)).

(** ** The other handlers of [main.py]: accounts, listings of one
    affiliate, the order list and the admin counts *)

Record SignupRequest := {
  su_role : string;
  su_name : string;
  su_email : string;
  su_password : string;
  su_phone : option string;
  su_age : option Z;
  su_gender : option string;
}.

Record LoginRequest := {
  lg_email : string;
  lg_password : string;
}.

Record User := {
  u_role : string;
  u_name : string;
  u_email : string;
  u_password_hash : string;
  u_phone : option string;
  u_photo_url : option string;
  u_age : option Z;
  u_gender : option string;
  u_is_active : bool;
  u_ad_free : bool;
  u_subscription_expiry : option Z;
}.

Definition User_dump (u : User) : gmap string value :=
  list_to_map [
    ("role", VStr (u_role u));
    ("name", VStr (u_name u));
    ("email", VStr (u_email u));
    ("password_hash", VStr (u_password_hash u));
    ("phone", opt_value VStr (u_phone u));
    ("photo_url", opt_value VStr (u_photo_url u));
    ("age", opt_value VInt (u_age u));
    ("gender", opt_value VStr (u_gender u));
    ("is_active", VBool (u_is_active u));
    ("ad_free", VBool (u_ad_free u));
    ("subscription_expiry", opt_value VDate (u_subscription_expiry u))
  ].

Section Accounts.

(** [hashlib.sha256(b).hexdigest()], a function of the standard library
    the handlers only call. *)
Variable sha256_hexdigest : string → string.

Definition hash_password (p : string) : string := sha256_hexdigest p.

(** [db["user"].find_one({"email": email}) if db else None] *)
Definition find_user_if_db (email : string) : M (option document) :=
  connected ← bool_db;
  if connected : bool then find_one "user" [FieldEq "email" (SStr email)]
  else mret None.

(** POST /auth/signup *)
Definition signup (req : SignupRequest) : M response :=
  existing ← find_user_if_db (su_email req);
  match existing with
  | Some _ =>
      raise (HTTPException 400 "Account exists — please login instead.")
  | None =>
      let user :=
        {| u_role := su_role req;
           u_name := su_name req;
           u_email := su_email req;
           u_password_hash := hash_password (su_password req);
           u_phone := su_phone req;
           u_photo_url := None;
           u_age := su_age req;
           u_gender := su_gender req;
           u_is_active := true;
           u_ad_free := false;
           u_subscription_expiry := None |} in
      user_id ← create_document "user" (User_dump user);
      mret (JSON (<["user_id" := VStr user_id]> ok))
  end.

(** POST /auth/login *)
Definition login (req : LoginRequest) : M response :=
  u ← find_user_if_db (lg_email req);
  match u with
  | None => raise (HTTPException 401 "Invalid credentials")
  | Some x =>
      if negb (is_str (dict_get (fields x) "password_hash")
                 (hash_password (lg_password req)))
      then raise (HTTPException 401 "Invalid credentials")
      else mret (JSON (<["user" := VDict (to_item x)]> ok))
  end.

End Accounts.

(** The date a record holds under a key. *)
Definition date_of (k : string) (d : document) : option Z :=
  match fields d !! k with
  | Some (VDate t) => Some t
  | _ => None
  end.

Fixpoint insert_desc (x : Z * document) (l : list (Z * document))
    : list (Z * document) :=
  match l with
  | [] => [x]
  | y :: l' =>
      if (y.1 <=? x.1)%Z then x :: y :: l' else y :: insert_desc x l'
  end.

(** [cursor.sort(k, -1)] on records that all hold a date under [k]: latest
    first.  Records with equal dates are kept in natural order here; the
    store promises no order among them.  Sorting on other values is
    outside the modelled fragment ([None]). *)
Definition cursor_sort_desc (k : string) (docs : list document)
    : option (list document) :=
  keyed ← mapM (λ d, t ← date_of k d; Some (t, d)) docs;
  Some ((foldr insert_desc [] keyed).*2).

(** [list(db[name].find(q).sort(k, -1)) if db else []] *)
Definition find_sorted_if_db (name : string) (q : query) (k : string)
    : M (list document) :=
  connected ← bool_db;
  if connected : bool then
    docs ← db_collection name;
    if negb (query_supported q) then unmodelled
    else
      match cursor_sort_desc k (filter (λ x, matches q x) docs) with
      | Some sorted => mret sorted
      | None => unmodelled
      end
  else mret [].

(** GET /affiliate/my-products *)
Definition my_products (user_id : string) : M response :=
  items ← find_sorted_if_db "product"
             [FieldEq "affiliate_id" (SStr user_id)] "updated_at";
  mret (items_response (to_item <$> items)).

(** The filter [list_orders] builds. *)
Definition orders_filter (user_id : option string) : query :=
  match user_id with
  | Some u => if bool_decide (u = "") then [] else [FieldEq "user_id" (SStr u)]
  | None => []
  end.

(** GET /orders *)
Definition list_orders (user_id : option string) : M response :=
  items ← find_sorted_if_db "order" (orders_filter user_id) "created_at";
  mret (items_response (to_item <$> items)).

(** [db[name].count_documents(q) if db else 0] *)
Definition count_if_db (name : string) (q : query) : M Z :=
  connected ← bool_db;
  if connected : bool then
    docs ← db_collection name;
    if negb (query_supported q) then unmodelled
    else mret (Z.of_nat (length (filter (λ x, matches q x) docs)))
  else mret 0%Z.

(** GET /admin/stats *)
Definition admin_stats (admin_email admin_password : option string)
    : M response :=
  if negb (admin_ok admin_email admin_password)
  then raise (HTTPException 401 "Invalid admin credentials")
  else
    users ← count_if_db "user" [];
    affiliates ← count_if_db "user" [FieldEq "role" (SStr "affiliate")];
    buyers ← count_if_db "user" [FieldEq "role" (SStr "buyer")];
    subscribers ← count_if_db "user" [FieldEq "ad_free" (SBool true)];
    products ← count_if_db "product" [];
    orders ← count_if_db "order" [];
    mret (JSON (<["stats" := VDict (list_to_map [
                   ("users", VInt users);
                   ("buyers", VInt buyers);
                   ("affiliates", VInt affiliates);
                   ("subscribers", VInt subscribers);
                   ("products", VInt products);
                   ("orders", VInt orders)])]> ok)).

(** ** Sample states

    A small marketplace used by the examples: one affiliate, the listing
    the affiliate creates, and an environment in which the writes to the
    collections named in [refused] are refused by the store. *)

Module Sample.

Definition hex_digit (n : nat) : ascii :=
  nth (n `mod` 16)
    ["0"; "1"; "2"; "3"; "4"; "5"; "6"; "7";
     "8"; "9"; "a"; "b"; "c"; "d"; "e"; "f"]%char "0"%char.

Definition oid_of_nat (n : nat) : oid :=
  "65a1b2c3d4e5f60718293a" +:+
  String (hex_digit (n / 16)) (String (hex_digit n) EmptyString).

(** The handle of the examples can be used as a condition; the engine
    rejects what the model does not cover. *)
Definition environment (refused : list string) (now : nat → Z) : Env :=
  {| clock := now;
     fails := λ name _, bool_decide (name ∈ refused);
     new_oid := oid_of_nat;
     truth_test := true;
     engine := λ _, None;
     unicode_lower := λ s, s |}.

(** A clock that advances by one second at each reading. *)
Definition ticking : nat → Z := λ n, (1700000000 + Z.of_nat n)%Z.

Definition affiliate_A : oid := "65a1b2c3d4e5f60718293aff".

Definition users : collection :=
  [Doc affiliate_A
     (list_to_map [("role", VStr "affiliate"); ("name", VStr "A");
                   ("email", VStr "a@example.org")])].

Definition start (now : nat → Z) : World :=
  {| db := Some {[ "user" := users ]};
     env := environment [] now;
     tick := 0 |}.

Definition listing : ProductCreateRequest :=
  {| pc_images := []; pc_title := "Phone case";
     pc_description := Some "Fits every phone";
     pc_price := 499; pc_vendor := "amazon";
     pc_category := Some "accessories"; pc_tags := ["case"];
     pc_rating := None; pc_affiliate_link := Some "https://vendor/x";
     pc_hot_deal := false; pc_hot_deal_expiry := None |}.

(** The state after affiliate A has created the listing. *)
Definition listed (now : nat → Z) : World :=
  (create_product listing affiliate_A (start now)).2.

Definition with_env (w : World) (e : Env) : World :=
  {| db := db w; env := e; tick := tick w |}.

(** The same state behind a handle whose truth test raises, as that of a
    [pymongo] [Database]. *)
Definition strict (w : World) : World :=
  with_env w
    {| clock := clock (env w);
       fails := fails (env w);
       new_oid := new_oid (env w);
       truth_test := false;
       engine := engine (env w);
       unicode_lower := unicode_lower (env w) |}.

(** The same marketplace, from now on with some writes refused. *)
Definition listed_refusing (refused : list string) : World :=
  with_env (listed ticking) (environment refused ticking).

(** The product id the store gave the listing. *)
Definition P : string := oid_of_nat 1.

(** The document the store holds for the listing. *)
Definition product : document :=
  Doc P
    (stamped (ticking 0)
       (Product_dump
          {| affiliate_id := affiliate_A; images := [];
             title := "Phone case";
             description := Some "Fits every phone";
             price := 499; vendor := "amazon";
             category := Some "accessories"; tags := ["case"];
             rating := None; hot_deal := false; hot_deal_expiry := None;
             featured := false; clicks := 0; orders := 0;
             affiliate_link := Some "https://vendor/x" |})).

Definition browser : Request := {| client := Some "203.0.113.7" |}.

(** A partial update that changes the price only. *)
Definition new_price : ProductUpdateRequest :=
  {| pu_images := None; pu_title := None; pu_description := None;
     pu_price := Some 999%float; pu_vendor := None; pu_category := None;
     pu_tags := None; pu_rating := None; pu_affiliate_link := None;
     pu_hot_deal := None; pu_hot_deal_expiry := None; pu_featured := None |}.

(** A clock whose readings coincide. *)
Definition frozen : nat → Z := λ _, 1700000000%Z.

(** A link table, and the admin credential of [set_links]. *)
Definition table : AdminLinks :=
  {| links := {[ "amazon" := "https://amzn.example/x" ]} |}.

Definition admin_email : option string := Some "shekharxlr8@gmail.com".
Definition admin_password : option string := Some "Shekhar_4t7".

(** A state whose link table has a capitalised key. *)
Definition capitalised_links : World :=
  {| db := Some {[ "adminsettings" :=
                     [Doc (oid_of_nat 200)
                        {[ "links" :=
                             str_dict {[ "Amazon" := "https://amzn.example/x" ]} ]}] ]};
     env := environment [] ticking;
     tick := 0 |}.

End Sample.

(** ** Notions used by the further properties *)

(** The stored record of a collection an identifier string names. *)
Definition record_by_id (w : World) (name id : string) : option document :=
  d ← db w;
  if valid_oid id then snd <$> doc_by_id (coll d name) (Str.lower id)
  else None.

(** The identifier string cannot name a record: the store is not
    connected, or no record of the collection has this identifier. *)
Definition no_record (w : World) (name id : string) : Prop :=
  db w = None ∨ (valid_oid id = true ∧ record_by_id w name id = None).

(** The [Product] record [create_product] builds from a request. *)
Definition new_product (req : ProductCreateRequest) (user_id : string)
    : Product :=
  {| affiliate_id := user_id;
     images := pc_images req;
     title := pc_title req;
     description := pc_description req;
     price := pc_price req;
     vendor := pc_vendor req;
     category := pc_category req;
     tags := pc_tags req;
     rating := pc_rating req;
     hot_deal := pc_hot_deal req;
     hot_deal_expiry := pc_hot_deal_expiry req;
     featured := false;
     clicks := 0;
     orders := 0;
     affiliate_link := pc_affiliate_link req |}.

(** An identifier in the canonical form the store gives out. *)
Definition canonical_oid (o : oid) : Prop :=
  valid_oid o = true ∧ Str.lower o = o.

(** The [User] record [signup] builds from a request. *)
Definition new_user (sha256_hexdigest : string → string)
    (req : SignupRequest) : User :=
  {| u_role := su_role req;
     u_name := su_name req;
     u_email := su_email req;
     u_password_hash := hash_password sha256_hexdigest (su_password req);
     u_phone := su_phone req;
     u_photo_url := None;
     u_age := su_age req;
     u_gender := su_gender req;
     u_is_active := true;
     u_ad_free := false;
     u_subscription_expiry := None |}.

(** The store's test [{"email": email}] on a user record. *)
Definition has_email (email : string) (x : document) : bool :=
  field_eq (SStr email) (fields x !! "email").

(** The account an email address names: the first user record with it. *)
Definition account (w : World) (email : string) : option document :=
  snd <$> list_find (λ x, has_email email x) (collection_of w "user").

(** The email address of a user record that conforms to [User]. *)
Definition email_of (x : document) : option string :=
  match fields x !! "email" with
  | Some (VStr e) => Some e
  | _ => None
  end.

(** Every user record has a string for its email, and no two the same. *)
Definition emails_unique (c : collection) : Prop :=
  Forall (λ x, is_Some (email_of x)) c ∧ NoDup (omap email_of c).

(** The Click record redirect-by-platform logs. *)
Definition platform_click (platform : string) (user_id : option string)
    (request : Request) : Click :=
  {| c_type := "logo"; c_user_id := user_id; c_product_id := None;
     c_affiliate_id := None; c_ip := client request;
     c_meta := {[ "platform" := VStr platform ]} |}.

(** [user_id or "guest"] *)
Definition buyer_or_guest (user_id : option string) : string :=
  match user_id with
  | Some u => if bool_decide (u = "") then "guest" else u
  | None => "guest"
  end.

(** The Order record create-order stores. *)
Definition redirected_order (product_id : string) (user_id : option string)
    (affiliate : string) (vendor_url : option string) : Order :=
  {| o_user_id := buyer_or_guest user_id; o_product_id := product_id;
     o_affiliate_id := affiliate; o_status := "Redirected";
     o_vendor_url := vendor_url |}.

(** Every record holds a date under the key. *)
Definition dated (k : string) (c : collection) : Prop :=
  Forall (λ x, is_Some (date_of k x)) c.

(** The records come latest first by the date under the key: each record
    is at least as late as every record after it. *)
Definition newest_first (k : string) (docs : list document) : Prop :=
  StronglySorted
    (λ x y, ∃ tx ty, date_of k x = Some tx ∧ date_of k y = Some ty ∧
                     (ty ≤ tx)%Z) docs.

(** The listings of an affiliate, in natural order. *)
Definition listings_of (w : World) (user_id : string) : list document :=
  filter (λ x, field_eq (SStr user_id) (fields x !! "affiliate_id"))
    (collection_of w "product").

(** The orders a call of [list_orders] asks for, in natural order: all of
    them without a user id (or with an empty one). *)
Definition orders_of (w : World) (user_id : option string) : list document :=
  match user_id with
  | Some u =>
      if bool_decide (u = "") then collection_of w "order"
      else filter (λ x, field_eq (SStr u) (fields x !! "user_id"))
             (collection_of w "order")
  | None => collection_of w "order"
  end.

(** The body of the admin counts:
    [{"ok": True, "stats": {"users": ..., ...}}]. *)
Definition stats_response (users buyers affiliates subscribers products
    orders : Z) : response :=
  JSON (<["stats" := VDict (list_to_map [
           ("users", VInt users);
           ("buyers", VInt buyers);
           ("affiliates", VInt affiliates);
           ("subscribers", VInt subscribers);
           ("products", VInt products);
           ("orders", VInt orders)])]> ok).

(** The user records the store's test [{"role": role}] accepts. *)
Definition with_role (w : World) (role : string) : list document :=
  filter (λ x, field_eq (SStr role) (fields x !! "role"))
    (collection_of w "user").

(** The user records the store's test [{"ad_free": True}] accepts. *)
Definition ad_free_users (w : World) : list document :=
  filter (λ x, field_eq (SBool true) (fields x !! "ad_free"))
    (collection_of w "user").

(** The number of records of a collection. *)
Definition size_of (w : World) (name : string) : Z :=
  Z.of_nat (length (collection_of w name)).

(** No user record has an array for its role (as for every record that
    conforms to [User]). *)
Definition single_roles (w : World) : Prop :=
  Forall (λ x, ∀ l, fields x !! "role" ≠ Some (VList l))
    (collection_of w "user").

(** A computation that leaves the whole state as it found it. *)
Definition reads {A} (m : M A) : Prop := ∀ w, (m w).2 = w.

(** What one call can do to the AdminSettings collection: keep its
    length, or put a first record into the empty collection. *)
Definition settings_step (c c' : collection) : Prop :=
  length c' = length c ∨ (c = [] ∧ length c' = 1).

(** The state after [n] redirects to the same product in a row. *)
Definition redirects (n : nat) (product_id : string) (request : Request)
    (user_id : option string) (w : World) : World :=
  Nat.iter n (λ w, (redirect_product product_id request user_id w).2) w.

(** Further sample data. *)
Module Demo.

(** The listing of [Sample], with a rating outside the scale. *)
Definition overrated : ProductCreateRequest :=
  {| pc_images := []; pc_title := "Phone case";
     pc_description := Some "Fits every phone";
     pc_price := 499; pc_vendor := "amazon";
     pc_category := Some "accessories"; pc_tags := ["case"];
     pc_rating := Some 7%float; pc_affiliate_link := Some "https://vendor/x";
     pc_hot_deal := false; pc_hot_deal_expiry := None |}.

(** A stand-in for the digest in the examples; the theorems hold for every
    digest function. *)
Definition digest (p : string) : string := "digest of " +:+ p.

Definition newcomer : SignupRequest :=
  {| su_role := "buyer"; su_name := "B"; su_email := "b@example.org";
     su_password := "correct horse"; su_phone := None; su_age := Some 30%Z;
     su_gender := None |}.

(** A second registration under the address of affiliate A. *)
Definition impostor : SignupRequest :=
  {| su_role := "admin"; su_name := "Z"; su_email := "a@example.org";
     su_password := "x"; su_phone := None; su_age := None;
     su_gender := None |}.

(** A second listing of affiliate A. *)
Definition second_listing : ProductCreateRequest :=
  {| pc_images := []; pc_title := "Charger";
     pc_description := None;
     pc_price := 899; pc_vendor := "flipkart";
     pc_category := Some "Accessories"; pc_tags := [];
     pc_rating := Some 4%float; pc_affiliate_link := None;
     pc_hot_deal := true; pc_hot_deal_expiry := None |}.

(** The marketplace of [Sample] after a second listing and two orders for
    the first, one by a guest. *)
Definition busy : World :=
  (create_order Sample.P (Some "buyer-7")
     (create_order Sample.P None
        (create_product second_listing Sample.affiliate_A
           (Sample.listed Sample.ticking)).2).2).2.

End Demo.

(** * Properties *)

(** ** Running the monad *)

Lemma bind_run {A B} (m : M A) (f : A → M B) (w : World) :
  (m ≫= f) w =
  match m w with
  | (Return a, w') => f a w'
  | (Raise e, w') => (Raise e, w')
  | (Unmodelled, w') => (Unmodelled, w')
  end.
Proof. reflexivity. Qed.

Lemma bind_return {A B} (m : M A) (f : A → M B) (w w' : World) (a : A) :
  m w = (Return a, w') → (m ≫= f) w = f a w'.
Proof. intros H. rewrite bind_run, H. reflexivity. Qed.

Lemma find_one_all (name : string) (w : World) (d : database) :
  db w = Some d →
  find_one name [] w = (Return (head (coll d name)), w).
Proof.
  intros Hd. unfold find_one, db_collection. rewrite bind_run, Hd. simpl.
  unfold mret, M_ret. destruct (coll d name); reflexivity.
Qed.

(** ** The truth test of the handle *)

Lemma bool_db_connected (w : World) (d : database) :
  testable w → db w = Some d → bool_db w = (Return true, w).
Proof. unfold testable, bool_db. by intros -> ->. Qed.

Lemma bool_db_none (w : World) :
  db w = None → bool_db w = (Return false, w).
Proof. unfold bool_db. by intros ->. Qed.

Lemma bool_db_raises (w : World) :
  untestable w → bool_db w = (Raise (Exception "NotImplementedError"), w).
Proof. unfold untestable, bool_db. by intros [[d ->] ->]. Qed.

(** Whatever a handler does after the test, it is not reached when the test
    raises. *)
Lemma bind_bool_db_raises {A} (f : bool → M A) (w : World) :
  untestable w →
  (bool_db ≫= f) w = (Raise (Exception "NotImplementedError"), w).
Proof. intros H. by rewrite bind_run, (bool_db_raises _ H). Qed.

Section Steady.

Lemma steady_ret {A} (a : A) : steady (mret a).
Proof. intros w. done. Qed.

Lemma steady_raise {A} (e : exn) : steady (raise (A := A) e).
Proof. intros w. done. Qed.

Lemma steady_unmodelled {A} : steady (unmodelled (A := A)).
Proof. intros w. done. Qed.

Lemma steady_get_db : steady get_db.
Proof. intros w. done. Qed.

Lemma steady_bool_db : steady bool_db.
Proof.
  intros w. unfold bool_db. destruct (db w) eqn:Hd; simpl; [|by rewrite Hd].
  destruct (truth_test (env w)); simpl; by rewrite Hd.
Qed.

Lemma steady_str_lower (s : string) : steady (str_lower s).
Proof. intros w. done. Qed.

Lemma steady_datetime_now : steady datetime_now.
Proof. intros w. done. Qed.

Lemma steady_db_collection (name : string) : steady (db_collection name).
Proof.
  intros w. unfold db_collection. destruct (db w) eqn:Hd; simpl; by rewrite Hd.
Qed.

Lemma steady_store_test (q : query) : steady (store_test q).
Proof.
  intros w. unfold store_test. destruct (query_supported q); [done|].
  by destruct (engine (env w) q).
Qed.

Lemma steady_bind {A B} (m : M A) (f : A → M B) :
  steady m → (∀ a, steady (f a)) → steady (m ≫= f).
Proof.
  intros Hm Hf w. rewrite bind_run. specialize (Hm w).
  destruct (m w) as [[a|e|] w1]; simpl in *; [|done|done].
  destruct (Hf a w1) as [-> ->]. done.
Qed.

Lemma steady_try_pass (body : M unit) : steady body → steady (try_pass body).
Proof.
  intros Hb w. specialize (Hb w). unfold try_pass.
  by destruct (body w) as [[[]|e|] w1].
Qed.

Lemma steady_ObjectId (s : string) : steady (ObjectId s).
Proof.
  unfold ObjectId. destruct (valid_oid s); [apply steady_ret|].
  destruct (_ && _); [apply steady_unmodelled|apply steady_raise].
Qed.

Lemma steady_as_str (v : value) : steady (as_str v).
Proof. destruct v; try apply steady_raise; apply steady_ret. Qed.

Lemma steady_as_optional_str (v : value) : steady (as_optional_str v).
Proof. destruct v; try apply steady_raise; apply steady_ret. Qed.

Lemma steady_redirect (v : value) : steady (redirect v).
Proof. destruct v; try apply steady_unmodelled; apply steady_ret. Qed.

Lemma steady_links_get (doc : option document) (key : string) :
  steady (links_get doc key).
Proof.
  unfold links_get. destruct doc as [x|]; [|apply steady_ret].
  destruct (default _ _); try apply steady_raise. apply steady_ret.
Qed.

Lemma steady_find_one (name : string) (q : query) : steady (find_one name q).
Proof.
  unfold find_one. apply steady_bind; [apply steady_db_collection|].
  intros docs. destruct (negb _); [apply steady_unmodelled|apply steady_ret].
Qed.

Lemma steady_find (name : string) (q : query) (n : Z) :
  steady (find name q n).
Proof.
  unfold find. apply steady_bind; [apply steady_db_collection|].
  intros docs. destruct (negb _); [apply steady_raise|].
  apply steady_bind; [apply steady_store_test|]. intros accepts.
  apply steady_ret.
Qed.

Lemma steady_insert_one (name : string) (f : gmap string value) :
  steady (insert_one name f).
Proof.
  intros w. unfold insert_one.
  destruct (db w) as [d|] eqn:Hd; simpl; [|by rewrite Hd].
  destruct (fails _ _ _); simpl; [by rewrite Hd|].
  split; [done|]. split; eauto.
Qed.

Lemma steady_update_one (name : string) (q : query) (u : update) :
  steady (update_one name q u).
Proof.
  intros w. unfold update_one.
  destruct (db w) as [d|] eqn:Hd; simpl; [|by rewrite Hd].
  destruct (fails _ _ _); simpl; [by rewrite Hd|].
  destruct (negb _); simpl; [by rewrite Hd|].
  destruct (list_find _ _) as [[i x]|]; simpl; [|by rewrite Hd].
  destruct (apply_update _ _); simpl; [|by rewrite Hd].
  split; [done|]. split; eauto.
Qed.

End Steady.

Create HintDb steady discriminated.

#[local] Hint Resolve steady_ret steady_raise steady_unmodelled steady_get_db
  steady_bool_db steady_str_lower steady_datetime_now steady_db_collection
  steady_store_test steady_ObjectId steady_as_str steady_as_optional_str
  steady_redirect steady_links_get steady_find_one steady_find
  steady_insert_one steady_update_one : steady.

(** Closes [steady m] for a computation built from the operations above. *)
Ltac steady_tac :=
  repeat first
    [ progress eauto with steady
    | apply steady_bind; [|intros ?]
    | apply steady_try_pass
    | match goal with
      | |- steady (match ?x with _ => _ end) => destruct x
      | |- steady (if ?b then _ else _) => destruct b
      end ].

Lemma steady_create_document (name : string) (data : gmap string value) :
  steady (create_document name data).
Proof. unfold create_document. steady_tac. Qed.

#[local] Hint Resolve steady_create_document : steady.

Lemma steady_serve (c : call) : steady (serve c).
Proof.
  destruct c; simpl;
    unfold create_product, list_products, get_product, update_product,
      get_links, set_links, redirect_platform, redirect_product,
      create_order, find_by_id_if_db, find_first_if_db;
    steady_tac.
Qed.

Lemma steady_testable {A} (m : M A) (w : World) :
  steady m → testable (m w).2 ↔ testable w.
Proof. intros Hm. unfold testable. by destruct (Hm w) as [-> _]. Qed.

Lemma steady_untestable {A} (m : M A) (w : World) :
  steady m → untestable (m w).2 ↔ untestable w.
Proof. intros Hm. unfold untestable. by destruct (Hm w) as [-> ->]. Qed.

Lemma find_first_if_db_singleton (w : World) :
  testable w →
  find_first_if_db "adminsettings" w = (Return (singleton w), w).
Proof.
  intros Ht. unfold find_first_if_db, singleton. rewrite bind_run.
  destruct (db w) as [d|] eqn:Hd; simpl.
  - rewrite (bool_db_connected _ _ Ht Hd). by apply find_one_all.
  - by rewrite (bool_db_none _ Hd).
Qed.

Lemma find_first_if_db_raises (name : string) (w : World) :
  untestable w →
  find_first_if_db name w = (Raise (Exception "NotImplementedError"), w).
Proof. apply bind_bool_db_raises. Qed.

Lemma find_by_id_if_db_raises (name id : string) (w : World) :
  untestable w →
  find_by_id_if_db name id w = (Raise (Exception "NotImplementedError"), w).
Proof. apply bind_bool_db_raises. Qed.

(** ** Set-links refuses a wrong credential before it writes *)

(** C10: with an admin credential other than the fixed one, set-links raises
    401 "Invalid admin credentials" and leaves the whole state (the
    AdminSettings record, the audit log, everything else) as it was. *)
Theorem set_links_unauthorized (payload : AdminLinks)
    (admin_email admin_password : option string) (w : World) :
  ¬ (admin_email = Some "shekharxlr8@gmail.com" ∧
     admin_password = Some "Shekhar_4t7") →
  set_links payload admin_email admin_password w =
    (Raise (HTTPException 401 "Invalid admin credentials"), w).
Proof.
  intros Hbad. unfold set_links.
  assert (admin_ok admin_email admin_password = false) as ->; [|reflexivity].
  unfold admin_ok. apply andb_false_iff.
  destruct (decide (admin_email = Some "shekharxlr8@gmail.com")) as [He|He].
  - right. apply bool_decide_eq_false. intros Hp. apply Hbad. by split.
  - left. by apply bool_decide_eq_false.
Qed.

(** ** Redirect-by-platform without a link *)

(** C6: when there is no AdminSettings singleton, or its links map has no
    entry under the (lower-cased) requested platform, redirect-by-platform
    raises 404 "Link not available yet." and the state is unchanged: no Click
    is appended and nothing else is written.  This is so behind a handle
    that can be used as a condition.  Behind a handle whose truth test
    raises, the handler raises [NotImplementedError] at [if db] instead,
    before it looks anything up; the state is unchanged there too. *)
Theorem redirect_platform_not_found (platform : string) (request : Request)
    (user_id : option string) (w : World) :
  (testable w →
   singleton w = None ∨
   (∃ m, stored_links w = Some m ∧ m !! lowered w platform = None) →
   redirect_platform platform request user_id w =
     (Raise (HTTPException 404 "Link not available yet."), w)) ∧
  (untestable w →
   redirect_platform platform request user_id w =
     (Raise (Exception "NotImplementedError"), w)).
Proof.
  split.
  - intros Ht H. unfold redirect_platform.
    rewrite (bind_return _ _ _ _ _ (find_first_if_db_singleton w Ht)).
    rewrite bind_run. unfold str_lower. fold (lowered w platform).
    destruct H as [Hnone | (m & Hm & Hkey)].
    + rewrite Hnone. reflexivity.
    + unfold stored_links in Hm. destruct (singleton w) as [x|]; [|done].
      simpl in Hm. unfold links_get.
      destruct (default (VDict ∅) (fields x !! "links")); try done.
      injection Hm as ->. rewrite bind_run. unfold mret, M_ret, dict_get.
      rewrite Hkey. reflexivity.
  - intros Hu. unfold redirect_platform.
    by rewrite bind_run, (find_first_if_db_raises _ _ Hu).
Qed.

(** ** Collections of an updated database *)

Lemma coll_insert_eq (d : database) (name : string) (c : collection) :
  coll (<[name := c]> d) name = c.
Proof. unfold coll. by rewrite lookup_insert_eq. Qed.

Lemma coll_insert_ne (d : database) (name name' : string) (c : collection) :
  name ≠ name' → coll (<[name := c]> d) name' = coll d name'.
Proof. intros Hne. unfold coll. by rewrite lookup_insert_ne. Qed.

(** What one call of [create_document] does: it raises and leaves the
    database as it was, or it appends one stamped document to the named
    collection. *)
Lemma create_document_cases (name : string) (data : gmap string value)
    (w : World) :
  (∃ e w', create_document name data w = (Raise e, w') ∧
           db w' = db w ∧ env w' = env w) ∨
  (∃ d o t w', create_document name data w = (Return (str_oid o), w') ∧
     db w = Some d ∧ env w' = env w ∧
     t = clock (env w) (tick w) ∧
     fails (env w) name (S (tick w)) = false ∧
     db w' = Some (<[name := coll d name ++
                [Doc o (<["updated_at" := VDate t]>
                         (<["created_at" := VDate t]> data))]]> d)).
Proof.
  unfold create_document, get_db. rewrite bind_run.
  destruct (db w) as [d|] eqn:Hd.
  - rewrite bind_run. unfold datetime_now. rewrite bind_run.
    unfold insert_one. simpl. rewrite Hd.
    destruct (fails (env w) name (S (tick w))) eqn:Hf.
    + left. eexists _, _. split; [reflexivity|]. simpl. done.
    + right. eexists d, _, _, _. split; [reflexivity|]. simpl. done.
  - left. eexists _, _. split; [reflexivity|]. done.
Qed.

(** A write that does not fail does append. *)
Lemma create_document_ok (name : string) (data : gmap string value)
    (w : World) (d : database) :
  db w = Some d →
  fails (env w) name (S (tick w)) = false →
  ∃ o w', create_document name data w = (Return (str_oid o), w') ∧
    env w' = env w ∧ tick w' = S (S (tick w)) ∧
    db w' = Some (<[name := coll d name ++
               [Doc o (<["updated_at" := VDate (clock (env w) (tick w))]>
                        (<["created_at" := VDate (clock (env w) (tick w))]>
                           data))]]> d).
Proof.
  intros Hd Hf. unfold create_document, get_db. rewrite bind_run, Hd.
  rewrite bind_run. unfold datetime_now. rewrite bind_run.
  unfold insert_one. simpl. rewrite Hd, Hf.
  eexists _, _. split; [reflexivity|]. simpl. done.
Qed.

(** A swallowed [create_document] always returns, and changes at most the
    named collection. *)
Lemma try_create_document (name : string) (data : gmap string value)
    (w : World) :
  ∃ w', try_pass (create_document name data ≫= λ _, mret ()) w
          = (Return (), w') ∧
        env w' = env w ∧
        (∀ d, db w = Some d →
           ∃ d', db w' = Some d' ∧
                 ∀ other, other ≠ name → coll d' other = coll d other) ∧
        (db w = None → db w' = None).
Proof.
  unfold try_pass. rewrite bind_run.
  destruct (create_document_cases name data w)
    as [(e & w' & -> & Hdb & He) | (d & o & t & w' & -> & Hd & He & _ & _ & Hdb)].
  - exists w'. split; [done|]. split; [done|]. split.
    + intros d Hd. exists d. split; [congruence|done].
    + congruence.
  - exists w'. split; [done|]. split; [done|]. split.
    + intros d0 Hd0. eexists. split; [exact Hdb|].
      intros other Hne. rewrite coll_insert_ne by done. congruence.
    + congruence.
Qed.

(** ** The platform link table *)

Lemma singleton_db (w : World) (d : database) :
  db w = Some d → singleton w = head (coll d "adminsettings").
Proof. intros Hd. unfold singleton. rewrite Hd. reflexivity. Qed.

Lemma get_links_run (w : World) :
  testable w →
  get_links w =
    (Return (JSON (<["links" :=
        match singleton w with
        | Some x => default (VDict ∅) (fields x !! "links")
        | None => VDict ∅
        end]> ok)), w).
Proof.
  intros Ht. unfold get_links.
  rewrite (bind_return _ _ _ _ _ (find_first_if_db_singleton w Ht)).
  destruct (singleton w); reflexivity.
Qed.

Lemma steady_set_links payload admin_email admin_password :
  steady (set_links payload admin_email admin_password).
Proof. apply (steady_serve (SetLinks _ _ _)). Qed.

Lemma upsert_links_return (payload : AdminLinks) (w w' : World) :
  upsert_links payload w = (Return (), w') →
  ∃ x, singleton w' = Some x ∧
       fields x !! "links" = Some (str_dict (links payload)).
Proof.
  unfold upsert_links. rewrite bind_run.
  destruct (db w) as [d|] eqn:Hd.
  2:{ unfold find_one, db_collection. rewrite bind_run, Hd. done. }
  rewrite (find_one_all _ _ _ Hd).
  destruct (coll d "adminsettings") as [|e rest] eqn:Hc; simpl.
  - rewrite bind_run.
    destruct (create_document_cases "adminsettings"
                (AdminSettings_dump (links payload)) w)
      as [(e & w1 & -> & _) | (d1 & o & t & w1 & -> & Hd1 & _ & _ & _ & Hdb)];
      [done|].
    unfold mret, M_ret. intros [= <-].
    rewrite (singleton_db _ _ Hdb), coll_insert_eq.
    assert (d1 = d) as -> by congruence. rewrite Hc. simpl.
    eexists. split; [reflexivity|]. simpl.
    rewrite lookup_insert_ne by done. rewrite lookup_insert_ne by done.
    unfold AdminSettings_dump. by rewrite lookup_singleton_eq.
  - rewrite bind_run. unfold datetime_now, update_one. simpl. rewrite Hd.
    destruct (fails _ _ _); [done|]. simpl. rewrite Hc. simpl.
    rewrite bool_decide_eq_true_2 by done. simpl.
    intros [= <-]. unfold singleton. simpl. rewrite coll_insert_eq. simpl.
    eexists. split; [reflexivity|]. simpl.
    apply lookup_union_Some_l. rewrite lookup_insert_ne by done.
    by rewrite lookup_singleton_eq.
Qed.

Lemma upsert_links_ok (payload : AdminLinks) (w : World) (d : database) :
  db w = Some d →
  writes_succeed w "adminsettings" →
  ∃ w', upsert_links payload w = (Return (), w').
Proof.
  intros Hd Hw. unfold upsert_links. rewrite bind_run.
  rewrite (find_one_all _ _ _ Hd).
  destruct (coll d "adminsettings") as [|e rest] eqn:Hc; simpl.
  - rewrite bind_run.
    destruct (create_document_ok "adminsettings"
                (AdminSettings_dump (links payload)) w d Hd (Hw _))
      as (o & w1 & -> & _). eauto.
  - rewrite bind_run. unfold datetime_now, update_one. simpl. rewrite Hd.
    rewrite (Hw _). simpl. rewrite Hc. simpl.
    rewrite bool_decide_eq_true_2 by done. simpl. eauto.
Qed.

Lemma set_links_run (payload : AdminLinks)
    (admin_email admin_password : option string) (w : World) :
  admin_ok admin_email admin_password = true →
  set_links payload admin_email admin_password w =
    (upsert_links payload;;
     try_pass (
       create_document "adminauditlog"
         (AdminAuditLog_dump "hardcoded-admin" "update_links"
            (links payload));;
       mret ());;
     mret (JSON ok)) w.
Proof.
  intros H. unfold set_links, upsert_links. rewrite H. simpl.
  rewrite !bind_run.
  destruct (find_one "adminsettings" [] w) as [[[e|]| |] w1]; reflexivity.
Qed.

Lemma singleton_other_collection (w w' : World) (name : string) :
  name ≠ "adminsettings" →
  (∀ d, db w = Some d →
     ∃ d', db w' = Some d' ∧
           ∀ other, other ≠ name → coll d' other = coll d other) →
  (db w = None → db w' = None) →
  singleton w' = singleton w.
Proof.
  intros Hne Hsome Hnone. unfold singleton.
  destruct (db w) as [d|].
  - destruct (Hsome d eq_refl) as (d' & -> & Hc). simpl. by rewrite Hc.
  - by rewrite Hnone.
Qed.

(** C8: behind a handle that can be used as a condition, after a
    set-links call that succeeded with map M, get-links returns exactly M
    (whatever else the store holds, and whether or not the audit entry
    could be written); and when there is no AdminSettings record, get-links
    returns the empty map.  Behind a handle whose truth test raises,
    set-links still succeeds (it does not test the handle) but the
    get-links that follows raises [NotImplementedError] at [if db] and
    returns no map. *)
Theorem set_links_get_links_roundtrip :
  (∀ (payload : AdminLinks) (admin_email admin_password : option string)
     (w w' : World) (r : response),
     testable w →
     set_links payload admin_email admin_password w = (Return r, w') →
     get_links w' =
       (Return (JSON (<["links" := str_dict (links payload)]> ok)), w')) ∧
  (∀ w : World,
     testable w →
     singleton w = None →
     get_links w = (Return (JSON (<["links" := VDict ∅]> ok)), w)) ∧
  (∀ (payload : AdminLinks) (admin_email admin_password : option string)
     (w w' : World) (r : response),
     untestable w →
     set_links payload admin_email admin_password w = (Return r, w') →
     get_links w' = (Raise (Exception "NotImplementedError"), w')).
Proof.
  split; [|split].
  - intros payload admin_email admin_password w w' r Ht Hrun.
    assert (testable w') as Ht'.
    { replace w' with (set_links payload admin_email admin_password w).2
        by (by rewrite Hrun).
      by apply steady_testable; [apply steady_set_links|]. }
    destruct (admin_ok admin_email admin_password) eqn:Hadm.
    2:{ unfold set_links in Hrun. rewrite Hadm in Hrun. done. }
    rewrite (set_links_run _ _ _ _ Hadm) in Hrun.
    rewrite bind_run in Hrun.
    destruct (upsert_links payload w) as [[[]|e|] w1] eqn:Hup; try done.
    apply upsert_links_return in Hup as (x & Hx & Hlinks).
    rewrite bind_run in Hrun.
    destruct (try_create_document "adminauditlog"
                (AdminAuditLog_dump "hardcoded-admin" "update_links"
                   (links payload)) w1)
      as (w2 & Htry & _ & Hsome & Hnone).
    rewrite Htry in Hrun. injection Hrun as <- <-.
    rewrite get_links_run by done.
    rewrite (singleton_other_collection w1 w2 "adminauditlog") by done.
    rewrite Hx, Hlinks. reflexivity.
  - intros w Ht Hnone. rewrite get_links_run, Hnone by done. reflexivity.
  - intros payload admin_email admin_password w w' r Hu Hrun.
    unfold get_links. rewrite bind_run, find_first_if_db_raises; [done|].
    replace w' with (set_links payload admin_email admin_password w).2
      by (by rewrite Hrun).
    by apply steady_untestable; [apply steady_set_links|].
Qed.

(** ** Lookups by identifier *)

Lemma list_find_IdEq (c : collection) (o : oid) :
  list_find (λ x, matches [IdEq o] x) c = doc_by_id c o.
Proof.
  unfold doc_by_id. induction c as [|x c IH]; [reflexivity|].
  cbn [list_find]. rewrite IH.
  destruct (decide (_id x = o)) as [Heq|Hne].
  - rewrite decide_True; [reflexivity|].
    apply Is_true_true. simpl. by rewrite bool_decide_eq_true_2.
  - rewrite decide_False; [reflexivity|].
    intros H%Is_true_true. simpl in H.
    by rewrite bool_decide_eq_false_2 in H.
Qed.

Lemma find_one_IdEq (name : string) (o : oid) (w : World) (d : database) :
  db w = Some d →
  find_one name [IdEq o] w = (Return (snd <$> doc_by_id (coll d name) o), w).
Proof.
  intros Hd. unfold find_one, db_collection.
  rewrite bind_run, Hd, list_find_IdEq. reflexivity.
Qed.

Lemma find_by_id_if_db_product (w : World) (product_id : string)
    (i : nat) (p : document) :
  testable w →
  product_by_id w product_id = Some (i, p) →
  find_by_id_if_db "product" product_id w = (Return (Some p), w).
Proof.
  intros Ht. unfold product_by_id, find_by_id_if_db. rewrite bind_run.
  destruct (db w) as [d|] eqn:Hd; [|done]. simpl.
  rewrite (bool_db_connected _ _ Ht Hd).
  unfold ObjectId. destruct (valid_oid product_id); [|done].
  intros Hp. rewrite bind_run. unfold mret at 1, M_ret at 1.
  rewrite (find_one_IdEq _ _ _ _ Hd), Hp. reflexivity.
Qed.

Lemma find_by_id_if_db_run (name id : string) (w : World) :
  testable w →
  find_by_id_if_db name id w =
    match db w with
    | None => (Return None, w)
    | Some d =>
        if valid_oid id
        then (Return (snd <$> doc_by_id (coll d name) (Str.lower id)), w)
        else if (String.length id =? 24) && Str.has_space id
        then (Unmodelled, w)
        else (Raise (Exception "InvalidId"), w)
    end.
Proof.
  intros Ht. unfold find_by_id_if_db. rewrite bind_run.
  destruct (db w) as [d|] eqn:Hd; [|by rewrite (bool_db_none _ Hd)].
  rewrite (bool_db_connected _ _ Ht Hd).
  rewrite bind_run. unfold ObjectId.
  destruct (valid_oid id); [|by destruct (_ && _)].
  unfold mret at 1, M_ret at 1. by apply find_one_IdEq.
Qed.

Lemma find_by_id_if_db_record (name id : string) (w : World) (x : document) :
  testable w →
  record_by_id w name id = Some x →
  find_by_id_if_db name id w = (Return (Some x), w).
Proof.
  intros Ht. rewrite find_by_id_if_db_run by done. unfold record_by_id.
  destruct (db w) as [d|]; [|done]. simpl.
  destruct (valid_oid id); [|done]. by intros ->.
Qed.

Lemma find_by_id_if_db_no_record (name id : string) (w : World) :
  testable w →
  no_record w name id →
  find_by_id_if_db name id w = (Return None, w).
Proof.
  intros Ht. rewrite find_by_id_if_db_run by done.
  unfold no_record, record_by_id.
  intros [->|[Hv Hnone]]; [reflexivity|].
  destruct (db w) as [d|]; [|done]. simpl in Hnone.
  rewrite Hv in *. by rewrite Hnone.
Qed.

(** A lookup that finds a record went through the truth test, for a
    well-formed identifier. *)
Lemma find_by_id_if_db_found (name id : string) (w w' : World)
    (x : document) :
  find_by_id_if_db name id w = (Return (Some x), w') →
  testable w ∧ valid_oid id = true.
Proof.
  unfold find_by_id_if_db, testable. rewrite bind_run. unfold bool_db.
  destruct (db w); [|done]. destruct (truth_test (env w)); [|done].
  rewrite bind_run. unfold ObjectId.
  destruct (valid_oid id); [done|]. by destruct (_ && _).
Qed.

(** ** States that differ in the writes the store refuses *)

(** The lookups do not ask which writes are refused. *)
Lemma find_one_refusing (f : string → nat → bool) (name : string)
    (q : query) (w : World) :
  find_one name q (refusing f w) = ((find_one name q w).1, refusing f w) ∧
  (find_one name q w).2 = w.
Proof.
  unfold find_one, db_collection. rewrite !bind_run. simpl.
  destruct (db w) as [d|]; [|done]. by destruct (negb _).
Qed.

Lemma find_first_if_db_refusing (f : string → nat → bool) (name : string)
    (w : World) :
  find_first_if_db name (refusing f w) =
    ((find_first_if_db name w).1, refusing f w) ∧
  (find_first_if_db name w).2 = w.
Proof.
  unfold find_first_if_db. rewrite !bind_run. unfold bool_db. simpl.
  destruct (db w) as [d|] eqn:Hd; [|done].
  destruct (truth_test (env w)); [|done].
  apply find_one_refusing.
Qed.

Lemma find_by_id_if_db_refusing (f : string → nat → bool) (name id : string)
    (w : World) :
  find_by_id_if_db name id (refusing f w) =
    ((find_by_id_if_db name id w).1, refusing f w) ∧
  (find_by_id_if_db name id w).2 = w.
Proof.
  unfold find_by_id_if_db. rewrite !bind_run. unfold bool_db. simpl.
  destruct (db w) as [d|] eqn:Hd; [|done].
  destruct (truth_test (env w)); [|done].
  rewrite !bind_run. unfold ObjectId.
  destruct (valid_oid id); [|by destruct (_ && _)].
  apply find_one_refusing.
Qed.

(** Reading a link and building the redirect do not depend on the state. *)
Lemma links_get_pure (doc : option document) (key : string) :
  ∃ r, ∀ w, links_get doc key w = (r, w).
Proof.
  unfold links_get. destruct doc as [x|]; [|by eexists].
  destruct (default (VDict ∅) (fields x !! "links")); by eexists.
Qed.

Lemma redirect_pure (url : value) :
  ∃ r, ∀ w, redirect url w = (r, w).
Proof. destruct url; by eexists. Qed.

(** ** Redirects return their target whatever the telemetry does *)

Lemma redirect_platform_found (platform : string) (request : Request)
    (user_id : option string) (w : World) (m : gmap string value)
    (url : string) :
  testable w →
  stored_links w = Some m →
  m !! lowered w platform = Some (VStr url) →
  url ≠ "" →
  ∃ w', redirect_platform platform request user_id w =
          (Return (RedirectResponse url), w').
Proof.
  intros Ht Hm Hkey Hurl. unfold redirect_platform.
  rewrite (bind_return _ _ _ _ _ (find_first_if_db_singleton w Ht)).
  rewrite bind_run. unfold str_lower. fold (lowered w platform).
  unfold stored_links in Hm. destruct (singleton w) as [x|]; [|done].
  simpl in Hm. unfold links_get.
  destruct (default (VDict ∅) (fields x !! "links")); try done.
  injection Hm as ->. rewrite bind_run. unfold mret at 1, M_ret at 1.
  unfold dict_get. rewrite Hkey. simpl.
  rewrite bool_decide_eq_false_2 by done. simpl.
  rewrite bind_run.
  edestruct try_create_document as (w' & -> & _). eauto.
Qed.

Lemma modelled_ret {A} (a : A) : modelled (mret a).
Proof. intros w. done. Qed.

Lemma modelled_raise {A} (e : exn) : modelled (raise (A := A) e).
Proof. intros w. done. Qed.

Lemma modelled_bind {A B} (m : M A) (f : A → M B) :
  modelled m → (∀ a, modelled (f a)) → modelled (m ≫= f).
Proof.
  intros Hm Hf w. rewrite bind_run. specialize (Hm w).
  destruct (m w) as [[a|e|] w']; [apply Hf|done|done].
Qed.

Lemma modelled_ObjectId (s : string) :
  valid_oid s = true → modelled (ObjectId s).
Proof. unfold ObjectId. intros ->. apply modelled_ret. Qed.

Lemma modelled_update_one_id (name : string) (o : oid) (u : update) :
  modelled (update_one name [IdEq o] u).
Proof.
  intros w. unfold update_one. destruct (db w); [|done].
  destruct (fails _ _ _); [done|]. cbn [query_supported forallb
    clause_supported negb andb].
  destruct (list_find _ _) as [[i x]|]; [|done].
  destruct (apply_update _ _); done.
Qed.

Lemma modelled_create_document (name : string) (data : gmap string value) :
  modelled (create_document name data).
Proof.
  intros w.
  destruct (create_document_cases name data w)
    as [(e & w' & -> & _) | (d & o & t & w' & -> & _)]; done.
Qed.

Lemma modelled_as_optional_str (v : value) : modelled (as_optional_str v).
Proof. destruct v; try apply modelled_raise; apply modelled_ret. Qed.

Lemma try_pass_modelled (body : M unit) (w : World) :
  modelled body → ∃ w', try_pass body w = (Return (), w').
Proof.
  intros Hm. specialize (Hm w). unfold try_pass.
  destruct (body w) as [[[]|e|] w']; [eauto..|done].
Qed.

Lemma truthy_str (s : string) : s ≠ "" → truthy (VStr s) = true.
Proof. intros H. simpl. by rewrite bool_decide_eq_false_2. Qed.

Lemma redirect_product_found (product_id : string) (request : Request)
    (user_id : option string) (w : World) (i : nat) (p : document)
    (link : string) :
  testable w →
  product_by_id w product_id = Some (i, p) →
  fields p !! "affiliate_link" = Some (VStr link) →
  link ≠ "" →
  ∃ w', redirect_product product_id request user_id w =
          (Return (RedirectResponse link), w').
Proof.
  intros Ht Hp Hlink Hne. unfold redirect_product.
  rewrite (bind_return _ _ _ _ _ (find_by_id_if_db_product _ _ _ _ Ht Hp)).
  unfold dict_get at 1. rewrite Hlink.
  change (default VNone (Some (VStr link))) with (VStr link).
  rewrite truthy_str by done. cbn [negb]. rewrite bind_run.
  edestruct (try_pass_modelled
    (ObjectId product_id ≫= λ o, update_one "product" [IdEq o] (UInc "clicks")) w)
    as (w1 & ->).
  { apply modelled_bind.
    - apply modelled_ObjectId. unfold product_by_id in Hp.
      destruct (db w); [|done]. simpl in Hp.
      by destruct (valid_oid product_id).
    - intros o. apply modelled_update_one_id. }
  rewrite bind_run.
  edestruct (try_pass_modelled) as (w2 & ->).
  { apply modelled_bind; [apply modelled_as_optional_str|].
    intros aff. apply modelled_bind; [apply modelled_create_document|].
    intros _. apply modelled_ret. }
  unfold dict_get. rewrite Hlink. simpl. eauto.
Qed.

(** C7: telemetry never decides the result.  The result of
    redirect-by-platform and of redirect-by-product is the same under every
    pattern of refused writes; where the lookup finds a link (behind a
    handle that can be used as a condition) that result is the configured
    URL, respectively the product's affiliate link; and set-links, once its
    own write of the link table is accepted, returns ok.  A failed Click
    append, counter increment or audit-log append never surfaces. *)
Theorem telemetry_failures_are_swallowed :
  (∀ (platform : string) (request : Request) (user_id : option string)
     (w : World) (f : string → nat → bool),
     (redirect_platform platform request user_id (refusing f w)).1 =
     (redirect_platform platform request user_id w).1) ∧
  (∀ (product_id : string) (request : Request) (user_id : option string)
     (w : World) (f : string → nat → bool),
     (redirect_product product_id request user_id (refusing f w)).1 =
     (redirect_product product_id request user_id w).1) ∧
  (∀ (platform : string) (request : Request) (user_id : option string)
     (w : World) (url : string),
     testable w →
     stored_link w (lowered w platform) = Some (VStr url) →
     url ≠ "" →
     ∃ w', redirect_platform platform request user_id w =
             (Return (RedirectResponse url), w')) ∧
  (∀ (product_id : string) (request : Request) (user_id : option string)
     (w : World) (link : string),
     testable w →
     product_field w product_id "affiliate_link" = Some (VStr link) →
     link ≠ "" →
     ∃ w', redirect_product product_id request user_id w =
             (Return (RedirectResponse link), w')) ∧
  (∀ (payload : AdminLinks) (admin_email admin_password : option string)
     (w : World),
     admin_email = Some "shekharxlr8@gmail.com" →
     admin_password = Some "Shekhar_4t7" →
     is_Some (db w) →
     writes_succeed w "adminsettings" →
     ∃ w', set_links payload admin_email admin_password w =
             (Return (JSON ok), w')).
Proof.
  split; [|split; [|split; [|split]]].
  - intros platform request user_id w f. unfold redirect_platform.
    rewrite !(bind_run (find_first_if_db _)).
    destruct (find_first_if_db_refusing f "adminsettings" w) as [-> Hw].
    destruct (find_first_if_db "adminsettings" w) as [[doc|e|] w0];
      simpl in Hw; subst w0; [|done|done]. cbn [fst].
    rewrite !(bind_run (str_lower _)). unfold str_lower.
    change (py_lower (env (refusing f w)) platform)
      with (py_lower (env w) platform).
    rewrite !(bind_run (links_get _ _)).
    destruct (links_get_pure doc (py_lower (env w) platform)) as [r Hr].
    rewrite !Hr. destruct r as [url|e|]; [|done|done].
    destruct (negb (truthy url)); [done|].
    rewrite !bind_run.
    edestruct (try_create_document "click") as (w1 & -> & _).
    edestruct (try_create_document "click") as (w2 & -> & _).
    destruct (redirect_pure url) as [r Hr']. by rewrite !Hr'.
  - intros product_id request user_id w f. unfold redirect_product.
    rewrite !(bind_run (find_by_id_if_db _ _)).
    destruct (find_by_id_if_db_refusing f "product" product_id w) as [-> Hw].
    destruct (find_by_id_if_db "product" product_id w) as [[prod|e|] w0]
      eqn:Hfind; simpl in Hw; subst w0; [|done|done]. cbn [fst].
    destruct prod as [p|]; [|done].
    apply find_by_id_if_db_found in Hfind as [_ Hvalid].
    destruct (negb (truthy _)); [done|].
    rewrite !bind_run.
    edestruct (try_pass_modelled
      (ObjectId product_id ≫= λ o,
         update_one "product" [IdEq o] (UInc "clicks")) (refusing f w))
      as (w1 & ->).
    { apply modelled_bind; [by apply modelled_ObjectId|].
      intros o. apply modelled_update_one_id. }
    edestruct (try_pass_modelled
      (ObjectId product_id ≫= λ o,
         update_one "product" [IdEq o] (UInc "clicks")) w)
      as (w2 & ->).
    { apply modelled_bind; [by apply modelled_ObjectId|].
      intros o. apply modelled_update_one_id. }
    rewrite !bind_run.
    edestruct (try_pass_modelled) as (w3 & ->).
    { apply modelled_bind; [apply modelled_as_optional_str|].
      intros aff. apply modelled_bind; [apply modelled_create_document|].
      intros _. apply modelled_ret. }
    edestruct (try_pass_modelled) as (w4 & ->).
    { apply modelled_bind; [apply modelled_as_optional_str|].
      intros aff. apply modelled_bind; [apply modelled_create_document|].
      intros _. apply modelled_ret. }
    destruct (redirect_pure (dict_get (fields p) "affiliate_link"))
      as [r Hr]. by rewrite !Hr.
  - intros platform request user_id w url Ht Hlink Hne.
    unfold stored_link in Hlink.
    destruct (stored_links w) as [m|] eqn:Hm; [|done].
    by eapply redirect_platform_found.
  - intros product_id request user_id w link Ht Hlink Hne.
    unfold product_field in Hlink.
    destruct (product_by_id w product_id) as [[i p]|] eqn:Hp; [|done].
    by eapply redirect_product_found.
  - intros payload admin_email admin_password w -> -> [d Hd] Hw.
    rewrite set_links_run by done. rewrite bind_run.
    destruct (upsert_links_ok payload w d Hd Hw) as (w1 & ->).
    rewrite bind_run.
    edestruct try_create_document as (w2 & -> & _). eauto.
Qed.

Lemma telemetry_failures_are_swallowed_witness :
  (∃ w', redirect_product Sample.P Sample.browser None
           (Sample.listed_refusing ["product"; "click"]) =
           (Return (RedirectResponse "https://vendor/x"), w')) ∧
  (∃ w', set_links {| links := {[ "amazon" := "https://amzn.example/x" ]} |}
           (Some "shekharxlr8@gmail.com") (Some "Shekhar_4t7")
           (Sample.listed_refusing ["adminauditlog"]) =
           (Return (JSON ok), w')).
Proof.
  split.
  - apply (proj1 (proj2 (proj2 (proj2 telemetry_failures_are_swallowed))));
      [reflexivity | vm_compute; reflexivity | discriminate].
  - apply (proj2 (proj2 (proj2 (proj2 telemetry_failures_are_swallowed))));
      [reflexivity | reflexivity | eexists; reflexivity
      | intros n; vm_compute; reflexivity].
Defined.

(** ** Platform names and letter case *)

(** C2, as the code has it: the requested platform name is lower-cased and
    the stored keys are compared as they are.  Behind a handle that can be
    used as a condition, whenever the link table holds a lower-case key
    that equals the requested platform up to letter case, with a non-empty
    URL, redirect-by-platform returns that URL, whatever the letter case of
    the request. *)
Theorem redirect_platform_ignores_request_case (platform key : string)
    (request : Request) (user_id : option string) (w : World) (url : string) :
  testable w →
  eq_ci w key platform →
  lowered w key = key →
  stored_link w key = Some (VStr url) →
  url ≠ "" →
  ∃ w', redirect_platform platform request user_id w =
          (Return (RedirectResponse url), w').
Proof.
  unfold eq_ci. intros Ht Hci Hlow Hlink Hne.
  rewrite Hlow in Hci. subst key.
  unfold stored_link in Hlink.
  destruct (stored_links w) as [m|] eqn:Hm; [|done].
  by eapply redirect_platform_found.
Qed.

Lemma redirect_platform_ignores_request_case_witness :
  ∃ w', redirect_platform "AmaZon" Sample.browser None
          (set_links {| links := {[ "amazon" := "https://amzn.example/x" ]} |}
             (Some "shekharxlr8@gmail.com") (Some "Shekhar_4t7")
             (Sample.listed Sample.ticking)).2 =
          (Return (RedirectResponse "https://amzn.example/x"), w').
Proof.
  apply (redirect_platform_ignores_request_case "AmaZon" "amazon");
    [reflexivity | reflexivity | reflexivity | vm_compute; reflexivity
    | discriminate].
Defined.

(** C2 fails as stated: behind a handle that can be used as a condition,
    the table holds the key "Amazon", which equals the requested "amazon" up
    to letter case, and the lookup still ends in 404, with no Click
    logged. *)
Lemma redirect_platform_stored_case_matters :
  testable Sample.capitalised_links ∧
  stored_link Sample.capitalised_links "Amazon"
    = Some (VStr "https://amzn.example/x") ∧
  eq_ci Sample.capitalised_links "Amazon" "amazon" ∧
  (redirect_platform "amazon" Sample.browser None
     Sample.capitalised_links).1 =
    Raise (HTTPException 404 "Link not available yet.") ∧
  collection_of
    (redirect_platform "amazon" Sample.browser None
       Sample.capitalised_links).2 "click" = [].
Proof. repeat split; vm_compute; reflexivity. Qed.

Lemma set_links_unauthorized_witness :
  set_links {| links := {[ "amazon" := "https://amzn.example/x" ]} |}
    (Some "shekharxlr8@gmail.com") (Some "guess")
    (Sample.listed Sample.ticking) =
  (Raise (HTTPException 401 "Invalid admin credentials"),
   Sample.listed Sample.ticking).
Proof. apply set_links_unauthorized. intros [_ H]. discriminate H. Defined.

Lemma redirect_platform_not_found_witness :
  redirect_platform "amazon" Sample.browser None (Sample.listed Sample.ticking)
  = (Raise (HTTPException 404 "Link not available yet."),
     Sample.listed Sample.ticking) ∧
  redirect_platform "amazon" Sample.browser None
    (Sample.strict (Sample.listed Sample.ticking))
  = (Raise (Exception "NotImplementedError"),
     Sample.strict (Sample.listed Sample.ticking)).
Proof.
  split.
  - apply redirect_platform_not_found; [reflexivity|].
    left. vm_compute. reflexivity.
  - apply redirect_platform_not_found.
    split; [eexists; reflexivity | reflexivity].
Defined.

Lemma set_links_get_links_roundtrip_witness :
  get_links
    (set_links Sample.table Sample.admin_email Sample.admin_password
       (Sample.listed_refusing ["adminauditlog"])).2
  = (Return (JSON (<["links" := str_dict (links Sample.table)]> ok)),
     (set_links Sample.table Sample.admin_email Sample.admin_password
        (Sample.listed_refusing ["adminauditlog"])).2) ∧
  (set_links Sample.table Sample.admin_email Sample.admin_password
     (Sample.strict (Sample.listed Sample.ticking))).1 = Return (JSON ok) ∧
  get_links
    (set_links Sample.table Sample.admin_email Sample.admin_password
       (Sample.strict (Sample.listed Sample.ticking))).2
  = (Raise (Exception "NotImplementedError"),
     (set_links Sample.table Sample.admin_email Sample.admin_password
        (Sample.strict (Sample.listed Sample.ticking))).2).
Proof.
  split; [|split].
  - refine (proj1 set_links_get_links_roundtrip Sample.table
              Sample.admin_email Sample.admin_password
              (Sample.listed_refusing ["adminauditlog"]) _ (JSON ok) _ _);
      [reflexivity|].
    rewrite (surjective_pairing (set_links _ _ _ _)) at 1.
    f_equal; vm_compute; reflexivity.
  - vm_compute. reflexivity.
  - refine (proj2 (proj2 set_links_get_links_roundtrip) Sample.table
              Sample.admin_email Sample.admin_password
              (Sample.strict (Sample.listed Sample.ticking)) _ (JSON ok) _ _);
      [split; [eexists; reflexivity | reflexivity]|].
    rewrite (surjective_pairing (set_links _ _ _ _)) at 1.
    f_equal; vm_compute; reflexivity.
Defined.

(** ** Redirect-by-product: the counter and the click log *)

Lemma product_by_id_inv (w : World) (product_id : string) (i : nat)
    (p : document) :
  product_by_id w product_id = Some (i, p) →
  ∃ d, db w = Some d ∧ valid_oid product_id = true ∧
       doc_by_id (coll d "product") (Str.lower product_id) = Some (i, p).
Proof.
  unfold product_by_id. destruct (db w) as [d|]; [|done]. simpl.
  destruct (valid_oid product_id); [|done]. eauto.
Qed.

Lemma update_one_by_id (name : string) (o : oid) (u : update) (w : World)
    (d : database) (i : nat) (p : document) (f' : gmap string value) :
  db w = Some d →
  fails (env w) name (tick w) = false →
  doc_by_id (coll d name) o = Some (i, p) →
  apply_update u (fields p) = Some f' →
  update_one name [IdEq o] u w =
    (Return (),
     with_db (next_tick w) (<[name := <[i := Doc (_id p) f']> (coll d name)]> d)).
Proof.
  intros Hd Hf Hp Hu. unfold update_one. rewrite Hd, Hf.
  cbn [query_supported forallb clause_supported negb andb].
  rewrite list_find_IdEq, Hp, Hu. reflexivity.
Qed.

(** C1, as the code has it, behind a handle that can be used as a
    condition: for a stored product whose affiliate link is a non-empty
    string, redirect-by-product returns the affiliate link whatever the
    store does with the two telemetry writes; and when the product's
    [affiliate_id] is a string and its [clicks] an integer, as the schema
    has them, and the store accepts the counter update and the Click insert,
    the call replaces the product's [clicks] by [clicks + 1] (nothing else
    of the product collection changes) and appends exactly one Click record:
    type "product", the given product id, the product's affiliate id, the
    caller's ip, empty meta. *)
Theorem redirect_product_counts_click (product_id : string)
    (request : Request) (user_id : option string) (w : World) (i : nat)
    (p : document) (link : string) :
  testable w →
  product_by_id w product_id = Some (i, p) →
  fields p !! "affiliate_link" = Some (VStr link) →
  link ≠ "" →
  (∃ w', redirect_product product_id request user_id w =
           (Return (RedirectResponse link), w')) ∧
  (∀ (affiliate : string) (n : Z),
     fields p !! "affiliate_id" = Some (VStr affiliate) →
     fields p !! "clicks" = Some (VInt n) →
     writes_succeed w "product" →
     writes_succeed w "click" →
     ∃ w' o t,
       redirect_product product_id request user_id w =
         (Return (RedirectResponse link), w') ∧
       collection_of w' "product" =
         <[i := Doc (_id p) (<["clicks" := VInt (n + 1)]> (fields p))]>
           (collection_of w "product") ∧
       collection_of w' "click" =
         collection_of w "click" ++
         [Doc o (stamped t
                   (Click_dump (product_click product_id user_id affiliate
                                  request)))] ∧
       ∀ name, name ≠ "product" → name ≠ "click" →
               collection_of w' name = collection_of w name).
Proof.
  intros Ht Hp Hlink Hne. split.
  { by eapply redirect_product_found. }
  intros affiliate n Haff Hclicks Hwp Hwc.
  destruct (product_by_id_inv _ _ _ _ Hp) as (d & Hd & Hvalid & Hdoc).
  unfold redirect_product.
  rewrite (bind_return _ _ _ _ _ (find_by_id_if_db_product _ _ _ _ Ht Hp)).
  unfold dict_get at 1. rewrite Hlink.
  change (default VNone (Some (VStr link))) with (VStr link).
  rewrite truthy_str by done. cbn [negb]. rewrite bind_run.
  unfold try_pass at 1. rewrite bind_run. unfold ObjectId. rewrite Hvalid.
  unfold mret at 1, M_ret at 1.
  erewrite (update_one_by_id "product" _ (UInc "clicks") w d i p);
    [|done|apply Hwp|done|simpl; rewrite Hclicks; reflexivity].
  rewrite bind_run. unfold try_pass. rewrite bind_run.
  unfold dict_get at 1. rewrite Haff.
  change (default VNone (Some (VStr affiliate))) with (VStr affiliate).
  unfold as_optional_str. unfold mret at 1, M_ret at 1. rewrite bind_run.
  match goal with
  | |- context [create_document "click" ?data ?w1] =>
      destruct (create_document_ok "click" data w1 _ eq_refl (Hwc _))
        as (o & w2 & -> & _ & _ & Hdb2)
  end.
  unfold mret at 1, M_ret at 1. unfold dict_get. rewrite Hlink.
  exists w2, o. eexists. split; [reflexivity|].
  unfold collection_of. rewrite Hdb2, Hd. cbn [from_option].
  split; [|split].
  - rewrite coll_insert_ne by done. by rewrite coll_insert_eq.
  - rewrite coll_insert_eq. rewrite coll_insert_ne by done. reflexivity.
  - intros name H1 H2. by rewrite !coll_insert_ne.
Qed.

Lemma redirect_product_counts_click_witness :
  (∃ w', redirect_product Sample.P Sample.browser None
           (Sample.listed Sample.ticking) =
           (Return (RedirectResponse "https://vendor/x"), w')) ∧
  ∃ w' o t,
    redirect_product Sample.P Sample.browser None
        (Sample.listed Sample.ticking) =
      (Return (RedirectResponse "https://vendor/x"), w') ∧
    collection_of w' "product" =
      <[0 := Doc (_id Sample.product)
               (<["clicks" := VInt (0 + 1)]> (fields Sample.product))]>
        (collection_of (Sample.listed Sample.ticking) "product") ∧
    collection_of w' "click" =
      collection_of (Sample.listed Sample.ticking) "click" ++
      [Doc o (stamped t
                (Click_dump (product_click Sample.P None Sample.affiliate_A
                               Sample.browser)))] ∧
    ∀ name, name ≠ "product" → name ≠ "click" →
            collection_of w' name =
            collection_of (Sample.listed Sample.ticking) name.
Proof.
  destruct (redirect_product_counts_click Sample.P Sample.browser None
              (Sample.listed Sample.ticking) 0 Sample.product
              "https://vendor/x") as [Hreturn Heffect].
  - reflexivity.
  - vm_compute. reflexivity.
  - vm_compute. reflexivity.
  - discriminate.
  - split; [exact Hreturn|].
    apply (Heffect Sample.affiliate_A 0%Z).
    + vm_compute. reflexivity.
    + vm_compute. reflexivity.
    + intros n. reflexivity.
    + intros n. reflexivity.
Defined.

(** C1 fails as stated: behind a handle that can be used as a condition,
    the store refuses the writes to [product] and [click];
    redirect-by-product still returns the affiliate link, and the product's
    counter stays at 0 and no Click record is appended. *)
Lemma redirect_product_without_telemetry :
  testable (Sample.listed_refusing ["product"; "click"]) ∧
  (redirect_product Sample.P Sample.browser None
     (Sample.listed_refusing ["product"; "click"])).1 =
    Return (RedirectResponse "https://vendor/x") ∧
  product_field (Sample.listed_refusing ["product"; "click"]) Sample.P
    "clicks" = Some (VInt 0) ∧
  product_field
    (redirect_product Sample.P Sample.browser None
       (Sample.listed_refusing ["product"; "click"])).2 Sample.P
    "clicks" = Some (VInt 0) ∧
  collection_of
    (redirect_product Sample.P Sample.browser None
       (Sample.listed_refusing ["product"; "click"])).2 "click" = [].
Proof. repeat split; vm_compute; reflexivity. Qed.

(** ** Search: the result-count limit *)

Lemma length_cursor_limit (n : Z) (docs : list document) :
  (0 < n)%Z → (Z.of_nat (length (cursor_limit n docs)) ≤ n)%Z.
Proof.
  intros Hn. unfold cursor_limit.
  destruct (Z.eqb_spec n 0) as [->|_]; [lia|].
  rewrite length_take. lia.
Qed.

Lemma list_products_run (q category : option string) (hot : option bool)
    (limit : option Z) (w : World) :
  testable w →
  list_products q category hot limit w =
    match db w with
    | None => (Return (items_response []), w)
    | Some d =>
        let n := default default_limit limit in
        if negb (fits_int64 n) then (Raise (Exception "OverflowError"), w)
        else if query_supported (products_filter q category hot)
        then (Return (items_response
                (to_item <$> cursor_limit n
                   (matching_products w q category hot))), w)
        else
          match engine (env w) (products_filter q category hot) with
          | Some accepts =>
              (Return (items_response
                 (to_item <$> cursor_limit n
                    (filter (λ x, Is_true (accepts x))
                       (collection_of w "product")))), w)
          | None => (Raise (Exception "OperationFailure"), w)
          end
    end.
Proof.
  intros Ht. unfold list_products, matching_products, collection_of.
  rewrite bind_run. destruct (db w) as [d|] eqn:Hd.
  2:{ by rewrite (bool_db_none _ Hd). }
  rewrite (bool_db_connected _ _ Ht Hd).
  rewrite bind_run. unfold find, db_collection. rewrite bind_run, Hd.
  cbn [from_option].
  destruct (negb (fits_int64 _)); [reflexivity|].
  rewrite bind_run. unfold store_test.
  destruct (query_supported _); [reflexivity|].
  destruct (engine _ _); reflexivity.
Qed.

Lemma list_products_raises (q category : option string) (hot : option bool)
    (limit : option Z) (w : World) :
  untestable w →
  list_products q category hot limit w =
    (Raise (Exception "NotImplementedError"), w).
Proof. apply bind_bool_db_raises. Qed.

(** C3, as the code has it: the limit defaults to 50 when the caller gives
    none; for a positive limit every call, whatever it searches for, either
    raises or returns a list of products no longer than the limit; behind a
    handle that can be used as a condition, a search of the store with a
    positive limit that fits the store's integers returns the first
    [limit] of the matching products; and a limit of 0 is passed to the
    store, where it means no limit, so every matching product is
    returned. *)
Theorem list_products_limit :
  (∀ (q category : option string) (hot : option bool) (w : World),
     list_products q category hot None w =
     list_products q category hot (Some 50%Z) w) ∧
  (∀ (q category : option string) (hot : option bool) (limit : Z)
     (w : World),
     (0 < limit)%Z →
     match (list_products q category hot (Some limit) w).1 with
     | Return r =>
         ∃ items, r = items_response items ∧
                  (Z.of_nat (length items) ≤ limit)%Z
     | Raise _ => True
     | Unmodelled => False
     end) ∧
  (∀ (q category : option string) (hot : option bool) (limit : Z)
     (w : World),
     testable w →
     is_Some (db w) →
     query_supported (products_filter q category hot) = true →
     (0 < limit)%Z →
     fits_int64 limit = true →
     list_products q category hot (Some limit) w =
       (Return (items_response
                  (to_item <$> take (Z.to_nat limit)
                                 (matching_products w q category hot))), w)) ∧
  (∀ (q category : option string) (hot : option bool) (w : World),
     testable w →
     is_Some (db w) →
     query_supported (products_filter q category hot) = true →
     list_products q category hot (Some 0%Z) w =
       (Return (items_response
                  (to_item <$> matching_products w q category hot)), w)).
Proof.
  split; [|split; [|split]].
  - intros. reflexivity.
  - intros q category hot limit w Hpos.
    destruct (truth_test (env w)) eqn:Ht.
    2:{ destruct (db w) as [d|] eqn:Hd.
        - by rewrite list_products_raises by (split; [eauto|done]).
        - unfold list_products. rewrite bind_run, (bool_db_none _ Hd).
          exists []. split; [reflexivity|]. simpl. lia. }
    rewrite list_products_run by done.
    destruct (db w) as [d|].
    + cbn [default from_option id]. unfold default. cbn [from_option id].
      destruct (negb (fits_int64 limit)); [done|].
      destruct (query_supported _).
      * eexists. split; [reflexivity|].
        rewrite length_fmap. by apply length_cursor_limit.
      * destruct (engine _ _); [|done].
        eexists. split; [reflexivity|].
        rewrite length_fmap. by apply length_cursor_limit.
    + exists []. split; [reflexivity|]. simpl. lia.
  - intros q category hot limit w Ht [d Hd] Hq Hpos Hfits.
    rewrite list_products_run, Hd, Hq by done.
    cbn [default from_option id]. unfold default. cbn [from_option id].
    rewrite Hfits. cbn [negb]. unfold cursor_limit.
    destruct (Z.eqb_spec limit 0) as [->|_]; [lia|].
    by rewrite Z.abs_eq by lia.
  - intros q category hot w Ht [d Hd] Hq.
    rewrite list_products_run, Hd, Hq by done. reflexivity.
Qed.

Lemma list_products_limit_witness :
  length (collection_of Demo.busy "product") = 2 ∧
  (list_products None None None (Some 1%Z) Demo.busy).1 =
    Return (items_response [to_item Sample.product]).
Proof.
  split; [vm_compute; reflexivity|].
  rewrite (proj1 (proj2 (proj2 list_products_limit)) None None None 1%Z
             Demo.busy);
    [vm_compute; reflexivity | reflexivity | eexists; reflexivity
    | reflexivity | lia | reflexivity].
Defined.

(** C3 fails as stated: behind a handle that can be used as a condition,
    asked for at most 0 products, the search returns the one product the
    store holds, and with it more than the requested limit. *)
Lemma list_products_limit_zero_unbounded :
  testable (Sample.listed Sample.ticking) ∧
  (list_products None None None (Some 0%Z) (Sample.listed Sample.ticking)).1 =
    Return (items_response [to_item Sample.product]) ∧
  (0 < Z.of_nat (length [to_item Sample.product]))%Z.
Proof. split; [|split]; [reflexivity | vm_compute; reflexivity | simpl; lia]. Qed.

(** ** Partial update of a listing *)

Lemma lookup_set_field_eq {A} (k : string) (inj : A → value) (x : option A)
    (m : gmap string value) :
  m !! k = None → set_field k inj x m !! k = inj <$> x.
Proof.
  intros Hm. destruct x as [a|]; simpl; [apply lookup_insert_eq|exact Hm].
Qed.

Lemma lookup_set_field_ne {A} (k k' : string) (inj : A → value)
    (x : option A) (m : gmap string value) :
  k' ≠ k → set_field k' inj x m !! k = m !! k.
Proof.
  intros Hne. destruct x as [a|]; simpl; [|reflexivity].
  by rewrite lookup_insert_ne.
Qed.

(** [model_dump(exclude_none=True)] has exactly the supplied fields. *)
Lemma dump_exclude_none_lookup (r : ProductUpdateRequest) (k : string) :
  ProductUpdateRequest_dump_exclude_none r !! k = supplied r k.
Proof.
  unfold ProductUpdateRequest_dump_exclude_none, supplied.
  repeat (case_decide;
    [ subst k; rewrite ?lookup_set_field_ne by done;
      apply lookup_set_field_eq;
      rewrite ?lookup_set_field_ne by done; apply lookup_empty
    | rewrite (lookup_set_field_ne k) by done ]).
  apply lookup_empty.
Qed.

Lemma supplied_not_none (r : ProductUpdateRequest) (k : string) :
  supplied r k ≠ Some VNone.
Proof.
  unfold supplied, str_list.
  repeat (case_decide;
    [match goal with |- _ <$> ?x ≠ _ => by destruct x end|]).
  done.
Qed.

Lemma supplied_updated_at (r : ProductUpdateRequest) :
  supplied r "updated_at" = None.
Proof. reflexivity. Qed.

Lemma doc_by_id_insert (c : collection) (o : oid) (i : nat) (x : document)
    (f : gmap string value) :
  doc_by_id c o = Some (i, x) →
  doc_by_id (<[i := Doc (_id x) f]> c) o = Some (i, Doc (_id x) f).
Proof.
  unfold doc_by_id. intros H. apply list_find_Some in H as (Hi & Hid & Hlt).
  apply list_find_Some. split; [|split].
  - apply list_lookup_insert_eq. by eapply lookup_lt_Some.
  - exact Hid.
  - intros j y Hj Hji. rewrite list_lookup_insert_ne in Hj by lia.
    by eapply Hlt.
Qed.

(** C5, as the code has it: behind a handle that can be used as a
    condition, a partial update by the owning affiliate, once the store
    accepts the write, sets exactly the fields the request supplies, leaves
    every other field of the product (and every other product) as it was,
    never writes a null, and stamps [updated_at] with the reading of the
    clock at the update. *)
Theorem update_product_patches (product_id : string)
    (req : ProductUpdateRequest) (user_id : string) (w : World) (i : nat)
    (p : document) :
  testable w →
  product_by_id w product_id = Some (i, p) →
  fields p !! "affiliate_id" = Some (VStr user_id) →
  writes_succeed w "product" →
  ∃ w' p',
    update_product product_id req user_id w = (Return (JSON ok), w') ∧
    product_by_id w' product_id = Some (i, p') ∧
    collection_of w' "product" = <[i := p']> (collection_of w "product") ∧
    (∀ k v, supplied req k = Some v → fields p' !! k = Some v) ∧
    (∀ k, supplied req k = None → k ≠ "updated_at" →
          fields p' !! k = fields p !! k) ∧
    (∀ k, supplied req k ≠ Some VNone) ∧
    fields p' !! "updated_at" = Some (VDate (clock (env w) (tick w))).
Proof.
  intros Ht Hp Hown Hw.
  destruct (product_by_id_inv _ _ _ _ Hp) as (d & Hd & Hvalid & Hdoc).
  unfold update_product.
  rewrite (bind_return _ _ _ _ _ (find_by_id_if_db_product _ _ _ _ Ht Hp)).
  unfold dict_get. rewrite Hown.
  change (default VNone (Some (VStr user_id))) with (VStr user_id).
  unfold is_str. rewrite bool_decide_eq_true_2 by done. cbn [negb].
  rewrite bind_run. unfold datetime_now. rewrite bind_run.
  unfold ObjectId. rewrite Hvalid. unfold mret at 1, M_ret at 1.
  rewrite bind_run.
  erewrite (update_one_by_id "product" _ _ (next_tick w) d i p);
    [|exact Hd|apply Hw|exact Hdoc|reflexivity].
  unfold mret, M_ret.
  set (t := clock (env w) (tick w)).
  set (f' := <["updated_at" := VDate t]>
               (ProductUpdateRequest_dump_exclude_none req) ∪ fields p).
  eexists _, (Doc (_id p) f'). split; [reflexivity|].
  split; [|split; [|split; [|split; [|split]]]].
  - unfold product_by_id. simpl. rewrite Hvalid, coll_insert_eq.
    by apply doc_by_id_insert.
  - unfold collection_of. simpl. rewrite Hd. simpl.
    by rewrite coll_insert_eq.
  - intros k v Hk. simpl. unfold f'. apply lookup_union_Some_l.
    rewrite lookup_insert_ne; [by rewrite dump_exclude_none_lookup|].
    intros <-. by rewrite supplied_updated_at in Hk.
  - intros k Hk Hne. simpl. unfold f'. apply lookup_union_r.
    rewrite lookup_insert_ne by done. by rewrite dump_exclude_none_lookup.
  - apply supplied_not_none.
  - simpl. unfold f'. apply lookup_union_Some_l. apply lookup_insert_eq.
Qed.

Lemma update_product_patches_witness :
  ∃ w' p',
    update_product Sample.P Sample.new_price Sample.affiliate_A
        (Sample.listed Sample.ticking) = (Return (JSON ok), w') ∧
    product_by_id w' Sample.P = Some (0, p') ∧
    collection_of w' "product" =
      <[0 := p']> (collection_of (Sample.listed Sample.ticking) "product") ∧
    (∀ k v, supplied Sample.new_price k = Some v → fields p' !! k = Some v) ∧
    (∀ k, supplied Sample.new_price k = None → k ≠ "updated_at" →
          fields p' !! k = fields Sample.product !! k) ∧
    (∀ k, supplied Sample.new_price k ≠ Some VNone) ∧
    fields p' !! "updated_at" =
      Some (VDate (clock (env (Sample.listed Sample.ticking))
                     (tick (Sample.listed Sample.ticking)))).
Proof.
  apply (update_product_patches Sample.P Sample.new_price Sample.affiliate_A
           (Sample.listed Sample.ticking) 0 Sample.product).
  - reflexivity.
  - vm_compute. reflexivity.
  - vm_compute. reflexivity.
  - intros n. reflexivity.
Defined.

(** C5 fails as stated: behind a handle that can be used as a condition,
    the listing was stamped at a reading of the clock, the update reads the
    same time again, and the product's [updated_at] after the update is the
    one it had before, not a newer one. *)
Lemma update_product_same_timestamp :
  testable (Sample.listed Sample.frozen) ∧
  (update_product Sample.P Sample.new_price Sample.affiliate_A
     (Sample.listed Sample.frozen)).1 = Return (JSON ok) ∧
  product_field (Sample.listed Sample.frozen) Sample.P "updated_at" =
    Some (VDate 1700000000) ∧
  product_field
    (update_product Sample.P Sample.new_price Sample.affiliate_A
       (Sample.listed Sample.frozen)).2 Sample.P "updated_at" =
    Some (VDate 1700000000) ∧
  product_field
    (update_product Sample.P Sample.new_price Sample.affiliate_A
       (Sample.listed Sample.frozen)).2 Sample.P "price" =
    Some (VFloat 999).
Proof. repeat split; vm_compute; reflexivity. Qed.

(** ** The counters over all calls *)

Section Keeps.
Context (name : string).

Lemma keeps_ret {A} (a : A) : keeps name (mret a).
Proof. intros w. reflexivity. Qed.

Lemma keeps_raise {A} (e : exn) : keeps name (raise (A := A) e).
Proof. intros w. reflexivity. Qed.

Lemma keeps_unmodelled {A} : keeps name (unmodelled (A := A)).
Proof. intros w. reflexivity. Qed.

Lemma keeps_get_db : keeps name get_db.
Proof. intros w. reflexivity. Qed.

Lemma keeps_bool_db : keeps name bool_db.
Proof.
  intros w. unfold bool_db. destruct (db w); [|done].
  by destruct (truth_test (env w)).
Qed.

Lemma keeps_str_lower (s : string) : keeps name (str_lower s).
Proof. intros w. reflexivity. Qed.

Lemma keeps_store_test (q : query) : keeps name (store_test q).
Proof.
  intros w. unfold store_test. destruct (query_supported q); [done|].
  by destruct (engine (env w) q).
Qed.

Lemma keeps_datetime_now : keeps name datetime_now.
Proof. intros w. reflexivity. Qed.

Lemma changes_bind_l {A B} (R : collection → collection → Prop)
    (m : M A) (f : A → M B) :
  keeps name m → (∀ a, changes name R (f a)) →
  (∀ c, R c c) → changes name R (m ≫= f).
Proof.
  intros Hm Hf Hrefl w. rewrite bind_run. specialize (Hm w).
  destruct (m w) as [[a|e|] w1]; simpl in *.
  - rewrite Hm. apply Hf.
  - rewrite Hm. apply Hrefl.
  - rewrite Hm. apply Hrefl.
Qed.

Lemma changes_bind_r {A B} (R : collection → collection → Prop)
    (m : M A) (f : A → M B) :
  changes name R m → (∀ a, keeps name (f a)) → changes name R (m ≫= f).
Proof.
  intros Hm Hf w. rewrite bind_run. specialize (Hm w).
  destruct (m w) as [[a|e|] w1]; simpl in *; [|done|done].
  specialize (Hf a w1). unfold keeps, changes in Hf. by rewrite <- Hf.
Qed.

Lemma keeps_bind {A B} (m : M A) (f : A → M B) :
  keeps name m → (∀ a, keeps name (f a)) → keeps name (m ≫= f).
Proof. intros Hm Hf. by apply changes_bind_r. Qed.

Lemma changes_try_pass (R : collection → collection → Prop) (body : M unit) :
  changes name R body → changes name R (try_pass body).
Proof.
  intros Hb w. specialize (Hb w). unfold try_pass.
  by destruct (body w) as [[[]|e|] w1].
Qed.

Lemma keeps_db_collection (other : string) :
  keeps name (db_collection other).
Proof. intros w. unfold db_collection. by destruct (db w). Qed.

Lemma keeps_find_one (other : string) (q : query) :
  keeps name (find_one other q).
Proof.
  unfold find_one. apply keeps_bind; [apply keeps_db_collection|].
  intros docs. destruct (negb _); [apply keeps_unmodelled|apply keeps_ret].
Qed.

Lemma keeps_find (other : string) (q : query) (n : Z) :
  keeps name (find other q n).
Proof.
  unfold find. apply keeps_bind; [apply keeps_db_collection|].
  intros docs. destruct (negb _); [apply keeps_raise|].
  apply keeps_bind; [apply keeps_store_test|]. intros accepts.
  apply keeps_ret.
Qed.

Lemma keeps_ObjectId (s : string) : keeps name (ObjectId s).
Proof.
  unfold ObjectId. destruct (valid_oid s); [apply keeps_ret|].
  destruct (_ && _); [apply keeps_unmodelled|apply keeps_raise].
Qed.

Lemma keeps_as_str (v : value) : keeps name (as_str v).
Proof. destruct v; try apply keeps_raise; apply keeps_ret. Qed.

Lemma keeps_as_optional_str (v : value) : keeps name (as_optional_str v).
Proof. destruct v; try apply keeps_raise; apply keeps_ret. Qed.

Lemma keeps_redirect (v : value) : keeps name (redirect v).
Proof. destruct v; try apply keeps_unmodelled; apply keeps_ret. Qed.

Lemma keeps_insert_one (other : string) (f : gmap string value) :
  other ≠ name → keeps name (insert_one other f).
Proof.
  intros Hne w. unfold insert_one, collection_of.
  destruct (db w) as [d|] eqn:Hd; simpl; [|by rewrite Hd].
  destruct (fails _ _ _); simpl; [by rewrite Hd|].
  by rewrite coll_insert_ne.
Qed.

Lemma keeps_update_one (other : string) (q : query) (u : update) :
  other ≠ name → keeps name (update_one other q u).
Proof.
  intros Hne w. unfold update_one, collection_of.
  destruct (db w) as [d|] eqn:Hd; simpl; [|by rewrite Hd].
  destruct (fails _ _ _); simpl; [by rewrite Hd|].
  destruct (negb _); simpl; [by rewrite Hd|].
  destruct (list_find _ _) as [[i x]|]; simpl; [|by rewrite Hd].
  destruct (apply_update _ _); simpl; [|by rewrite Hd].
  by rewrite coll_insert_ne.
Qed.

Lemma keeps_create_document (other : string) (data : gmap string value) :
  other ≠ name → keeps name (create_document other data).
Proof.
  intros Hne. unfold create_document.
  apply keeps_bind; [apply keeps_get_db|]. intros [d|]; [|apply keeps_raise].
  apply keeps_bind; [apply keeps_datetime_now|]. intros t.
  apply keeps_bind; [by apply keeps_insert_one|]. intros o.
  apply keeps_ret.
Qed.

Lemma keeps_find_by_id_if_db (other id : string) :
  keeps name (find_by_id_if_db other id).
Proof.
  unfold find_by_id_if_db. apply keeps_bind; [apply keeps_bool_db|].
  intros []; [|apply keeps_ret].
  apply keeps_bind; [apply keeps_ObjectId|]. intros o.
  apply keeps_find_one.
Qed.

Lemma keeps_find_first_if_db (other : string) :
  keeps name (find_first_if_db other).
Proof.
  unfold find_first_if_db. apply keeps_bind; [apply keeps_bool_db|].
  intros []; [apply keeps_find_one|apply keeps_ret].
Qed.

Lemma keeps_links_get (doc : option document) (key : string) :
  keeps name (links_get doc key).
Proof.
  unfold links_get. destruct doc as [x|]; [|apply keeps_ret].
  destruct (default _ _); try apply keeps_raise. apply keeps_ret.
Qed.

End Keeps.

Create HintDb keeps discriminated.

#[local] Hint Resolve keeps_ret keeps_raise keeps_unmodelled keeps_get_db
  keeps_bool_db keeps_str_lower keeps_store_test keeps_datetime_now
  keeps_find_one keeps_find keeps_ObjectId keeps_as_str
  keeps_as_optional_str keeps_redirect keeps_find_by_id_if_db
  keeps_find_first_if_db keeps_links_get : keeps.

(** Closes [keeps name m] for a computation built from operations that do
    not write to [name]. *)
Ltac keeps_tac :=
  repeat first
    [ progress eauto with keeps
    | apply keeps_create_document; discriminate
    | apply keeps_update_one; discriminate
    | apply keeps_insert_one; discriminate
    | apply keeps_bind; [|intros ?]
    | apply changes_try_pass
    | match goal with
      | |- keeps _ (match ?x with _ => _ end) => destruct x
      | |- keeps _ (if ?b then _ else _) => destruct b
      end ].

Lemma keeps_product_list_products q category hot limit :
  keeps "product" (list_products q category hot limit).
Proof. unfold list_products. keeps_tac. Qed.

Lemma keeps_product_get_product product_id :
  keeps "product" (get_product product_id).
Proof. unfold get_product. keeps_tac. Qed.

Lemma keeps_product_get_links : keeps "product" get_links.
Proof. unfold get_links. keeps_tac. Qed.

Lemma keeps_product_set_links payload admin_email admin_password :
  keeps "product" (set_links payload admin_email admin_password).
Proof. unfold set_links. keeps_tac. Qed.

Lemma keeps_product_redirect_platform platform request user_id :
  keeps "product" (redirect_platform platform request user_id).
Proof. unfold redirect_platform. keeps_tac. Qed.

Lemma keeps_product_create_order product_id user_id :
  keeps "product" (create_order product_id user_id).
Proof. unfold create_order. keeps_tac. Qed.

Lemma step_same (c : collection) : product_step c c.
Proof. apply step_patch, patch_same. Qed.

Lemma changes_raise {A} (name : string) (e : exn) :
  changes name product_step (raise (A := A) e).
Proof. intros w. apply step_same. Qed.

Lemma changes_create_document_product (data : gmap string value) :
  data !! "clicks" = Some (VInt 0) →
  data !! "orders" = Some (VInt 0) →
  changes "product" product_step (create_document "product" data).
Proof.
  intros Hc Ho w. unfold collection_of.
  destruct (create_document_cases "product" data w)
    as [(e & w' & -> & Hdb & _) | (d & o & t & w' & -> & Hd & _ & _ & _ & Hdb)];
    simpl.
  - rewrite Hdb. apply step_same.
  - rewrite Hdb, Hd. simpl. rewrite coll_insert_eq. apply step_create.
    split; simpl; by rewrite !lookup_insert_ne.
Qed.

Lemma changes_update_one_set (o : oid) (updates : gmap string value) :
  (∀ k, protected k → updates !! k = None) →
  changes "product" patch_step
    (update_one "product" [IdEq o] (USet updates)).
Proof.
  intros Hu w. unfold update_one, collection_of.
  destruct (db w) as [d|] eqn:Hd; simpl; [|rewrite Hd; apply patch_same].
  destruct (fails _ _ _); simpl; [rewrite Hd; apply patch_same|].
  destruct (list_find _ _) as [[i x]|] eqn:Hfind; simpl;
    [|rewrite Hd; apply patch_same].
  apply list_find_Some in Hfind as (Hi & _ & _).
  rewrite coll_insert_eq. apply patch_update; [exact Hi|].
  intros k Hk. apply lookup_union_r. by apply Hu.
Qed.

Lemma changes_update_one_inc (o : oid) :
  changes "product" product_step
    (update_one "product" [IdEq o] (UInc "clicks")).
Proof.
  intros w. remember (UInc "clicks") as u eqn:Hu.
  unfold update_one, collection_of.
  destruct (db w) as [d|] eqn:Hd; simpl; [|rewrite Hd; apply step_same].
  destruct (fails _ _ _); simpl; [rewrite Hd; apply step_same|].
  destruct (list_find _ _) as [[i x]|] eqn:Hfind; simpl;
    [|rewrite Hd; apply step_same].
  apply list_find_Some in Hfind as (Hi & _ & _).
  destruct (apply_update u (fields x)) as [f'|] eqn:Hupd;
    simpl; [|rewrite Hd; apply step_same].
  rewrite coll_insert_eq. subst u. by apply step_click.
Qed.

Lemma changes_create_product req user_id :
  changes "product" product_step (create_product req user_id).
Proof.
  unfold create_product.
  apply changes_bind_l; [apply keeps_find_by_id_if_db| |apply step_same].
  intros [a|]; [|apply changes_raise].
  destruct (negb (is_str _ _)); [apply changes_raise|].
  destruct (negb (Product_valid _)); [apply changes_raise|].
  apply changes_bind_r; [|intros pid; apply keeps_ret].
  apply changes_create_document_product; reflexivity.
Qed.

Lemma protected_not_supplied (req : ProductUpdateRequest) (t : Z) (k : string) :
  protected k →
  <["updated_at" := VDate t]> (ProductUpdateRequest_dump_exclude_none req)
    !! k = None.
Proof.
  intros Hk. rewrite lookup_insert_ne.
  - rewrite dump_exclude_none_lookup.
    destruct Hk as [->|[->| ->]]; reflexivity.
  - destruct Hk as [->|[->| ->]]; discriminate.
Qed.

Lemma changes_update_product product_id req user_id :
  changes "product" patch_step (update_product product_id req user_id).
Proof.
  unfold update_product.
  apply changes_bind_l; [apply keeps_find_by_id_if_db| |apply patch_same].
  intros [p|]; [|intros w; apply patch_same].
  destruct (negb (is_str _ _)); [intros w; apply patch_same|].
  apply changes_bind_l; [apply keeps_datetime_now| |apply patch_same].
  intros t.
  apply changes_bind_l; [apply keeps_ObjectId| |apply patch_same].
  intros o.
  apply changes_bind_r; [|intros []; apply keeps_ret].
  apply changes_update_one_set. intros k. apply protected_not_supplied.
Qed.

Lemma changes_redirect_product product_id request user_id :
  changes "product" product_step (redirect_product product_id request user_id).
Proof.
  unfold redirect_product.
  apply changes_bind_l; [apply keeps_find_by_id_if_db| |apply step_same].
  intros [p|]; [|apply changes_raise].
  destruct (negb (truthy _)); [apply changes_raise|].
  apply changes_bind_r.
  - apply changes_try_pass.
    apply changes_bind_l; [apply keeps_ObjectId| |apply step_same].
    intros o. apply changes_update_one_inc.
  - intros []. keeps_tac.
Qed.

Lemma keeps_step (m : M response) :
  keeps "product" m → changes "product" product_step m.
Proof. intros H w. rewrite <- (H w). apply step_same. Qed.

Lemma serve_product_step (c : call) :
  changes "product" product_step (serve c).
Proof.
  destruct c; simpl.
  - apply changes_create_product.
  - apply keeps_step, keeps_product_list_products.
  - apply keeps_step, keeps_product_get_product.
  - intros w. apply step_patch, changes_update_product.
  - apply keeps_step, keeps_product_get_links.
  - apply keeps_step, keeps_product_set_links.
  - apply keeps_step, keeps_product_redirect_platform.
  - apply changes_redirect_product.
  - apply keeps_step, keeps_product_create_order.
Qed.

Lemma patch_step_lookup (c c' : collection) (i : nat) (p : document) :
  patch_step c c' → c !! i = Some p →
  ∃ p', c' !! i = Some p' ∧ _id p' = _id p ∧
        ∀ k, protected k → fields p' !! k = fields p !! k.
Proof.
  intros Hstep Hi. destruct Hstep as [|j q f' Hj Hprot].
  - exists p. done.
  - destruct (decide (i = j)) as [->|Hne].
    + assert (q = p) as -> by congruence.
      exists (Doc (_id p) f'). split; [|done].
      apply list_lookup_insert_eq. by eapply lookup_lt_Some.
    + exists p. split; [|done]. by rewrite list_lookup_insert_ne.
Qed.

Lemma inc_clicks_counted (p : document) (f' : gmap string value) (n m : Z) :
  counted p n m →
  apply_update (UInc "clicks") (fields p) = Some f' →
  f' = <["clicks" := VInt (n + 1)]> (fields p).
Proof. intros [Hc _]. simpl. rewrite Hc. by intros [= <-]. Qed.

Lemma product_step_lookup (c c' : collection) (i : nat) (p : document)
    (n m : Z) :
  product_step c c' → c !! i = Some p → counted p n m →
  ∃ p' n', c' !! i = Some p' ∧ _id p' = _id p ∧
           fields p' !! "affiliate_id" = fields p !! "affiliate_id" ∧
           counted p' n' m ∧ (n' = n ∨ n' = (n + 1)%Z).
Proof.
  intros Hstep Hi Hcount. destruct Hstep as [c' Hpatch|x Hx|j q f' Hj Hinc].
  - destruct (patch_step_lookup _ _ _ _ Hpatch Hi) as (p' & Hi' & Hid & Hprot).
    exists p', n. split; [done|]. split; [done|].
    split; [apply Hprot; unfold protected; tauto|].
    split; [|by left]. destruct Hcount as [Hc Ho].
    split; rewrite Hprot; unfold protected; tauto.
  - exists p, n. split; [by apply lookup_app_l_Some|].
    repeat split; try apply Hcount. by left.
  - destruct (decide (i = j)) as [->|Hne].
    + assert (q = p) as -> by congruence.
      rewrite (inc_clicks_counted _ _ _ _ Hcount Hinc).
      eexists _, (n + 1)%Z.
      split; [apply list_lookup_insert_eq; by eapply lookup_lt_Some|].
      simpl. split; [done|]. split; [by rewrite lookup_insert_ne|].
      split; [|by right]. destruct Hcount as [Hc Ho]. split; simpl.
      * apply lookup_insert_eq.
      * by rewrite lookup_insert_ne.
    + exists p, n. rewrite list_lookup_insert_ne by done.
      repeat split; try done; try apply Hcount. by left.
Qed.

Lemma product_step_counters_ok (c c' : collection) :
  product_step c c' → Forall counters_ok c → Forall counters_ok c'.
Proof.
  intros Hstep Hall. rewrite Forall_lookup in Hall. apply Forall_lookup.
  intros j x Hj.
  destruct (decide (j < length c)) as [Hlt|Hge].
  - destruct (lookup_lt_is_Some_2 c j Hlt) as [p Hp].
    destruct (Hall j p Hp) as (n & m & Hcount & Hn & Hm).
    destruct (product_step_lookup _ _ _ _ _ _ Hstep Hp Hcount)
      as (p' & n' & Hp' & _ & _ & Hcount' & Hn').
    assert (x = p') as -> by congruence.
    exists n', m. split; [done|]. split; [|done]. destruct Hn'; lia.
  - destruct Hstep as [c' Hpatch|x' Hx|i q f' Hi Hinc].
    + destruct Hpatch.
      * apply lookup_lt_Some in Hj. lia.
      * apply lookup_lt_Some in Hj. rewrite length_insert in Hj. lia.
    + rewrite lookup_app_r in Hj by lia.
      apply list_lookup_singleton_Some in Hj as [_ <-].
      exists 0%Z, 0%Z. done.
    + apply lookup_lt_Some in Hj. rewrite length_insert in Hj. lia.
Qed.

Lemma find_by_id_if_db_world (name id : string) (w : World) :
  (find_by_id_if_db name id w).2 = w.
Proof. apply (find_by_id_if_db_refusing (fails (env w))). Qed.

Lemma create_product_return (req : ProductCreateRequest) (user_id : string)
    (w w' : World) (r : response) :
  create_product req user_id w = (Return r, w') →
  ∃ x, collection_of w' "product" = collection_of w "product" ++ [x] ∧
       counted x 0 0 ∧ fields x !! "affiliate_id" = Some (VStr user_id).
Proof.
  unfold create_product. rewrite bind_run.
  pose proof (find_by_id_if_db_world "user" user_id w) as Hw.
  destruct (find_by_id_if_db "user" user_id w) as [[[a|]|e|] w1];
    simpl in Hw; subst w1; try done.
  destruct (negb (is_str _ _)); [done|].
  destruct (negb (Product_valid _)); [done|].
  rewrite bind_run.
  match goal with
  | |- context [create_document "product" ?data w] =>
      destruct (create_document_cases "product" data w)
        as [(e & w1 & -> & _) | (d & o & t & w1 & -> & Hd & _ & _ & _ & Hdb)]
  end; [done|].
  intros [= <- <-]. unfold collection_of. rewrite Hdb, Hd. simpl.
  rewrite coll_insert_eq. eexists. split; [reflexivity|].
  split; [split|]; simpl; by rewrite !lookup_insert_ne.
Qed.

Lemma is_str_true (f : gmap string value) (k s : string) :
  f !! k = Some (VStr s) → is_str (dict_get f k) s = true.
Proof.
  intros H. unfold dict_get. rewrite H. simpl. by apply bool_decide_eq_true.
Qed.

(** A valid listing of a stored affiliate is accepted when the store takes
    the write. *)
Lemma create_product_ok (req : ProductCreateRequest) (user_id : string)
    (w : World) (a : document) :
  testable w →
  record_by_id w "user" user_id = Some a →
  fields a !! "role" = Some (VStr "affiliate") →
  Product_valid (new_product req user_id) = true →
  writes_succeed w "product" →
  ∃ w' r, create_product req user_id w = (Return r, w').
Proof.
  intros Ht Ha Hrole Hvalid Hw.
  assert (∃ d, db w = Some d) as [d Hd].
  { unfold record_by_id in Ha. destruct (db w); [eauto|done]. }
  unfold create_product.
  rewrite bind_run, (find_by_id_if_db_record _ _ _ _ Ht Ha).
  rewrite (is_str_true _ _ _ Hrole). cbn [negb].
  unfold new_product in Hvalid. rewrite Hvalid. cbn [negb].
  rewrite bind_run.
  match goal with
  | |- context [create_document "product" ?data w] =>
      destruct (create_document_ok "product" data w d Hd (Hw _))
        as (o & w2 & -> & _)
  end.
  eauto.
Qed.

(** C9: the counters of a product are non-negative integers that never
    decrease.  Create-listing stores both at 0 under the creating
    affiliate, and it does create: behind a handle that can be used as a
    condition, the valid listing of a stored affiliate, on a store that
    accepts the write, is appended with both counters at 0 and the creator
    as its affiliate.  Over every call a product keeps its identity, its
    affiliate and its [orders], and its [clicks] stays or grows by exactly
    1; a partial update leaves [clicks], [orders] and [affiliate_id] as
    they are; so after any sequence of calls all counters are still
    non-negative integers. *)
Theorem counters_monotonic :
  (∀ (req : ProductCreateRequest) (user_id : string) (w w' : World)
     (r : response),
     create_product req user_id w = (Return r, w') →
     ∃ x, collection_of w' "product" = collection_of w "product" ++ [x] ∧
          counted x 0 0 ∧
          fields x !! "affiliate_id" = Some (VStr user_id)) ∧
  (∀ (req : ProductCreateRequest) (user_id : string) (w : World)
     (a : document),
     testable w →
     record_by_id w "user" user_id = Some a →
     fields a !! "role" = Some (VStr "affiliate") →
     Product_valid (new_product req user_id) = true →
     writes_succeed w "product" →
     ∃ w' r x,
       create_product req user_id w = (Return r, w') ∧
       collection_of w' "product" = collection_of w "product" ++ [x] ∧
       counted x 0 0 ∧
       fields x !! "affiliate_id" = Some (VStr user_id)) ∧
  (∀ (c : call) (w : World) (i : nat) (p : document) (n m : Z),
     collection_of w "product" !! i = Some p →
     counted p n m →
     ∃ p' n', collection_of (after c w) "product" !! i = Some p' ∧
              _id p' = _id p ∧
              fields p' !! "affiliate_id" = fields p !! "affiliate_id" ∧
              counted p' n' m ∧ (n' = n ∨ n' = (n + 1)%Z)) ∧
  (∀ (product_id : string) (req : ProductUpdateRequest) (user_id : string)
     (w : World) (i : nat) (p : document),
     collection_of w "product" !! i = Some p →
     ∃ p', collection_of (after (UpdateProduct product_id req user_id) w)
             "product" !! i = Some p' ∧
           _id p' = _id p ∧
           ∀ k, protected k → fields p' !! k = fields p !! k) ∧
  (∀ (cs : list call) (w : World),
     Forall counters_ok (collection_of w "product") →
     Forall counters_ok (collection_of (run cs w) "product")).
Proof.
  split; [|split; [|split; [|split]]].
  - apply create_product_return.
  - intros req user_id w a Ht Ha Hrole Hvalid Hw.
    destruct (create_product_ok req user_id w a) as (w' & r & Hrun);
      [done..|].
    destruct (create_product_return _ _ _ _ _ Hrun) as (x & Hx).
    by exists w', r, x.
  - intros c w i p n m Hi Hcount.
    by eapply product_step_lookup; [apply serve_product_step|..].
  - intros product_id req user_id w i p Hi.
    by eapply patch_step_lookup; [apply changes_update_product|].
  - intros cs. induction cs as [|c cs IH]; intros w Hall; [exact Hall|].
    simpl. apply IH.
    by eapply product_step_counters_ok; [apply serve_product_step|].
Qed.

Lemma counters_monotonic_witness :
  (∃ w' r x,
     create_product Sample.listing Sample.affiliate_A
       (Sample.start Sample.ticking) = (Return r, w') ∧
     collection_of w' "product" =
       collection_of (Sample.start Sample.ticking) "product" ++ [x] ∧
     counted x 0 0 ∧
     fields x !! "affiliate_id" = Some (VStr Sample.affiliate_A)) ∧
  collection_of (Sample.listed Sample.ticking) "product" = [Sample.product] ∧
  Forall counters_ok
    (collection_of
       (run [RedirectProduct Sample.P Sample.browser None;
             UpdateProduct Sample.P Sample.new_price Sample.affiliate_A]
          (Sample.listed Sample.ticking)) "product").
Proof.
  split; [|split].
  - apply (proj1 (proj2 counters_monotonic) Sample.listing Sample.affiliate_A
             (Sample.start Sample.ticking)
             (Doc Sample.affiliate_A
                (list_to_map [("role", VStr "affiliate"); ("name", VStr "A");
                              ("email", VStr "a@example.org")]))).
    + reflexivity.
    + vm_compute. reflexivity.
    + vm_compute. reflexivity.
    + vm_compute. reflexivity.
    + intros n. reflexivity.
  - vm_compute. reflexivity.
  - apply (proj2 (proj2 (proj2 (proj2 counters_monotonic)))).
    change (Forall counters_ok [Sample.product]).
    apply Forall_singleton. exists 0%Z, 0%Z.
    split; [split; vm_compute; reflexivity | lia].
Defined.

(** ** Search: free text, category and hot-deal filters *)

Lemma is_meta_dot (c : ascii) : Regex.is_meta c = false → c ≠ "."%char.
Proof. intros H ->. discriminate H. Qed.

Lemma compile_plain (q : string) :
  Regex.plain q = true → is_Some (Regex.compile q).
Proof.
  induction q as [|c q IH]; simpl; [eauto|].
  intros [Hc Hq]%andb_true_iff. apply negb_true_iff in Hc.
  rewrite bool_decide_eq_false_2 by by apply is_meta_dot.
  rewrite Hc. destruct (IH Hq) as [pat ->]. simpl. eauto.
Qed.

Lemma match_here_plain (q : string) (pat : list Regex.atom) (s : string) :
  Regex.plain q = true →
  Regex.compile q = Some pat →
  Regex.match_here true pat s = true ↔
  ∃ suf, Str.lower s = Str.lower q +:+ suf.
Proof.
  revert pat s. induction q as [|c q IH]; intros pat s Hplain Hpat.
  - injection Hpat as <-. simpl. split; [eauto|done].
  - simpl in Hplain. apply andb_true_iff in Hplain as [Hc Hq].
    apply negb_true_iff in Hc. simpl in Hpat.
    rewrite bool_decide_eq_false_2 in Hpat by by apply is_meta_dot.
    rewrite Hc in Hpat.
    destruct (Regex.compile q) as [pat'|] eqn:Hq'; [|done].
    injection Hpat as <-. destruct s as [|d s]; simpl.
    + split; [done|]. by intros [suf Hsuf].
    + rewrite andb_true_iff, bool_decide_eq_true, (IH pat' s Hq eq_refl).
      split.
      * intros [-> [suf ->]]. by exists suf.
      * intros [suf [= -> ->]]. eauto.
Qed.

Lemma search_plain (q : string) (pat : list Regex.atom) (s : string) :
  Regex.plain q = true →
  Regex.compile q = Some pat →
  Regex.search true pat s = true ↔ Str.occurs_in_ci q s.
Proof.
  intros Hplain Hpat. unfold Str.occurs_in_ci, Str.occurs_in.
  induction s as [|d s IH].
  - simpl. rewrite orb_false_r, (match_here_plain q pat "" Hplain Hpat).
    simpl. split.
    + intros [suf Hsuf]. by exists "", suf.
    + intros (pre & suf & H). destruct pre; [by exists suf|done].
  - cbn [Regex.search]. rewrite orb_true_iff, IH.
    rewrite (match_here_plain q pat _ Hplain Hpat). simpl. split.
    + intros [[suf Hsuf] | (pre & suf & Hs)].
      * by exists "", suf.
      * exists (String (Str.ascii_lower d) pre), suf. simpl. by rewrite Hs.
    + intros (pre & suf & H). destruct pre as [|a pre]; simpl in H.
      * left. by exists suf.
      * right. injection H as _ H. by exists pre, suf.
Qed.

(** On a query without metacharacters the caseless regex search is plain
    substring occurrence up to letter case. *)
Lemma regex_search_plain (q s : string) :
  Regex.plain q = true →
  Regex.regex_search q "i" s = true ↔ Str.occurs_in_ci q s.
Proof.
  intros Hplain. unfold Regex.regex_search.
  destruct (compile_plain q Hplain) as [pat Hpat]. rewrite Hpat.
  by apply search_plain.
Qed.



(** Membership in a list that is written out. *)
Ltac listed := apply list_elem_of_In; simpl; tauto.



Lemma field_eq_flat (x : scalar) (v : option value) :
  (∀ l, v ≠ Some (VList l)) →
  field_eq x v = true →
  v = Some (match x with SStr s => VStr s | SBool b => VBool b end).
Proof.
  intros Hflat. destruct v as [[]|]; destruct x; simpl; try done.
  - by intros ->%bool_decide_eq_true.
  - by intros ->%bool_decide_eq_true.
  - by destruct (Hflat l).
  - by destruct (Hflat l).
Qed.

Lemma products_filter_supported (q category : option string)
    (hot : option bool) :
  (∀ s, q = Some s → Regex.plain s = true) →
  query_supported (products_filter q category hot) = true.
Proof.
  intros Hplain. unfold query_supported, products_filter.
  rewrite !forallb_app. repeat (apply andb_true_iff; split).
  - destruct q as [s|]; [|done].
    destruct (bool_decide (s = "")); [done|]. simpl.
    assert (Regex.supported s = true) as ->; [|done].
    apply bool_decide_eq_true. by apply compile_plain, Hplain.
  - destruct category as [c|]; [|done]. by destruct (bool_decide (c = "")).
  - by destruct hot.
Qed.





(** * Further properties of the handlers *)

(** ** Identifiers and refusals *)

Lemma valid_oid_length (id : string) :
  valid_oid id = true → String.length id = 24.
Proof.
  unfold valid_oid. intros [H _]%andb_true_iff. by apply Nat.eqb_eq.
Qed.

Lemma find_by_id_if_db_malformed (name id : string) (w : World) :
  testable w → is_Some (db w) → String.length id ≠ 24 →
  find_by_id_if_db name id w = (Raise (Exception "InvalidId"), w).
Proof.
  intros Ht [d Hd] Hlen. rewrite find_by_id_if_db_run, Hd by done.
  destruct (valid_oid id) eqn:Hv; [by apply valid_oid_length in Hv|].
  by rewrite (proj2 (Nat.eqb_neq _ _) Hlen).
Qed.

(** X1: with a connected store behind a handle that can be used as a
    condition, an identifier that is not 24 characters long is not answered
    with 404: fetching, updating, redirecting to or ordering the product
    raises [InvalidId], and creating a listing under such a user id does
    too; nothing is written. *)
Theorem malformed_id_raises (id : string) (w : World) :
  testable w →
  is_Some (db w) →
  String.length id ≠ 24 →
  get_product id w = (Raise (Exception "InvalidId"), w) ∧
  (∀ req user_id,
     update_product id req user_id w = (Raise (Exception "InvalidId"), w)) ∧
  (∀ request user_id,
     redirect_product id request user_id w =
       (Raise (Exception "InvalidId"), w)) ∧
  (∀ user_id, create_order id user_id w = (Raise (Exception "InvalidId"), w)) ∧
  (∀ req, create_product req id w = (Raise (Exception "InvalidId"), w)).
Proof.
  intros Ht Hdb Hlen.
  pose proof (λ name, find_by_id_if_db_malformed name id w Ht Hdb Hlen) as H.
  repeat split; intros;
    unfold get_product, update_product, redirect_product, create_order,
      create_product;
    by rewrite bind_run, H.
Qed.

Lemma malformed_id_raises_witness :
  get_product "42" (Sample.listed Sample.ticking) =
    (Raise (Exception "InvalidId"), Sample.listed Sample.ticking).
Proof.
  apply (malformed_id_raises "42" (Sample.listed Sample.ticking)).
  - reflexivity.
  - eexists. reflexivity.
  - discriminate.
Defined.

Lemma is_str_false (f : gmap string value) (k s : string) :
  f !! k ≠ Some (VStr s) → is_str (dict_get f k) s = false.
Proof.
  intros Hne. unfold dict_get. destruct (f !! k) as [[]|]; simpl; try done.
  apply bool_decide_eq_false. congruence.
Qed.

(** X2: behind a handle that can be used as a condition, update-listing
    refuses without writing: 404 "Not found" when the id names no stored
    product, 403 "Not owner" when the product's [affiliate_id] is not the
    acting user. *)
Theorem update_product_refused (product_id : string)
    (req : ProductUpdateRequest) (user_id : string) (w : World) :
  testable w →
  (no_record w "product" product_id →
   update_product product_id req user_id w =
     (Raise (HTTPException 404 "Not found"), w)) ∧
  (∀ p, record_by_id w "product" product_id = Some p →
        fields p !! "affiliate_id" ≠ Some (VStr user_id) →
        update_product product_id req user_id w =
          (Raise (HTTPException 403 "Not owner"), w)).
Proof.
  intros Ht. split.
  - intros Hno. unfold update_product.
    by rewrite bind_run, find_by_id_if_db_no_record.
  - intros p Hp Hown. unfold update_product.
    rewrite bind_run, (find_by_id_if_db_record _ _ _ _ Ht Hp).
    by rewrite is_str_false.
Qed.

Lemma update_product_refused_witness :
  update_product Sample.P Sample.new_price "65a1b2c3d4e5f60718293a00"
    (Sample.listed Sample.ticking) =
  (Raise (HTTPException 403 "Not owner"), Sample.listed Sample.ticking).
Proof.
  apply (proj2 (update_product_refused Sample.P Sample.new_price
                  "65a1b2c3d4e5f60718293a00" (Sample.listed Sample.ticking)
                  eq_refl)
           Sample.product).
  - vm_compute. reflexivity.
  - vm_compute. discriminate.
Defined.

(** X3: behind a handle that can be used as a condition,
    redirect-by-product answers 404 "Affiliate link not available", without
    logging a click or counting one, when the id names no stored product or
    the product's [affiliate_link] is missing, null or empty. *)
Theorem redirect_product_not_found (product_id : string) (request : Request)
    (user_id : option string) (w : World) :
  testable w →
  no_record w "product" product_id ∨
  (∃ p, record_by_id w "product" product_id = Some p ∧
        truthy (dict_get (fields p) "affiliate_link") = false) →
  redirect_product product_id request user_id w =
    (Raise (HTTPException 404 "Affiliate link not available"), w).
Proof.
  intros Ht [Hno | (p & Hp & Hlink)]; unfold redirect_product.
  - by rewrite bind_run, find_by_id_if_db_no_record.
  - rewrite bind_run, (find_by_id_if_db_record _ _ _ _ Ht Hp).
    by rewrite Hlink.
Qed.

Lemma redirect_product_not_found_witness :
  redirect_product "65a1b2c3d4e5f60718293a0f" Sample.browser None
    (Sample.listed Sample.ticking) =
  (Raise (HTTPException 404 "Affiliate link not available"),
   Sample.listed Sample.ticking).
Proof.
  apply redirect_product_not_found; [reflexivity|]. left. right.
  split; vm_compute; reflexivity.
Defined.

(** X4: behind a handle that can be used as a condition, create-listing
    refuses without writing: 403 "Only affiliates can upload" when the user
    id names no stored user or the user's role is not "affiliate", and a
    validation error when the rating is outside 0..5. *)
Theorem create_product_refused (req : ProductCreateRequest)
    (user_id : string) (w : World) :
  testable w →
  (no_record w "user" user_id →
   create_product req user_id w =
     (Raise (HTTPException 403 "Only affiliates can upload"), w)) ∧
  (∀ a, record_by_id w "user" user_id = Some a →
        fields a !! "role" ≠ Some (VStr "affiliate") →
        create_product req user_id w =
          (Raise (HTTPException 403 "Only affiliates can upload"), w)) ∧
  (∀ a, record_by_id w "user" user_id = Some a →
        fields a !! "role" = Some (VStr "affiliate") →
        Product_valid (new_product req user_id) = false →
        create_product req user_id w =
          (Raise (Exception "ValidationError"), w)).
Proof.
  intros Ht. split; [|split].
  - intros Hno. unfold create_product.
    by rewrite bind_run, find_by_id_if_db_no_record.
  - intros a Ha Hrole. unfold create_product.
    rewrite bind_run, (find_by_id_if_db_record _ _ _ _ Ht Ha).
    by rewrite is_str_false.
  - intros a Ha Hrole Hbad. unfold create_product.
    rewrite bind_run, (find_by_id_if_db_record _ _ _ _ Ht Ha).
    unfold dict_get. rewrite Hrole. simpl.
    unfold new_product in Hbad. by rewrite Hbad.
Qed.

Lemma create_product_refused_witness :
  create_product Demo.overrated Sample.affiliate_A
    (Sample.start Sample.ticking) =
  (Raise (Exception "ValidationError"), Sample.start Sample.ticking).
Proof.
  apply (proj2 (proj2 (create_product_refused Demo.overrated
                         Sample.affiliate_A (Sample.start Sample.ticking)
                         eq_refl))
           (Doc Sample.affiliate_A
              (list_to_map [("role", VStr "affiliate"); ("name", VStr "A");
                            ("email", VStr "a@example.org")]))).
  - vm_compute. reflexivity.
  - vm_compute. reflexivity.
  - vm_compute. reflexivity.
Defined.

(** ** Creating a listing and reading it back *)

Lemma create_product_stored (req : ProductCreateRequest) (user_id : string)
    (w w' : World) (r : response) :
  create_product req user_id w = (Return r, w') →
  ∃ o, r = JSON (<["product_id" := VStr (str_oid o)]> ok) ∧
       is_Some (db w') ∧ testable w' ∧
       collection_of w' "product" =
         collection_of w "product" ++
         [Doc o (stamped (clock (env w) (tick w))
                   (Product_dump (new_product req user_id)))].
Proof.
  unfold create_product. rewrite bind_run.
  pose proof (find_by_id_if_db_world "user" user_id w) as Hw.
  destruct (find_by_id_if_db "user" user_id w) as [[[a|]|e|] w1] eqn:Hfind;
    simpl in Hw; subst w1; try done.
  apply find_by_id_if_db_found in Hfind as [Ht _].
  destruct (negb (is_str _ _)); [done|].
  destruct (negb (Product_valid _)); [done|].
  rewrite bind_run.
  match goal with
  | |- context [create_document "product" ?data w] =>
      destruct (create_document_cases "product" data w)
        as [(e & w1 & -> & _) | (d & o & t & w1 & -> & Hd & He & -> & _ & Hdb)]
  end; [done|].
  intros [= <- <-]. exists o. split; [reflexivity|].
  split; [by rewrite Hdb|]. split; [unfold testable; by rewrite He|].
  unfold collection_of. rewrite Hdb, Hd. simpl.
  by rewrite coll_insert_eq.
Qed.

Lemma doc_by_id_app_new (c : collection) (o : oid) (x : document) :
  _id x = o →
  (∀ y, y ∈ c → _id y ≠ o) →
  doc_by_id (c ++ [x]) o = Some (length c, x).
Proof.
  intros Hx Hfresh. unfold doc_by_id. apply list_find_app_Some. right.
  split; [lia|]. split.
  - apply list_find_None. apply Forall_forall. intros y Hy. by apply Hfresh.
  - rewrite Nat.sub_diag. simpl. by rewrite decide_True.
Qed.

Lemma record_by_id_collection (w : World) (name id : string) :
  is_Some (db w) → canonical_oid id →
  record_by_id w name id = snd <$> doc_by_id (collection_of w name) id.
Proof.
  intros [d Hd] [Hv Hlow]. unfold record_by_id, collection_of.
  rewrite Hd. simpl. by rewrite Hv, Hlow.
Qed.

Lemma get_product_record (product_id : string) (w : World) (x : document) :
  testable w →
  record_by_id w "product" product_id = Some x →
  get_product product_id w =
    (Return (JSON (<["item" := VDict (to_item x)]> ok)), w).
Proof.
  intros Ht Hx. unfold get_product.
  by rewrite bind_run, (find_by_id_if_db_record _ _ _ _ Ht Hx).
Qed.

(** X5: behind a handle that can be used as a condition, get-product
    returns the stored record the id names, with its [_id] as a string, and
    answers 404 "Not found" when the id names none; either way the state is
    unchanged. *)
Theorem get_product_lookup (product_id : string) (w : World) :
  testable w →
  (∀ x, record_by_id w "product" product_id = Some x →
        get_product product_id w =
          (Return (JSON (<["item" := VDict (to_item x)]> ok)), w)) ∧
  (no_record w "product" product_id →
   get_product product_id w = (Raise (HTTPException 404 "Not found"), w)).
Proof.
  intros Ht. split.
  - intros x. by apply get_product_record.
  - intros Hno. unfold get_product.
    by rewrite bind_run, find_by_id_if_db_no_record.
Qed.

Lemma get_product_lookup_witness :
  get_product Sample.P (Sample.listed Sample.ticking) =
  (Return (JSON (<["item" := VDict (to_item Sample.product)]> ok)),
   Sample.listed Sample.ticking).
Proof.
  apply (proj1 (get_product_lookup Sample.P (Sample.listed Sample.ticking)
                  eq_refl)).
  vm_compute. reflexivity.
Defined.

(** X6: a listing can be read back.  When create-listing succeeds it
    returns the id the store gave the record; if that id is in canonical
    form and not the id of an older product, get-product of it returns the
    request's fields with [featured] false, both counters 0, the creating
    affiliate and the two time stamps. *)
Theorem create_product_get_product (req : ProductCreateRequest)
    (user_id : string) (w w' : World) (r : response) :
  create_product req user_id w = (Return r, w') →
  ∃ pid,
    r = JSON (<["product_id" := VStr pid]> ok) ∧
    (canonical_oid pid →
     (∀ y, y ∈ collection_of w "product" → _id y ≠ pid) →
     get_product pid w' =
       (Return (JSON (<["item" :=
           VDict (<["_id" := VStr pid]>
                    (stamped (clock (env w) (tick w))
                       (Product_dump (new_product req user_id))))]> ok)),
        w')).
Proof.
  intros Hrun.
  destruct (create_product_stored _ _ _ _ _ Hrun)
    as (o & -> & Hdb & Ht & Hcoll).
  exists (str_oid o). split; [reflexivity|]. intros Hcanon Hfresh.
  apply (get_product_record (str_oid o) w'
           (Doc o (stamped (clock (env w) (tick w))
                     (Product_dump (new_product req user_id))))); [done|].
  rewrite record_by_id_collection, Hcoll by done.
  by rewrite doc_by_id_app_new.
Qed.

Lemma create_product_get_product_witness :
  ∃ pid,
    JSON (<["product_id" := VStr Sample.P]> ok) =
      JSON (<["product_id" := VStr pid]> ok) ∧
    (canonical_oid pid →
     (∀ y, y ∈ collection_of (Sample.start Sample.ticking) "product" →
           _id y ≠ pid) →
     get_product pid (Sample.listed Sample.ticking) =
       (Return (JSON (<["item" :=
           VDict (<["_id" := VStr pid]>
                    (stamped (clock (env (Sample.start Sample.ticking))
                                (tick (Sample.start Sample.ticking)))
                       (Product_dump
                          (new_product Sample.listing
                             Sample.affiliate_A))))]> ok)),
        Sample.listed Sample.ticking)).
Proof.
  apply (create_product_get_product Sample.listing Sample.affiliate_A
           (Sample.start Sample.ticking) (Sample.listed Sample.ticking)
           (JSON (<["product_id" := VStr Sample.P]> ok))).
  unfold Sample.listed.
  rewrite (surjective_pairing (create_product _ _ _)) at 1.
  apply (f_equal (λ r, (r, _))). vm_compute. reflexivity.
Defined.

(** ** Accounts *)

Lemma find_user_if_db_run (email : string) (w : World) :
  testable w ∨ db w = None →
  find_user_if_db email w = (Return (account w email), w).
Proof.
  intros Ht. unfold find_user_if_db, account, collection_of. rewrite bind_run.
  destruct (db w) as [d|] eqn:Hd; [|by rewrite (bool_db_none _ Hd)].
  destruct Ht as [Ht|]; [|done].
  rewrite (bool_db_connected _ _ Ht Hd).
  unfold find_one, db_collection. rewrite bind_run, Hd. simpl.
  unfold mret, M_ret. do 3 f_equal. apply list_find_ext. intros x.
  unfold has_email. by rewrite andb_true_r.
Qed.

Lemma find_user_if_db_raises (email : string) (w : World) :
  untestable w →
  find_user_if_db email w = (Raise (Exception "NotImplementedError"), w).
Proof. apply bind_bool_db_raises. Qed.

(** The truth test raises, or it is answered. *)
Lemma untestable_or (w : World) :
  untestable w ∨ testable w ∨ db w = None.
Proof.
  unfold untestable, testable. destruct (db w) as [d|]; [|tauto].
  destruct (truth_test (env w)); eauto.
Qed.

(** X7: behind a handle that can be used as a condition, signing up under
    an email address that already has an account is refused with 400, and
    nothing is written. *)
Theorem signup_existing_email (sha256_hexdigest : string → string)
    (req : SignupRequest) (w : World) (x : document) :
  testable w →
  account w (su_email req) = Some x →
  signup sha256_hexdigest req w =
    (Raise (HTTPException 400 "Account exists — please login instead."), w).
Proof.
  intros Ht Hx. unfold signup.
  by rewrite bind_run, find_user_if_db_run, Hx by by left.
Qed.

Lemma signup_existing_email_witness :
  signup Demo.digest Demo.impostor (Sample.start Sample.ticking) =
    (Raise (HTTPException 400 "Account exists — please login instead."),
     Sample.start Sample.ticking).
Proof.
  apply (signup_existing_email Demo.digest Demo.impostor
           (Sample.start Sample.ticking)
           (Doc Sample.affiliate_A
              (list_to_map [("role", VStr "affiliate"); ("name", VStr "A");
                            ("email", VStr "a@example.org")]))).
  - reflexivity.
  - vm_compute. reflexivity.
Defined.

Lemma signup_stored (sha256_hexdigest : string → string)
    (req : SignupRequest) (w w' : World) (r : response) :
  signup sha256_hexdigest req w = (Return r, w') →
  ∃ o, r = JSON (<["user_id" := VStr (str_oid o)]> ok) ∧
       account w (su_email req) = None ∧
       testable w' ∧
       collection_of w' "user" =
         collection_of w "user" ++
         [Doc o (stamped (clock (env w) (tick w))
                   (User_dump (new_user sha256_hexdigest req)))].
Proof.
  unfold signup. rewrite bind_run.
  destruct (untestable_or w) as [Hu|Ht].
  { by rewrite find_user_if_db_raises. }
  rewrite find_user_if_db_run by done.
  destruct (account w (su_email req)) as [x|] eqn:Hacc; [done|].
  rewrite bind_run.
  match goal with
  | |- context [create_document "user" ?data w] =>
      destruct (create_document_cases "user" data w)
        as [(e & w1 & -> & _) | (d & o & t & w1 & -> & Hd & He & -> & _ & Hdb)]
  end; [done|].
  intros [= <- <-]. exists o. split; [reflexivity|]. split; [done|].
  split.
  { unfold testable. rewrite He. destruct Ht as [Ht|Ht]; [done|congruence]. }
  unfold collection_of. rewrite Hdb, Hd. simpl. by rewrite coll_insert_eq.
Qed.

Lemma account_new (w w' : World) (email : string) (x : document) :
  account w email = None →
  collection_of w' "user" = collection_of w "user" ++ [x] →
  has_email email x = true →
  account w' email = Some x.
Proof.
  unfold account. intros Hnone Hcoll Hx. rewrite Hcoll.
  destruct (list_find _ (collection_of w "user")) as [[i y]|] eqn:Hfind;
    [done|].
  assert (list_find (λ y, has_email email y) (collection_of w "user" ++ [x])
          = Some (length (collection_of w "user"), x)) as ->; [|done].
  apply list_find_app_Some. right. split; [lia|]. split; [done|].
  rewrite Nat.sub_diag. simpl. rewrite decide_True; [done|].
  by apply Is_true_true.
Qed.

Lemma stamped_lookup_ne (t : Z) (data : gmap string value) (k : string) :
  k ≠ "updated_at" → k ≠ "created_at" → stamped t data !! k = data !! k.
Proof. intros H1 H2. unfold stamped. by rewrite !lookup_insert_ne. Qed.

Lemma new_user_record (sha256_hexdigest : string → string)
    (req : SignupRequest) (t : Z) (o : oid) :
  let x := Doc o (stamped t (User_dump (new_user sha256_hexdigest req))) in
  has_email (su_email req) x = true ∧
  is_str (dict_get (fields x) "password_hash")
    (hash_password sha256_hexdigest (su_password req)) = true.
Proof.
  intros x. unfold has_email, dict_get. subst x. cbn [fields].
  rewrite !stamped_lookup_ne by done.
  change (User_dump (new_user sha256_hexdigest req) !! "email")
    with (Some (VStr (su_email req))).
  change (User_dump (new_user sha256_hexdigest req) !! "password_hash")
    with (Some (VStr (hash_password sha256_hexdigest (su_password req)))).
  simpl. by rewrite !bool_decide_eq_true_2.
Qed.

(** X8: signup and login round trip.  After a signup that succeeded, a
    login with the same email and password succeeds, changes nothing, and
    answers with the record the signup stored: the request's role, name
    and contact fields as given, [is_active] true, [ad_free] false, and
    the digest of the password under [password_hash]. *)
Theorem signup_then_login (sha256_hexdigest : string → string)
    (req : SignupRequest) (w w' : World) (r : response) :
  signup sha256_hexdigest req w = (Return r, w') →
  ∃ uid,
    r = JSON (<["user_id" := VStr uid]> ok) ∧
    login sha256_hexdigest
      {| lg_email := su_email req; lg_password := su_password req |} w' =
      (Return (JSON (<["user" :=
          VDict (<["_id" := VStr uid]>
                   (stamped (clock (env w) (tick w))
                      (User_dump (new_user sha256_hexdigest req))))]> ok)),
       w').
Proof.
  intros Hrun.
  destruct (signup_stored _ _ _ _ _ Hrun) as (o & -> & Hnone & Ht & Hcoll).
  exists (str_oid o). split; [reflexivity|].
  destruct (new_user_record sha256_hexdigest req (clock (env w) (tick w)) o)
    as [Hemail Hhash].
  unfold login. rewrite bind_run, find_user_if_db_run by by left.
  cbn [lg_email lg_password].
  rewrite (account_new _ _ _ _ Hnone Hcoll Hemail), Hhash. reflexivity.
Qed.

Lemma signup_then_login_witness :
  ∃ uid,
    JSON (<["user_id" := VStr (Sample.oid_of_nat 1)]> ok) =
      JSON (<["user_id" := VStr uid]> ok) ∧
    login Demo.digest
      {| lg_email := su_email Demo.newcomer;
         lg_password := su_password Demo.newcomer |}
      (signup Demo.digest Demo.newcomer (Sample.start Sample.ticking)).2 =
      (Return (JSON (<["user" :=
          VDict (<["_id" := VStr uid]>
                   (stamped (clock (env (Sample.start Sample.ticking))
                               (tick (Sample.start Sample.ticking)))
                      (User_dump (new_user Demo.digest Demo.newcomer))))]>
                       ok)),
       (signup Demo.digest Demo.newcomer (Sample.start Sample.ticking)).2).
Proof.
  apply (signup_then_login Demo.digest Demo.newcomer
           (Sample.start Sample.ticking)
           (signup Demo.digest Demo.newcomer (Sample.start Sample.ticking)).2
           (JSON (<["user_id" := VStr (Sample.oid_of_nat 1)]> ok))).
  rewrite (surjective_pairing (signup _ _ _)) at 1.
  apply (f_equal (λ r, (r, _))). vm_compute. reflexivity.
Defined.

(** X9: behind a handle that can be used as a condition, login is decided
    by the stored digest alone, and never writes.  It succeeds, answering
    with the whole stored record (its [password_hash] included), when the
    first account with the email holds the digest of the given password; it
    answers 401 "Invalid credentials" when there is no account with the
    email or the account holds anything else. *)
Theorem login_checks_digest (sha256_hexdigest : string → string)
    (req : LoginRequest) (w : World) :
  testable w →
  (∀ x, account w (lg_email req) = Some x →
        fields x !! "password_hash" =
          Some (VStr (sha256_hexdigest (lg_password req))) →
        login sha256_hexdigest req w =
          (Return (JSON (<["user" := VDict (to_item x)]> ok)), w)) ∧
  (account w (lg_email req) = None ∨
   (∃ x, account w (lg_email req) = Some x ∧
         fields x !! "password_hash" ≠
           Some (VStr (sha256_hexdigest (lg_password req)))) →
   login sha256_hexdigest req w =
     (Raise (HTTPException 401 "Invalid credentials"), w)).
Proof.
  intros Ht. split.
  - intros x Hx Hhash. unfold login.
    rewrite bind_run, find_user_if_db_run, Hx by by left.
    unfold dict_get, hash_password. rewrite Hhash. simpl.
    by rewrite bool_decide_eq_true_2.
  - intros [Hnone | (x & Hx & Hhash)]; unfold login;
      rewrite bind_run, find_user_if_db_run by by left.
    + by rewrite Hnone.
    + rewrite Hx. unfold hash_password. by rewrite is_str_false.
Qed.

Lemma login_checks_digest_witness :
  login Demo.digest {| lg_email := "a@example.org"; lg_password := "guess" |}
    (Sample.start Sample.ticking) =
  (Raise (HTTPException 401 "Invalid credentials"),
   Sample.start Sample.ticking).
Proof.
  apply (proj2 (login_checks_digest Demo.digest
                  {| lg_email := "a@example.org"; lg_password := "guess" |}
                  (Sample.start Sample.ticking) eq_refl)).
  right.
  exists (Doc Sample.affiliate_A
            (list_to_map [("role", VStr "affiliate"); ("name", VStr "A");
                          ("email", VStr "a@example.org")])).
  split; [vm_compute; reflexivity | vm_compute; discriminate].
Defined.

Lemma signup_user_step (sha256_hexdigest : string → string)
    (req : SignupRequest) (w : World) :
  collection_of (signup sha256_hexdigest req w).2 "user" =
    collection_of w "user" ∨
  (account w (su_email req) = None ∧
   ∃ o t, collection_of (signup sha256_hexdigest req w).2 "user" =
            collection_of w "user" ++
            [Doc o (stamped t (User_dump (new_user sha256_hexdigest req)))]).
Proof.
  unfold signup. rewrite bind_run.
  destruct (untestable_or w) as [Hu|Ht].
  { left. by rewrite find_user_if_db_raises. }
  rewrite find_user_if_db_run by done.
  destruct (account w (su_email req)) as [x|] eqn:Hacc; [by left|].
  rewrite bind_run.
  match goal with
  | |- context [create_document "user" ?data w] =>
      destruct (create_document_cases "user" data w)
        as [(e & w1 & -> & Hdb & _) | (d & o & t & w1 & -> & Hd & _ & -> & _ & Hdb)]
  end.
  - left. unfold collection_of. simpl. by rewrite Hdb.
  - right. split; [done|]. exists o. eexists.
    unfold collection_of. simpl. rewrite Hdb, Hd. simpl.
    by rewrite coll_insert_eq.
Qed.

Lemma account_none_email (w : World) (email : string) (x : document)
    (e : string) :
  account w email = None →
  x ∈ collection_of w "user" →
  email_of x = Some e → e ≠ email.
Proof.
  unfold account. intros Hnone Hin He.
  destruct (list_find _ _) as [[i y]|] eqn:Hfind; [done|].
  apply list_find_None in Hfind. rewrite Forall_forall in Hfind.
  specialize (Hfind x Hin). intros ->. apply Hfind.
  unfold has_email, email_of in *.
  destruct (fields x !! "email") as [[]|]; try done.
  injection He as ->. simpl. by rewrite bool_decide_eq_true_2.
Qed.

(** X10: signup keeps the email addresses of the accounts distinct.  If
    every user record has a string for its email and no two records share
    one, the same holds after any signup, whether it succeeded or not. *)
Theorem signup_keeps_emails_unique (sha256_hexdigest : string → string)
    (req : SignupRequest) (w : World) :
  emails_unique (collection_of w "user") →
  emails_unique (collection_of (signup sha256_hexdigest req w).2 "user").
Proof.
  intros [Hall Hnodup].
  destruct (signup_user_step sha256_hexdigest req w)
    as [-> | (Hnone & o & t & ->)]; [done|].
  assert (email_of (Doc o (stamped t
            (User_dump (new_user sha256_hexdigest req))))
          = Some (su_email req)) as Hnew.
  { unfold email_of. cbn [fields]. by rewrite stamped_lookup_ne. }
  split.
  - apply Forall_app. split; [done|].
    apply Forall_singleton. by rewrite Hnew.
  - rewrite omap_app. simpl. rewrite Hnew. simpl.
    apply NoDup_app. split; [done|]. split; [|apply NoDup_singleton].
    intros e He ->%list_elem_of_singleton.
    apply list_elem_of_omap in He as (x & Hx & Hex).
    by eapply account_none_email.
Qed.

Lemma signup_keeps_emails_unique_witness :
  emails_unique
    (collection_of
       (signup Demo.digest Demo.newcomer (Sample.start Sample.ticking)).2
       "user").
Proof.
  apply signup_keeps_emails_unique.
  change (emails_unique Sample.users). split.
  - apply Forall_singleton. vm_compute. eauto.
  - vm_compute. apply NoDup_singleton.
Defined.

(** ** What the redirect and the order ledger record *)

Lemma stored_link_db (w : World) (key : string) (v : value) :
  stored_link w key = Some v → ∃ d, db w = Some d.
Proof.
  unfold stored_link, stored_links, singleton.
  destruct (db w) as [d|]; [eauto|done].
Qed.

(** X11: behind a handle that can be used as a condition, a
    redirect-by-platform that finds a link under the lower-cased platform
    name, on a store that accepts the write to [click], returns the link
    and appends exactly one Click record: type "logo", the caller's user id
    and ip, no product and no affiliate, and the platform name as it was
    requested (not lower-cased) in [meta]; no other collection changes. *)
Theorem redirect_platform_logs_click (platform : string) (request : Request)
    (user_id : option string) (w : World) (url : string) :
  testable w →
  stored_link w (lowered w platform) = Some (VStr url) →
  url ≠ "" →
  writes_succeed w "click" →
  ∃ w' o t,
    redirect_platform platform request user_id w =
      (Return (RedirectResponse url), w') ∧
    collection_of w' "click" =
      collection_of w "click" ++
      [Doc o (stamped t (Click_dump (platform_click platform user_id request)))]
    ∧ ∀ name, name ≠ "click" → collection_of w' name = collection_of w name.
Proof.
  intros Ht Hlink Hne Hw.
  destruct (stored_link_db _ _ _ Hlink) as [d Hd].
  unfold redirect_platform.
  rewrite (bind_return _ _ _ _ _ (find_first_if_db_singleton w Ht)).
  rewrite bind_run. unfold str_lower. fold (lowered w platform).
  unfold stored_link in Hlink.
  destruct (stored_links w) as [m|] eqn:Hm; [|done]. simpl in Hlink.
  unfold stored_links in Hm.
  destruct (singleton w) as [x|]; [|done]. simpl in Hm.
  unfold links_get.
  destruct (default (VDict ∅) (fields x !! "links")); try done.
  injection Hm as ->.
  rewrite bind_run. unfold mret at 1, M_ret at 1.
  unfold dict_get. rewrite Hlink.
  change (default VNone (Some (VStr url))) with (VStr url).
  rewrite truthy_str by done. cbn [negb]. rewrite bind_run.
  unfold try_pass. rewrite bind_run.
  match goal with
  | |- context [create_document "click" ?data w] =>
      destruct (create_document_ok "click" data w d Hd (Hw _))
        as (o & w2 & -> & _ & _ & Hdb2)
  end.
  unfold mret at 1, M_ret at 1. simpl redirect.
  exists w2, o. eexists. split; [reflexivity|].
  unfold collection_of. rewrite Hdb2, Hd. cbn [from_option]. split.
  - by rewrite coll_insert_eq.
  - intros name Hname. by rewrite coll_insert_ne.
Qed.

Lemma redirect_platform_logs_click_witness :
  ∃ w' o t,
    redirect_platform "Amazon" Sample.browser (Some "buyer-7")
        (set_links Sample.table Sample.admin_email Sample.admin_password
           (Sample.listed Sample.ticking)).2 =
      (Return (RedirectResponse "https://amzn.example/x"), w') ∧
    collection_of w' "click" =
      collection_of
        (set_links Sample.table Sample.admin_email Sample.admin_password
           (Sample.listed Sample.ticking)).2 "click" ++
      [Doc o (stamped t
                (Click_dump (platform_click "Amazon" (Some "buyer-7")
                               Sample.browser)))]
    ∧ ∀ name, name ≠ "click" →
        collection_of w' name =
        collection_of
          (set_links Sample.table Sample.admin_email Sample.admin_password
             (Sample.listed Sample.ticking)).2 name.
Proof.
  apply redirect_platform_logs_click.
  - reflexivity.
  - vm_compute. reflexivity.
  - discriminate.
  - intros n. vm_compute. reflexivity.
Defined.

Lemma as_optional_str_opt (url : option string) :
  as_optional_str (opt_value VStr url) = mret url.
Proof. by destruct url. Qed.

(** X12: behind a handle that can be used as a condition, create-order,
    for a stored product with a string [affiliate_id], on a store that
    accepts the write to [order], appends exactly one
    Order: status "Redirected", the buyer's id or "guest" when it is absent
    or empty, the product id, the product's affiliate, and the product's
    current [affiliate_link] (or null) as [vendor_url]; it returns the new
    order's id and changes no other collection, the product and its
    [orders] counter included.  When the id names no product it answers
    404 "Product not found" and writes nothing. *)
Theorem create_order_records (product_id : string) (user_id : option string)
    (w : World) :
  testable w →
  (∀ p affiliate vendor_url,
     record_by_id w "product" product_id = Some p →
     fields p !! "affiliate_id" = Some (VStr affiliate) →
     dict_get (fields p) "affiliate_link" = opt_value VStr vendor_url →
     writes_succeed w "order" →
     ∃ w' o t,
       create_order product_id user_id w =
         (Return (JSON (<["order_id" := VStr (str_oid o)]> ok)), w') ∧
       collection_of w' "order" =
         collection_of w "order" ++
         [Doc o (stamped t
                   (Order_dump (redirected_order product_id user_id
                                  affiliate vendor_url)))] ∧
       ∀ name, name ≠ "order" →
               collection_of w' name = collection_of w name) ∧
  (no_record w "product" product_id →
   create_order product_id user_id w =
     (Raise (HTTPException 404 "Product not found"), w)).
Proof.
  intros Ht. split.
  - intros p affiliate vendor_url Hp Haff Hlink Hw.
    assert (∃ d, db w = Some d) as [d Hd].
    { unfold record_by_id in Hp. destruct (db w); [eauto|done]. }
    unfold create_order.
    rewrite bind_run, (find_by_id_if_db_record _ _ _ _ Ht Hp).
    rewrite Hlink, as_optional_str_opt.
    unfold dict_get. rewrite Haff.
    change (default VNone (Some (VStr affiliate))) with (VStr affiliate).
    unfold as_str. rewrite bind_run. unfold mret at 1, M_ret at 1.
    rewrite bind_run. unfold mret at 1, M_ret at 1. rewrite bind_run.
    match goal with
    | |- context [create_document "order" ?data w] =>
        destruct (create_document_ok "order" data w d Hd (Hw _))
          as (o & w2 & -> & _ & _ & Hdb2)
    end.
    exists w2, o. eexists. split; [reflexivity|].
    unfold collection_of. rewrite Hdb2, Hd. cbn [from_option]. split.
    + by rewrite coll_insert_eq.
    + intros name Hname. by rewrite coll_insert_ne.
  - intros Hno. unfold create_order.
    by rewrite bind_run, find_by_id_if_db_no_record.
Qed.

Lemma create_order_records_witness :
  ∃ w' o t,
    create_order Sample.P (Some "") (Sample.listed Sample.ticking) =
      (Return (JSON (<["order_id" := VStr (str_oid o)]> ok)), w') ∧
    collection_of w' "order" =
      collection_of (Sample.listed Sample.ticking) "order" ++
      [Doc o (stamped t
                (Order_dump (redirected_order Sample.P (Some "")
                               Sample.affiliate_A
                               (Some "https://vendor/x"))))] ∧
    ∀ name, name ≠ "order" →
            collection_of w' name =
            collection_of (Sample.listed Sample.ticking) name.
Proof.
  apply (proj1 (create_order_records Sample.P (Some "")
                  (Sample.listed Sample.ticking) eq_refl) Sample.product).
  - vm_compute. reflexivity.
  - vm_compute. reflexivity.
  - vm_compute. reflexivity.
  - intros n. reflexivity.
Defined.

(** ** Sorted listings *)

Lemma insert_desc_perm (x : Z * document) (l : list (Z * document)) :
  insert_desc x l ≡ₚ x :: l.
Proof.
  induction l as [|y l IH]; simpl; [done|].
  destruct (y.1 <=? x.1)%Z; [done|].
  rewrite IH. apply Permutation_swap.
Qed.

Lemma sort_desc_perm (l : list (Z * document)) :
  foldr insert_desc [] l ≡ₚ l.
Proof.
  induction l as [|x l IH]; simpl; [done|].
  by rewrite insert_desc_perm, IH.
Qed.

Lemma insert_desc_sorted (x : Z * document) (l : list (Z * document)) :
  StronglySorted (λ a b, (b.1 ≤ a.1)%Z) l →
  StronglySorted (λ a b, (b.1 ≤ a.1)%Z) (insert_desc x l).
Proof.
  induction 1 as [|y l Hl IH Hy]; simpl.
  - repeat constructor.
  - destruct (Z.leb_spec y.1 x.1) as [Hle|Hlt].
    + constructor; [by constructor|].
      constructor; [done|].
      eapply Forall_impl; [exact Hy|]. simpl. intros z Hz. lia.
    + constructor; [done|].
      rewrite insert_desc_perm. constructor; [lia|done].
Qed.

Lemma sort_desc_sorted (l : list (Z * document)) :
  StronglySorted (λ a b, (b.1 ≤ a.1)%Z) (foldr insert_desc [] l).
Proof.
  induction l as [|x l IH]; simpl; [constructor|].
  by apply insert_desc_sorted.
Qed.

Lemma StronglySorted_fmap_snd (k : string) (l : list (Z * document)) :
  Forall (λ a, date_of k a.2 = Some a.1) l →
  StronglySorted (λ a b, (b.1 ≤ a.1)%Z) l →
  newest_first k (l.*2).
Proof.
  unfold newest_first. intros Hall Hsorted.
  induction Hsorted as [|a l Hl IH Ha]; simpl; [constructor|].
  apply Forall_cons in Hall as [Hda Hall].
  constructor; [by apply IH|].
  apply Forall_fmap. rewrite Forall_forall in Ha, Hall.
  apply Forall_forall. intros b Hb. simpl.
  exists a.1, b.1. split; [done|]. split; [by apply Hall|by apply Ha].
Qed.

(** Sorting dated records gives the same records, latest first. *)
Lemma cursor_sort_desc_spec (k : string) (docs : list document) :
  dated k docs →
  ∃ sorted, cursor_sort_desc k docs = Some sorted ∧
            sorted ≡ₚ docs ∧ newest_first k sorted.
Proof.
  intros Hdated. unfold cursor_sort_desc.
  destruct (mapM (λ d, t ← date_of k d; Some (t, d)) docs) as [keyed|]
    eqn:Hkeyed.
  - apply mapM_Some in Hkeyed. simpl. eexists. split; [reflexivity|].
    assert (keyed.*2 = docs ∧ Forall (λ a, date_of k a.2 = Some a.1) keyed)
      as [Hsnd Hdates].
    { induction Hkeyed as [|d a docs' keyed' Hda _ IH]; [done|].
      apply Forall_cons in Hdated as [_ Hdated].
      destruct (IH Hdated) as [Hs Hall].
      destruct (date_of k d) as [t|] eqn:Ht; [|done].
      injection Hda as <-. split; [by rewrite fmap_cons, Hs|].
      by constructor. }
    split.
    + rewrite <- Hsnd. apply fmap_Permutation, sort_desc_perm.
    + apply StronglySorted_fmap_snd; [|apply sort_desc_sorted].
      by rewrite sort_desc_perm.
  - exfalso. assert (is_Some (mapM (λ d, t ← date_of k d; Some (t, d)) docs))
      as [? ?]; [|congruence].
    apply mapM_is_Some. eapply Forall_impl; [exact Hdated|].
    intros d [t Ht]. simpl. rewrite Ht. eauto.
Qed.

Lemma find_sorted_if_db_spec (name : string) (q : query) (k : string)
    (w : World) :
  testable w →
  query_supported q = true →
  dated k (collection_of w name) →
  ∃ docs, find_sorted_if_db name q k w = (Return docs, w) ∧
          docs ≡ₚ filter (λ x, matches q x) (collection_of w name) ∧
          newest_first k docs.
Proof.
  intros Ht Hq Hdated. unfold find_sorted_if_db, collection_of in *.
  rewrite bind_run. destruct (db w) as [d|] eqn:Hd; simpl in *.
  - rewrite (bool_db_connected _ _ Ht Hd).
    unfold db_collection. rewrite bind_run, Hd, Hq. simpl.
    destruct (cursor_sort_desc_spec k
                (filter (λ x, matches q x) (coll d name)))
      as (sorted & -> & Hperm & Hsorted).
    { unfold dated in *. rewrite Forall_forall in Hdated.
      apply Forall_forall. intros x [_ Hx]%list_elem_of_filter. auto. }
    eauto.
  - rewrite (bool_db_none _ Hd).
    exists []. split; [reflexivity|]. split; [done|]. constructor.
Qed.

Lemma filter_matches_all (c : collection) :
  filter (λ x, matches [] x) c = c.
Proof.
  induction c as [|x c IH]; [done|].
  rewrite filter_cons_True by done. by rewrite IH.
Qed.

Lemma filter_matches_field (k : string) (v : scalar) (c : collection) :
  filter (λ x, matches [FieldEq k v] x) c =
  filter (λ x, field_eq v (fields x !! k)) c.
Proof.
  apply list_filter_iff. intros x. simpl. by rewrite andb_true_r.
Qed.

(** X13: behind a handle that can be used as a condition, on products
    that all carry an [updated_at] date, my-products returns exactly the
    listings whose [affiliate_id] is the given user, each once, latest
    update first, and leaves the state unchanged. *)
Theorem my_products_sorted (user_id : string) (w : World) :
  testable w →
  dated "updated_at" (collection_of w "product") →
  ∃ docs,
    my_products user_id w = (Return (items_response (to_item <$> docs)), w) ∧
    docs ≡ₚ listings_of w user_id ∧
    newest_first "updated_at" docs.
Proof.
  intros Ht Hdated. unfold my_products. rewrite bind_run.
  destruct (find_sorted_if_db_spec "product"
              [FieldEq "affiliate_id" (SStr user_id)] "updated_at" w
              Ht eq_refl Hdated) as (docs & -> & Hperm & Hsorted).
  exists docs. split; [reflexivity|]. split; [|done].
  by rewrite Hperm, filter_matches_field.
Qed.

(** X14: behind a handle that can be used as a condition, on orders that
    all carry a [created_at] date, list-orders returns exactly the orders
    of the given user, or every order when no user id (or an empty one) is
    given, each once, latest first, and leaves the state unchanged. *)
Theorem list_orders_sorted (user_id : option string) (w : World) :
  testable w →
  dated "created_at" (collection_of w "order") →
  ∃ docs,
    list_orders user_id w = (Return (items_response (to_item <$> docs)), w) ∧
    docs ≡ₚ orders_of w user_id ∧
    newest_first "created_at" docs.
Proof.
  intros Ht Hdated. unfold list_orders. rewrite bind_run.
  destruct (find_sorted_if_db_spec "order" (orders_filter user_id)
              "created_at" w) as (docs & -> & Hperm & Hsorted).
  { done. }
  { unfold orders_filter. destruct user_id as [u|]; [|done].
    by destruct (bool_decide (u = "")). }
  { done. }
  exists docs. split; [reflexivity|]. split; [|done].
  rewrite Hperm. unfold orders_filter, orders_of.
  destruct user_id as [u|]; [|by rewrite filter_matches_all].
  destruct (bool_decide (u = ""));
    [by rewrite filter_matches_all | by rewrite filter_matches_field].
Qed.

Lemma dated_check (k : string) (c : collection) :
  forallb (λ x, bool_decide (is_Some (date_of k x))) c = true → dated k c.
Proof.
  intros H. apply Is_true_true, forallb_True in H.
  eapply Forall_impl; [exact H|]. intros x Hx. by apply bool_decide_unpack in Hx.
Qed.

Lemma my_products_sorted_witness :
  ∃ docs,
    my_products Sample.affiliate_A Demo.busy =
      (Return (items_response (to_item <$> docs)), Demo.busy) ∧
    docs ≡ₚ listings_of Demo.busy Sample.affiliate_A ∧
    newest_first "updated_at" docs.
Proof.
  apply my_products_sorted; [reflexivity|].
  apply dated_check. vm_compute. reflexivity.
Defined.

Lemma list_orders_sorted_witness :
  ∃ docs,
    list_orders (Some "buyer-7") Demo.busy =
      (Return (items_response (to_item <$> docs)), Demo.busy) ∧
    docs ≡ₚ orders_of Demo.busy (Some "buyer-7") ∧
    newest_first "created_at" docs.
Proof.
  apply list_orders_sorted; [reflexivity|].
  apply dated_check. vm_compute. reflexivity.
Defined.

(** ** Read-only handlers *)

Lemma reads_ret {A} (a : A) : reads (mret a).
Proof. intros w. reflexivity. Qed.

Lemma reads_raise {A} (e : exn) : reads (raise (A := A) e).
Proof. intros w. reflexivity. Qed.

Lemma reads_unmodelled {A} : reads (unmodelled (A := A)).
Proof. intros w. reflexivity. Qed.

Lemma reads_bind {A B} (m : M A) (f : A → M B) :
  reads m → (∀ a, reads (f a)) → reads (m ≫= f).
Proof.
  intros Hm Hf w. rewrite bind_run. specialize (Hm w).
  destruct (m w) as [[a|e|] w1]; simpl in *; subst w1; [apply Hf|done|done].
Qed.

Lemma reads_get_db : reads get_db.
Proof. intros w. reflexivity. Qed.

Lemma reads_bool_db : reads bool_db.
Proof.
  intros w. unfold bool_db. destruct (db w); [|done].
  by destruct (truth_test (env w)).
Qed.

Lemma reads_store_test (q : query) : reads (store_test q).
Proof.
  intros w. unfold store_test. destruct (query_supported q); [done|].
  by destruct (engine (env w) q).
Qed.

Lemma reads_db_collection (name : string) : reads (db_collection name).
Proof. intros w. unfold db_collection. by destruct (db w). Qed.

Lemma reads_ObjectId (s : string) : reads (ObjectId s).
Proof.
  unfold ObjectId. destruct (valid_oid s); [apply reads_ret|].
  destruct (_ && _); [apply reads_unmodelled|apply reads_raise].
Qed.

Create HintDb reads discriminated.

#[local] Hint Resolve reads_ret reads_raise reads_unmodelled reads_get_db
  reads_bool_db reads_store_test reads_db_collection reads_ObjectId : reads.

(** Closes [reads m] for a computation built from reading operations. *)
Ltac reads_tac :=
  repeat first
    [ progress eauto with reads
    | apply reads_bind; [|intros ?]
    | match goal with
      | |- reads (match ?x with _ => _ end) => destruct x
      | |- reads (if ?b then _ else _) => destruct b
      end ].

(** X15: the handlers that only query leave the whole state as it was,
    whatever they answer: search, fetch by id, get-links, login,
    my-products, list-orders and the admin counts. *)
Theorem query_handlers_read_only :
  (∀ q category hot limit, reads (list_products q category hot limit)) ∧
  (∀ product_id, reads (get_product product_id)) ∧
  reads get_links ∧
  (∀ sha256_hexdigest req, reads (login sha256_hexdigest req)) ∧
  (∀ user_id, reads (my_products user_id)) ∧
  (∀ user_id, reads (list_orders user_id)) ∧
  (∀ admin_email admin_password,
     reads (admin_stats admin_email admin_password)).
Proof.
  repeat split; intros;
    unfold list_products, get_product, get_links, login, my_products,
      list_orders, admin_stats, find_by_id_if_db, find_first_if_db,
      find_user_if_db, find_sorted_if_db, count_if_db, find, find_one;
    reads_tac.
Qed.

(** ** The admin counts *)

Lemma count_if_db_run (name : string) (q : query) (w : World) :
  testable w →
  query_supported q = true →
  count_if_db name q w =
    (Return (Z.of_nat (length (filter (λ x, matches q x)
                                 (collection_of w name)))), w).
Proof.
  intros Ht Hq. unfold count_if_db, collection_of. rewrite bind_run.
  destruct (db w) as [d|] eqn:Hd; [|by rewrite (bool_db_none _ Hd)].
  rewrite (bool_db_connected _ _ Ht Hd).
  unfold db_collection. by rewrite bind_run, Hd, Hq.
Qed.

Lemma length_filter_disjoint {A} (P Q : A → bool) (l : list A) :
  Forall (λ x, ¬ (P x = true ∧ Q x = true)) l →
  length (filter (λ x, P x) l) + length (filter (λ x, Q x) l) ≤ length l.
Proof.
  induction 1 as [|x l Hx _ IH]; [done|].
  rewrite !filter_cons.
  destruct (P x) eqn:HP, (Q x) eqn:HQ;
    repeat (rewrite decide_True by done || rewrite decide_False by done);
    simpl; try lia.
Qed.

Lemma roles_disjoint (x : document) (a b : string) :
  a ≠ b →
  (∀ l, fields x !! "role" ≠ Some (VList l)) →
  ¬ (field_eq (SStr a) (fields x !! "role") = true ∧
     field_eq (SStr b) (fields x !! "role") = true).
Proof.
  intros Hab Hflat [Ha Hb].
  apply field_eq_flat in Ha; [|done]. apply field_eq_flat in Hb; [|done].
  congruence.
Qed.

(** X16: the admin counts.  With a wrong credential the call answers 401
    and reads nothing more.  With the right one, behind a handle that can
    be used as a condition, it leaves the state as it was and reports the
    sizes of the user, product and order collections and the numbers of
    users the store accepts as buyers ([{"role": "buyer"}]), as affiliates
    ([{"role": "affiliate"}]) and as ad-free subscribers
    ([{"ad_free": True}]); the subscribers are at most the users, and, when
    no user record has an array for its role, buyers and affiliates
    together are at most the users. *)
Theorem admin_stats_counts (admin_email admin_password : option string)
    (w : World) :
  (admin_ok admin_email admin_password = false →
   admin_stats admin_email admin_password w =
     (Raise (HTTPException 401 "Invalid admin credentials"), w)) ∧
  (testable w →
   admin_ok admin_email admin_password = true →
   admin_stats admin_email admin_password w =
     (Return (stats_response (size_of w "user")
                (Z.of_nat (length (with_role w "buyer")))
                (Z.of_nat (length (with_role w "affiliate")))
                (Z.of_nat (length (ad_free_users w)))
                (size_of w "product") (size_of w "order")),
      w) ∧
   length (ad_free_users w) ≤ length (collection_of w "user") ∧
   (single_roles w →
    length (with_role w "buyer") + length (with_role w "affiliate") ≤
    length (collection_of w "user"))).
Proof.
  split; [intros Hadm; unfold admin_stats; by rewrite Hadm|].
  intros Ht Hadm. split; [|split].
  - unfold admin_stats. rewrite Hadm.
    cbn [negb]. rewrite bind_run, count_if_db_run by done.
    rewrite bind_run, count_if_db_run by done.
    rewrite bind_run, count_if_db_run by done.
    rewrite bind_run, count_if_db_run by done.
    rewrite bind_run, count_if_db_run by done.
    rewrite bind_run, count_if_db_run by done.
    by rewrite !filter_matches_all, !filter_matches_field.
  - apply length_filter.
  - intros Hroles. unfold with_role.
    apply (length_filter_disjoint
      (λ x, field_eq (SStr "buyer") (fields x !! "role"))
      (λ x, field_eq (SStr "affiliate") (fields x !! "role"))
      (collection_of w "user")).
    eapply Forall_impl; [exact Hroles|].
    intros x Hx. by apply roles_disjoint.
Qed.

Lemma admin_stats_counts_witness :
  (admin_stats Sample.admin_email Sample.admin_password Demo.busy).1 =
    Return (stats_response 1 0 1 0 2 2) ∧
  admin_stats Sample.admin_email Sample.admin_password Demo.busy =
    (Return (stats_response (size_of Demo.busy "user")
               (Z.of_nat (length (with_role Demo.busy "buyer")))
               (Z.of_nat (length (with_role Demo.busy "affiliate")))
               (Z.of_nat (length (ad_free_users Demo.busy)))
               (size_of Demo.busy "product") (size_of Demo.busy "order")),
     Demo.busy) ∧
  length (ad_free_users Demo.busy) ≤ length (collection_of Demo.busy "user") ∧
  (single_roles Demo.busy →
   length (with_role Demo.busy "buyer") +
   length (with_role Demo.busy "affiliate") ≤
   length (collection_of Demo.busy "user")).
Proof.
  split; [vm_compute; reflexivity|].
  apply (proj2 (admin_stats_counts Sample.admin_email Sample.admin_password
                  Demo.busy)); reflexivity.
Defined.

(** ** The AdminSettings singleton over all calls *)

Lemma upsert_links_effect (payload : AdminLinks) (w : World) :
  env (upsert_links payload w).2 = env w ∧
  (is_Some (db w) → is_Some (db (upsert_links payload w).2)) ∧
  (∀ name, name ≠ "adminsettings" →
     collection_of (upsert_links payload w).2 name = collection_of w name) ∧
  (length (collection_of (upsert_links payload w).2 "adminsettings") =
     length (collection_of w "adminsettings") ∨
   (collection_of w "adminsettings" = [] ∧
    length (collection_of (upsert_links payload w).2 "adminsettings") = 1)).
Proof.
  unfold upsert_links. rewrite bind_run.
  destruct (db w) as [d|] eqn:Hd.
  2:{ unfold find_one, db_collection. rewrite bind_run, Hd. simpl.
      split; [done|]. split; [by intros [? ?]|]. split; [done|by left]. }
  rewrite (find_one_all _ _ _ Hd). unfold collection_of. rewrite Hd.
  cbn [from_option].
  destruct (coll d "adminsettings") as [|e rest] eqn:Hc; cbn [head].
  - rewrite bind_run.
    destruct (create_document_cases "adminsettings"
                (AdminSettings_dump (links payload)) w)
      as [(e & w1 & -> & Hdb & He) | (d1 & o & t & w1 & -> & Hd1 & He & _ & _ & Hdb)];
      cbn [snd mret M_ret].
    + rewrite Hdb, Hd. cbn [from_option]. rewrite Hc. eauto 10.
    + assert (d1 = d) as -> by congruence. rewrite Hdb. cbn [from_option].
      split; [done|]. split; [eauto|]. split.
      * intros name Hne. by rewrite coll_insert_ne.
      * right. split; [done|]. by rewrite coll_insert_eq, Hc.
  - rewrite bind_run. unfold datetime_now, update_one.
    cbn [fst snd next_tick db env tick]. rewrite Hd.
    destruct (fails _ _ _).
    { simpl. rewrite Hd. simpl. rewrite Hc. eauto 10. }
    cbn [negb query_supported forallb clause_supported andb].
    rewrite list_find_IdEq, Hc. unfold doc_by_id. cbn [list_find].
    rewrite decide_True by done. simpl.
    split; [done|]. split; [eauto|]. split.
    + intros name Hne. by rewrite coll_insert_ne.
    + left. by rewrite coll_insert_eq.
Qed.

Lemma settings_step_refl (c : collection) : settings_step c c.
Proof. by left. Qed.

Lemma changes_set_links payload admin_email admin_password :
  changes "adminsettings" settings_step
    (set_links payload admin_email admin_password).
Proof.
  intros w. destruct (admin_ok admin_email admin_password) eqn:Hadm.
  - rewrite set_links_run by done. revert w.
    apply changes_bind_r.
    + intros w. apply upsert_links_effect.
    + intros []. keeps_tac.
  - unfold set_links. rewrite Hadm. apply settings_step_refl.
Qed.

Lemma serve_settings_step (c : call) :
  changes "adminsettings" settings_step (serve c).
Proof.
  destruct c; simpl; try apply changes_set_links;
    intros w; match goal with
    | |- settings_step _ (collection_of (?m w).2 _) =>
        assert (keeps "adminsettings" m) as <-;
          [|apply settings_step_refl]
    end.
  - unfold create_product. keeps_tac.
  - unfold list_products. keeps_tac.
  - unfold get_product. keeps_tac.
  - unfold update_product. keeps_tac.
  - unfold get_links. keeps_tac.
  - unfold redirect_platform. keeps_tac.
  - unfold redirect_product. keeps_tac.
  - unfold create_order. keeps_tac.
Qed.

(** X17: no sequence of calls makes a second AdminSettings record.  If the
    collection holds at most one record, it holds at most one after any
    sequence of calls of the API; and each single call either keeps the
    number of records or puts the first record into the empty
    collection. *)
Theorem settings_stay_single :
  (∀ (c : call) (w : World),
     settings_step (collection_of w "adminsettings")
       (collection_of (after c w) "adminsettings")) ∧
  (∀ (cs : list call) (w : World),
     length (collection_of w "adminsettings") ≤ 1 →
     length (collection_of (run cs w) "adminsettings") ≤ 1).
Proof.
  split.
  - intros c w. apply serve_settings_step.
  - intros cs. induction cs as [|c cs IH]; intros w Hlen; [exact Hlen|].
    simpl. apply IH.
    destruct (serve_settings_step c w) as [Heq | [_ Hone]];
      unfold after; lia.
Qed.

Lemma settings_stay_single_witness :
  length
    (collection_of
       (run [SetLinks Sample.table Sample.admin_email Sample.admin_password;
             SetLinks Sample.table Sample.admin_email Sample.admin_password;
             RedirectPlatform "amazon" Sample.browser None]
          (Sample.listed Sample.ticking)) "adminsettings") ≤ 1.
Proof.
  apply (proj2 settings_stay_single).
  change (length (@nil document) ≤ 1). simpl. lia.
Defined.

(** ** Search finds what matches *)

Lemma text_occurs_regex (s : string) (d : document) :
  Regex.plain s = true →
  text_occurs s d →
  field_regex s "i" (fields d !! "title") ||
  (field_regex s "i" (fields d !! "description") ||
   (field_regex s "i" (fields d !! "category") || false)) = true.
Proof.
  intros Hplain (k & t & Hk & Ht & Hocc).
  apply (regex_search_plain s t Hplain) in Hocc.
  apply list_elem_of_In in Hk. simpl in Hk.
  destruct Hk as [<-|[<-|[<-|[]]]]; rewrite Ht; simpl; rewrite Hocc;
    by rewrite ?orb_true_r.
Qed.

(** X18: behind a handle that can be used as a condition, search finds
    every product that passes the filters, as long as the limit does not
    cut the result (it is 0, or at least the number of stored products).
    A stored product is among the returned ones when a
    given non-empty query without regular-expression metacharacters occurs,
    up to letter case, in its title, description or category, a given
    non-empty category equals its category, and a given hot-deal flag
    equals its [hot_deal]. *)
Theorem list_products_complete (q category : option string)
    (hot : option bool) (limit : option Z) (w : World) (d : document) :
  testable w →
  is_Some (db w) →
  (∀ s, q = Some s → Regex.plain s = true) →
  (0 ≤ default default_limit limit < 2 ^ 63)%Z →
  default default_limit limit = 0%Z ∨
  (size_of w "product" ≤ default default_limit limit)%Z →
  d ∈ collection_of w "product" →
  (∀ s, q = Some s → s ≠ "" → text_occurs s d) →
  (∀ c, category = Some c → c ≠ "" →
        fields d !! "category" = Some (VStr c)) →
  (∀ h, hot = Some h → fields d !! "hot_deal" = Some (VBool h)) →
  ∃ docs,
    list_products q category hot limit w =
      (Return (items_response (to_item <$> docs)), w) ∧
    d ∈ docs.
Proof.
  intros Htest [d0 Hd] Hplain Hrange Hlimit Hin Hq Hcat Hhot.
  rewrite list_products_run, Hd by done. cbn zeta.
  assert (fits_int64 (default default_limit limit) = true) as ->.
  { unfold fits_int64. apply andb_true_iff. split; lia. }
  rewrite products_filter_supported by done. cbn [negb].
  eexists. split; [reflexivity|].
  assert (d ∈ matching_products w q category hot) as Hmatch.
  { unfold matching_products. apply list_elem_of_filter. split; [|done].
    apply Is_true_true. unfold matches, products_filter.
    rewrite !forallb_app. repeat (apply andb_true_iff; split).
    - destruct q as [s|]; [|done].
      destruct (bool_decide_reflect (s = "")) as [|Hne]; [done|].
      simpl. rewrite andb_true_r. apply text_occurs_regex; auto.
    - destruct category as [c|]; [|done].
      destruct (bool_decide_reflect (c = "")) as [|Hne]; [done|].
      simpl. rewrite (Hcat c eq_refl Hne). simpl.
      by rewrite bool_decide_eq_true_2.
    - destruct hot as [h|]; [|done]. simpl. rewrite (Hhot h eq_refl).
      simpl. by rewrite bool_decide_eq_true_2. }
  unfold cursor_limit.
  destruct (Z.eqb_spec (default default_limit limit) 0) as [|Hnz]; [done|].
  destruct Hlimit as [|Hsize]; [done|].
  rewrite take_ge; [done|].
  unfold matching_products, size_of in *.
  pose proof (length_filter
    (λ x, matches (products_filter q category hot) x)
    (collection_of w "product")). lia.
Qed.

Lemma text_occurs_sample : text_occurs "PHONE" Sample.product.
Proof.
  exists "title", "Phone case". split; [listed|].
  split; [vm_compute; reflexivity|].
  exists "", " case". reflexivity.
Qed.

Lemma list_products_complete_witness :
  ∃ docs,
    list_products (Some "PHONE") (Some "accessories") (Some false) None
        (Sample.listed Sample.ticking) =
      (Return (items_response (to_item <$> docs)),
       Sample.listed Sample.ticking) ∧
    Sample.product ∈ docs.
Proof.
  apply list_products_complete.
  - reflexivity.
  - eexists. reflexivity.
  - intros s [= <-]. reflexivity.
  - vm_compute. split; [discriminate|reflexivity].
  - right. vm_compute. discriminate.
  - change (Sample.product ∈ [Sample.product]). apply list_elem_of_here.
  - intros s [= <-] _. apply text_occurs_sample.
  - intros c [= <-] _. vm_compute. reflexivity.
  - intros h [= <-]. vm_compute. reflexivity.
Defined.

(** ** The audit log of set-links *)

(** X19: a set-links call with the right credential, on a connected store
    that accepts the writes to [adminsettings] and [adminauditlog], answers
    ok and appends exactly one audit entry: admin "hardcoded-admin", action
    "update_links", and the submitted map as details; collections other
    than these two are unchanged. *)
Theorem set_links_audited (payload : AdminLinks)
    (admin_email admin_password : option string) (w : World) :
  admin_ok admin_email admin_password = true →
  is_Some (db w) →
  writes_succeed w "adminsettings" →
  writes_succeed w "adminauditlog" →
  ∃ w' o t,
    set_links payload admin_email admin_password w = (Return (JSON ok), w') ∧
    collection_of w' "adminauditlog" =
      collection_of w "adminauditlog" ++
      [Doc o (stamped t
                (AdminAuditLog_dump "hardcoded-admin" "update_links"
                   (links payload)))] ∧
    ∀ name, name ≠ "adminsettings" → name ≠ "adminauditlog" →
            collection_of w' name = collection_of w name.
Proof.
  intros Hadm [d Hd] Hws Hwa.
  rewrite set_links_run by done. rewrite bind_run.
  destruct (upsert_links_ok payload w d Hd Hws) as (w1 & Hup).
  destruct (upsert_links_effect payload w) as (Henv & Hdb1 & Hother & _).
  rewrite Hup in *. cbn [snd] in *.
  destruct Hdb1 as [d1 Hd1]; [eauto|].
  rewrite bind_run. unfold try_pass. rewrite bind_run.
  match goal with
  | |- context [create_document "adminauditlog" ?data w1] =>
      destruct (create_document_ok "adminauditlog" data w1 d1 Hd1)
        as (o & w2 & -> & _ & _ & Hdb2)
  end.
  { rewrite Henv. apply Hwa. }
  exists w2, o. eexists. split; [reflexivity|].
  assert (∀ name, collection_of w1 name = coll d1 name) as Hc1.
  { intros name. unfold collection_of. by rewrite Hd1. }
  unfold collection_of at 1 3. rewrite Hdb2. cbn [from_option]. split.
  - rewrite coll_insert_eq, <- Hc1, Hother by done. reflexivity.
  - intros name H1 H2. rewrite coll_insert_ne, <- Hc1 by done.
    by apply Hother.
Qed.

Lemma set_links_audited_witness :
  ∃ w' o t,
    set_links Sample.table Sample.admin_email Sample.admin_password
        (Sample.listed Sample.ticking) = (Return (JSON ok), w') ∧
    collection_of w' "adminauditlog" =
      collection_of (Sample.listed Sample.ticking) "adminauditlog" ++
      [Doc o (stamped t
                (AdminAuditLog_dump "hardcoded-admin" "update_links"
                   (links Sample.table)))] ∧
    ∀ name, name ≠ "adminsettings" → name ≠ "adminauditlog" →
            collection_of w' name =
            collection_of (Sample.listed Sample.ticking) name.
Proof.
  apply set_links_audited.
  - reflexivity.
  - eexists. reflexivity.
  - intros n. reflexivity.
  - intros n. reflexivity.
Defined.

(** ** Counting clicks over repeated redirects *)

Lemma redirect_product_step (product_id : string) (request : Request)
    (user_id : option string) (w : World) (i : nat) (p : document)
    (link affiliate : string) (n : Z) :
  testable w →
  product_by_id w product_id = Some (i, p) →
  fields p !! "affiliate_link" = Some (VStr link) →
  link ≠ "" →
  fields p !! "affiliate_id" = Some (VStr affiliate) →
  fields p !! "clicks" = Some (VInt n) →
  writes_succeed w "product" →
  writes_succeed w "click" →
  ∃ w',
    redirect_product product_id request user_id w =
      (Return (RedirectResponse link), w') ∧
    env w' = env w ∧
    product_by_id w' product_id =
      Some (i, Doc (_id p) (<["clicks" := VInt (n + 1)]> (fields p))) ∧
    length (collection_of w' "click") = S (length (collection_of w "click")).
Proof.
  intros Ht Hp Hlink Hne Haff Hclicks Hwp Hwc.
  destruct (product_by_id_inv _ _ _ _ Hp) as (d & Hd & Hvalid & Hdoc).
  unfold redirect_product.
  rewrite (bind_return _ _ _ _ _ (find_by_id_if_db_product _ _ _ _ Ht Hp)).
  unfold dict_get at 1. rewrite Hlink.
  change (default VNone (Some (VStr link))) with (VStr link).
  rewrite truthy_str by done. cbn [negb]. rewrite bind_run.
  unfold try_pass at 1. rewrite bind_run. unfold ObjectId. rewrite Hvalid.
  unfold mret at 1, M_ret at 1.
  erewrite (update_one_by_id "product" _ (UInc "clicks") w d i p);
    [|done|apply Hwp|done|simpl; rewrite Hclicks; reflexivity].
  rewrite bind_run. unfold try_pass. rewrite bind_run.
  unfold dict_get at 1. rewrite Haff.
  change (default VNone (Some (VStr affiliate))) with (VStr affiliate).
  unfold as_optional_str. unfold mret at 1, M_ret at 1. rewrite bind_run.
  match goal with
  | |- context [create_document "click" ?data ?w1] =>
      destruct (create_document_ok "click" data w1 _ eq_refl (Hwc _))
        as (o & w2 & -> & Henv & _ & Hdb2)
  end.
  unfold mret at 1, M_ret at 1. unfold dict_get. rewrite Hlink.
  exists w2. split; [reflexivity|]. split; [exact Henv|]. split.
  - unfold product_by_id. rewrite Hdb2. simpl. rewrite Hvalid.
    rewrite coll_insert_ne, coll_insert_eq by done.
    by apply doc_by_id_insert.
  - unfold collection_of. rewrite Hdb2, Hd. cbn [from_option].
    rewrite coll_insert_eq, coll_insert_ne by done.
    rewrite length_app. simpl. lia.
Qed.

(** X20: clicks add up.  Behind a handle that can be used as a condition,
    for a stored product with a non-empty string for its affiliate link, a
    string for its [affiliate_id] and an integer for its [clicks], on a
    store that accepts the writes to [product] and [click], [n] redirects
    in a row leave the product's [clicks] at its old value plus [n] and the
    click log [n] records longer. *)
Theorem redirects_count (n : nat) (product_id : string) (request : Request)
    (user_id : option string) (w : World) (i : nat) (p : document)
    (link affiliate : string) (c : Z) :
  testable w →
  product_by_id w product_id = Some (i, p) →
  fields p !! "affiliate_link" = Some (VStr link) →
  link ≠ "" →
  fields p !! "affiliate_id" = Some (VStr affiliate) →
  fields p !! "clicks" = Some (VInt c) →
  writes_succeed w "product" →
  writes_succeed w "click" →
  product_field (redirects n product_id request user_id w) product_id
    "clicks" = Some (VInt (c + Z.of_nat n)) ∧
  length (collection_of (redirects n product_id request user_id w) "click") =
    length (collection_of w "click") + n.
Proof.
  intros Ht Hp Hlink Hne Haff Hclicks Hwp Hwc.
  cut (∃ p', product_by_id (redirects n product_id request user_id w)
               product_id = Some (i, p') ∧
             fields p' !! "affiliate_link" = Some (VStr link) ∧
             fields p' !! "affiliate_id" = Some (VStr affiliate) ∧
             fields p' !! "clicks" = Some (VInt (c + Z.of_nat n)) ∧
             env (redirects n product_id request user_id w) = env w ∧
             length (collection_of
                       (redirects n product_id request user_id w) "click") =
               length (collection_of w "click") + n).
  { intros (p' & Hp' & _ & _ & Hc' & _ & Hlen). split; [|done].
    unfold product_field. by rewrite Hp'. }
  induction n as [|n IH].
  - exists p. simpl. rewrite Z.add_0_r, Nat.add_0_r. done.
  - destruct IH as (p' & Hp' & Hlink' & Haff' & Hc' & Henv & Hlen).
    unfold redirects in *. rewrite !Nat.iter_succ.
    set (w1 := Nat.iter n _ w) in *.
    destruct (redirect_product_step product_id request user_id w1 i p'
                link affiliate (c + Z.of_nat n))
      as (w2 & Hrun & Henv2 & Hp2 & Hlen2); try done.
    { unfold testable. by rewrite Henv. }
    { intros k. rewrite Henv. apply Hwp. }
    { intros k. rewrite Henv. apply Hwc. }
    cbv beta. rewrite Hrun. cbn [snd]. eexists. split; [exact Hp2|].
    cbn [fields].
    split; [by rewrite lookup_insert_ne|].
    split; [by rewrite lookup_insert_ne|].
    split; [rewrite lookup_insert_eq; do 2 f_equal; lia|].
    split; [congruence|]. lia.
Qed.

Lemma redirects_count_witness :
  product_field
    (redirects 3 Sample.P Sample.browser None (Sample.listed Sample.ticking))
    Sample.P "clicks" = Some (VInt (0 + Z.of_nat 3)) ∧
  length
    (collection_of
       (redirects 3 Sample.P Sample.browser None
          (Sample.listed Sample.ticking)) "click") =
    length (collection_of (Sample.listed Sample.ticking) "click") + 3.
Proof.
  apply (redirects_count 3 Sample.P Sample.browser None
           (Sample.listed Sample.ticking) 0 Sample.product
           "https://vendor/x" Sample.affiliate_A 0).
  - reflexivity.
  - vm_compute. reflexivity.
  - vm_compute. reflexivity.
  - discriminate.
  - vm_compute. reflexivity.
  - vm_compute. reflexivity.
  - intros n. reflexivity.
  - intros n. reflexivity.
Defined.

(** ** A handle whose truth test raises *)

(** X21: behind a connected handle whose truth test raises, as that of a
    [pymongo] [Database] does, every handler that writes [if db] raises
    [NotImplementedError] at that test and leaves the state as it was: no
    record is looked up and nothing is written.  These are all handlers
    but set-links and the connection test, which do not test the handle
    this way; the admin counts check the credential first. *)
Theorem untestable_handle_raises (sha256_hexdigest : string → string)
    (w : World) :
  untestable w →
  let raised := (Raise (Exception "NotImplementedError"), w) in
  (∀ req, signup sha256_hexdigest req w = raised) ∧
  (∀ req, login sha256_hexdigest req w = raised) ∧
  (∀ req user_id, create_product req user_id w = raised) ∧
  (∀ user_id, my_products user_id w = raised) ∧
  (∀ q category hot limit, list_products q category hot limit w = raised) ∧
  (∀ product_id, get_product product_id w = raised) ∧
  (∀ product_id req user_id,
     update_product product_id req user_id w = raised) ∧
  get_links w = raised ∧
  (∀ admin_email admin_password,
     admin_ok admin_email admin_password = true →
     admin_stats admin_email admin_password w = raised) ∧
  (∀ platform request user_id,
     redirect_platform platform request user_id w = raised) ∧
  (∀ product_id request user_id,
     redirect_product product_id request user_id w = raised) ∧
  (∀ product_id user_id, create_order product_id user_id w = raised) ∧
  (∀ user_id, list_orders user_id w = raised).
Proof.
  intros Hu raised. subst raised.
  pose proof (λ name id, find_by_id_if_db_raises name id w Hu) as Hid.
  pose proof (λ name, find_first_if_db_raises name w Hu) as Hfirst.
  pose proof (λ email, find_user_if_db_raises email w Hu) as Huser.
  assert (∀ name q k, find_sorted_if_db name q k w =
            (Raise (Exception "NotImplementedError"), w)) as Hsorted.
  { intros. by apply bind_bool_db_raises. }
  assert (∀ name q, count_if_db name q w =
            (Raise (Exception "NotImplementedError"), w)) as Hcount.
  { intros. by apply bind_bool_db_raises. }
  repeat split; intros;
    unfold signup, login, create_product, my_products, get_product,
      update_product, get_links, admin_stats, redirect_platform,
      redirect_product, create_order, list_orders;
    try (by apply list_products_raises);
    try match goal with H : admin_ok _ _ = true |- _ => rewrite H end;
    cbn [negb];
    by rewrite bind_run, ?Hid, ?Hfirst, ?Huser, ?Hsorted, ?Hcount.
Qed.

Lemma untestable_handle_raises_witness :
  get_product Sample.P (Sample.strict (Sample.listed Sample.ticking)) =
    (Raise (Exception "NotImplementedError"),
     Sample.strict (Sample.listed Sample.ticking)) ∧
  record_by_id (Sample.strict (Sample.listed Sample.ticking)) "product"
    Sample.P = Some Sample.product.
Proof.
  split; [|vm_compute; reflexivity].
  apply (untestable_handle_raises Demo.digest
           (Sample.strict (Sample.listed Sample.ticking))).
  split; [eexists; reflexivity | reflexivity].
Defined.
